(** * termenu: the grid menu engine of [termenu.py]

    A shallow embedding of the [Menu] class of [termenu.py] and of its two
    mixins, [SearchMixin] and [MultiSelectMixin], together with the keyboard
    loop of [Menu.show].

    Python integers are modelled by [Z] (Python 2 [/] and [%] on integers are
    floor division and floor modulo, which is what [Z.div] and [Z.modulo]
    compute for a non-zero divisor), byte strings by [string], lists by
    [list], the [set] of chosen options by [gset string].  A Python object is
    one record holding every attribute the three classes assign; exceptions
    are an explicit outcome. *)

From stdpp Require Import gmap strings list sorting.
From Stdlib Require Import ZArith Lia Ascii.

Open Scope Z_scope.

(** ** Python values, exceptions and built-ins *)

Inductive exn : Type :=
  | IndexError
  | ValueError
  | ZeroDivisionError
  | SourceError (what : string).

Inductive pyval : Type :=
  | PyNone
  | PyBool (b : bool)
  | PyStr (s : string)
  | PyList (l : list string).

(** Truth value of a Python object, as tested by [if ret:] and [if self.title:]. *)
Definition truthy (v : pyval) : bool :=
  match v with
  | PyNone => false
  | PyBool b => b
  | PyStr s => negb (String.eqb s EmptyString)
  | PyList l => match l with [] => false | _ => true end
  end.

Definition len {A} (l : list A) : Z := Z.of_nat (length l).
Definition slen (s : string) : Z := Z.of_nat (String.length s).

(** [l[i]]: negative indices count from the end, anything else out of range
    raises [IndexError]. *)
Definition py_index {A} (l : list A) (i : Z) : exn + A :=
  let j := if i <? 0 then i + len l else i in
  if (0 <=? j) && (j <? len l) then
    match l !! Z.to_nat j with
    | Some x => inr x
    | None => inl IndexError
    end
  else inl IndexError.

(** Normalisation of one bound of a slice. *)
Definition py_clip (n i : Z) : Z :=
  if i <? 0 then Z.max 0 (i + n) else Z.min i n.

(** [l[start:stop]]. *)
Definition py_slice {A} (l : list A) (start stop : Z) : list A :=
  let a := py_clip (len l) start in
  let b := py_clip (len l) stop in
  take (Z.to_nat (b - a)) (drop (Z.to_nat a) l).

(** [range(start, stop, step)] for a positive [step] (the only use in the
    source sits inside a loop that runs only when [step >= 1]). *)
Definition py_range (start stop step : Z) : list Z :=
  (λ k, start + Z.of_nat k * step) <$> seq 0 (Z.to_nat ((stop - start + step - 1) / step)).

(** [xrange(n)]. *)
Definition xrange (n : Z) : list Z := Z.of_nat <$> seq 0 (Z.to_nat n).

(** [l.index(x)]: [None] stands for the [ValueError]. *)
Fixpoint list_index (x : string) (l : list string) : option Z :=
  match l with
  | [] => None
  | y :: l' => if String.eqb x y then Some 0 else Z.succ <$> list_index x l'
  end.

(** [max(...)] of a sequence of integers; raises [ValueError] when empty. *)
Definition py_max (l : list Z) : exn + Z :=
  match l with
  | [] => inl ValueError
  | x :: l' => inr (foldl Z.max x l')
  end.

(** [a % b]. *)
Definition py_mod (a b : Z) : exn + Z :=
  if b =? 0 then inl ZeroDivisionError else inr (a mod b).

Definition chr_lower (c : ascii) : ascii :=
  let n := N_of_ascii c in
  if ((65 <=? n) && (n <=? 90))%N then ascii_of_N (n + 32) else c.

(** [s.lower()] on a byte string. *)
Fixpoint lower (s : string) : string :=
  match s with
  | EmptyString => EmptyString
  | String c s' => String (chr_lower c) (lower s')
  end.

(** [needle in hay] on strings. *)
Fixpoint str_in (needle hay : string) : bool :=
  String.prefix needle hay ||
  match hay with
  | EmptyString => false
  | String _ hay' => str_in needle hay'
  end.

(** [s[:-1]]. *)
Fixpoint drop_last (s : string) : string :=
  match s with
  | EmptyString => EmptyString
  | String c EmptyString => EmptyString
  | String c s' => String c (drop_last s')
  end.

(** [" " * n]. *)
Definition spaces (n : Z) : string :=
  String.string_of_list_ascii (replicate (Z.to_nat n) " "%char).

(** [list(sorted(s))] of a set of strings: ascending in the order of byte
    strings, [String.le]. *)
Definition sorted (s : gset string) : list string :=
  merge_sort String.le (elements s).

(** ** The terminal driver

    The [ansi] module is not part of the sources; its calls are recorded as
    a trace of operations, and styled text as spans. *)

Inductive span : Type :=
  | Text (s : string)
  | Colorized (s : string) (fg : string) (bg : option string) (bright : bool)
  | Newline.

Module ansi.

Inductive op : Type :=
  | write (data : list span)
  | clear_eol
  | clear_line
  | up (n : Z)
  | down (n : Z)
  | save_position
  | restore_position
  | hide_cursor
  | show_cursor.

(** [ansi.colorize(text, fg, bg, bright)] *)
Definition colorize (text fg : string) (bg : option string) (bright : bool) : list span :=
  [Colorized text fg bg bright].

End ansi.

(** ** The menu object *)

(** The three classes a menu object can be an instance of: [Menu] itself,
    and the two classes [show_menu] builds, [MenuClass(SearchMixin, Menu)]
    and [MenuClass(MultiSelectMixin, SearchMixin, Menu)]. *)
Inductive MenuClass : Type :=
  | PlainMenu
  | SearchMenu
  | MultiSelectMenu.

(** One record for the attributes of all three classes.  A plain [Menu]
    never reads the attributes of the mixins, which then keep the values
    [Menu_init] puts there. *)
Record Menu : Type := mkMenu {
  title : string;
  options : list string;
  width : Z;
  columns : Z;
  selected : Z;
  height : Z;
  first : Z;
  result : pyval;
  (* SearchMixin *)
  searchMode : bool;
  searchText : string;
  _allOptions : list string;
  _fullHeight : Z;
  _indexes : list Z;
  (* MultiSelectMixin *)
  selectedItems : gset string
}.

Definition set_options (v : list string) (m : Menu) : Menu :=
  mkMenu (title m) v (width m) (columns m) (selected m) (height m) (first m)
    (result m) (searchMode m) (searchText m) (_allOptions m) (_fullHeight m)
    (_indexes m) (selectedItems m).

Definition set_selected (v : Z) (m : Menu) : Menu :=
  mkMenu (title m) (options m) (width m) (columns m) v (height m) (first m)
    (result m) (searchMode m) (searchText m) (_allOptions m) (_fullHeight m)
    (_indexes m) (selectedItems m).

Definition set_first (v : Z) (m : Menu) : Menu :=
  mkMenu (title m) (options m) (width m) (columns m) (selected m) (height m) v
    (result m) (searchMode m) (searchText m) (_allOptions m) (_fullHeight m)
    (_indexes m) (selectedItems m).

Definition set_result (v : pyval) (m : Menu) : Menu :=
  mkMenu (title m) (options m) (width m) (columns m) (selected m) (height m)
    (first m) v (searchMode m) (searchText m) (_allOptions m) (_fullHeight m)
    (_indexes m) (selectedItems m).

Definition set_searchMode (v : bool) (m : Menu) : Menu :=
  mkMenu (title m) (options m) (width m) (columns m) (selected m) (height m)
    (first m) (result m) v (searchText m) (_allOptions m) (_fullHeight m)
    (_indexes m) (selectedItems m).

Definition set_searchText (v : string) (m : Menu) : Menu :=
  mkMenu (title m) (options m) (width m) (columns m) (selected m) (height m)
    (first m) (result m) (searchMode m) v (_allOptions m) (_fullHeight m)
    (_indexes m) (selectedItems m).

Definition set_indexes (v : list Z) (m : Menu) : Menu :=
  mkMenu (title m) (options m) (width m) (columns m) (selected m) (height m)
    (first m) (result m) (searchMode m) (searchText m) (_allOptions m)
    (_fullHeight m) v (selectedItems m).

Definition set_selectedItems (v : gset string) (m : Menu) : Menu :=
  mkMenu (title m) (options m) (width m) (columns m) (selected m) (height m)
    (first m) (result m) (searchMode m) (searchText m) (_allOptions m)
    (_fullHeight m) (_indexes m) v.

(** ** Construction *)

Definition MAX_COLUMNS : Z := 5.

Section Construction.

(** [get_terminal_size()]: (width, height) of the terminal. *)
Variable terminal_size : Z * Z.

Definition _compute_height (opts : list string) (height : option Z) : Z :=
  let maxHeight := snd terminal_size - 2 in
  let height := match height with None => maxHeight | Some h => h end in
  Z.min (Z.min (len opts) height) maxHeight.

Definition _compute_columns (width : Z) (columns : option Z) : Z :=
  let columns := match columns with None => MAX_COLUMNS | Some c => c end in
  Z.min columns (fst terminal_size / (width + 1)).

Definition _compute_default (opts : list string) (default : option string) : exn + Z :=
  let default :=
    match default with
    | None => 0
    | Some d => match list_index d opts with Some i => i | None => 0 end
    end in
  match py_mod default (len opts) with
  | inl e => inl e
  | inr r => inr (Z.max 0 r)
  end.

(** [Menu.__init__] *)
Definition Menu_init (title : string) (opts : list string)
    (default : option string) (height columns : option Z) : exn + Menu :=
  match py_max (slen <$> opts) with
  | inl e => inl e
  | inr width =>
    let columns := _compute_columns width columns in
    match _compute_default opts default with
    | inl e => inl e
    | inr selected =>
      let height := _compute_height opts height in
      match py_mod selected height with
      | inl e => inl e
      | inr r =>
        inr (mkMenu title opts width columns selected height (selected - r)
               PyNone false EmptyString [] 0 [] ∅)
      end
    end
  end.

End Construction.

(** ** The window model *)

Definition _items_in_page (m : Menu) : Z :=
  Z.min (height m * columns m) (len (options m)).

Definition _top_right (m : Menu) : Z := first m + height m * (columns m - 1).
Definition _bottom_right (m : Menu) : Z := first m + height m * columns m - 1.
Definition _top_left (m : Menu) : Z := first m.
Definition _bottom_left (m : Menu) : Z := first m + height m - 1.

Definition _adjust_selected (m : Menu) : Menu :=
  let m := if selected m <? 0 then set_selected 0 m else m in
  let m := if selected m >? len (options m) - 1
           then set_selected (len (options m) - 1) m else m in
  let m := if first m <? 0 then set_first 0 m else m in
  if first m >? len (options m) - _items_in_page m
  then set_first (len (options m) - _items_in_page m) m else m.

(** ** The navigation handlers of [Menu] *)

Definition _on_down (m : Menu) : Menu :=
  let m := if selected m =? first m + _items_in_page m - 1
           then set_first (first m + 1) m else m in
  let m := set_selected (selected m + 1) m in
  _adjust_selected m.

Definition _on_up (m : Menu) : Menu :=
  let m := if selected m =? first m then set_first (first m - 1) m else m in
  let m := set_selected (selected m - 1) m in
  _adjust_selected m.

Definition _on_right (m : Menu) : Menu :=
  let m :=
    if selected m >=? _top_right m then
      if selected m <? _bottom_right m then set_selected (_bottom_right m) m
      else if selected m =? _bottom_right m then
        let m := set_first (first m + height m) m in
        set_selected (selected m + height m) m
      else m
    else set_selected (selected m + height m) m in
  _adjust_selected m.

Definition _on_left (m : Menu) : Menu :=
  let m :=
    if selected m <=? _bottom_left m then
      if selected m >? _top_left m then set_selected (_top_left m) m
      else if selected m =? _top_left m then
        let m := set_first (first m - height m) m in
        set_selected (selected m - height m) m
      else m
    else set_selected (selected m - height m) m in
  _adjust_selected m.

Definition _on_pageDown (m : Menu) : Menu :=
  let m :=
    if selected m =? first m + _items_in_page m - 1 then
      let m := set_selected (selected m + _items_in_page m) m in
      set_first (first m + _items_in_page m) m
    else set_selected (first m + _items_in_page m - 1) m in
  _adjust_selected m.

Definition _on_pageUp (m : Menu) : Menu :=
  let m :=
    if selected m =? first m then
      let m := set_selected (selected m - _items_in_page m) m in
      set_first (first m - _items_in_page m) m
    else set_selected (first m) m in
  _adjust_selected m.

Definition _on_home (m : Menu) : Menu :=
  let m := set_selected 0 m in
  let m := set_first 0 m in
  _adjust_selected m.

Definition _on_end (m : Menu) : Menu :=
  let m := set_selected (len (options m) - 1) m in
  let m := set_first (selected m - _items_in_page m + 1) m in
  _adjust_selected m.

(** ** Handlers as methods

    A method call either returns a Python value or raises; both leave a
    (possibly mutated) object and the terminal operations issued so far. *)

Inductive outcome : Type :=
  | Returns (ret : pyval) (m : Menu) (out : list ansi.op)
  | Raises (e : exn) (m : Menu) (out : list ansi.op).

Definition method : Type := Menu → outcome.

(** A handler with no [return] statement: it returns [None]. *)
Definition returns_none (f : Menu → Menu) : method :=
  λ m, Returns PyNone (f m) [].

Definition Menu_on_enter : method := λ m,
  match py_index (options m) (selected m) with
  | inl e => Raises e m []
  | inr o => Returns (PyBool true) (set_result (PyStr o) m) []
  end.

Definition Menu_on_esc : method := λ m,
  Returns (PyBool true) (set_result PyNone m) [].

(** ** [SearchMixin] *)

Definition SearchMixin_init (m : Menu) : Menu :=
  mkMenu (title m) (options m) (width m) (columns m) (selected m) (height m)
    (first m) (result m) false EmptyString (options m) (height m) (_indexes m)
    (selectedItems m).

Definition _start_search (m : Menu) : Menu * list ansi.op :=
  if negb (searchMode m)
  then (set_searchMode true (set_searchText EmptyString m), [ansi.show_cursor])
  else (m, []).

Definition _refilter (m : Menu) : Menu :=
  let m :=
    if searchMode m then
      let filtered :=
        filter (λ io, str_in (lower (searchText m)) (lower io.2))
               (imap (λ i o, (Z.of_nat i, o)) (_allOptions m)) in
      let m := set_options (snd <$> filtered) m in
      set_indexes (fst <$> filtered) m
    else
      let m := set_options (_allOptions m) m in
      set_indexes (xrange (len (_allOptions m))) m in
  let m := set_selected 0 m in
  set_first 0 m.

Definition _stop_search (m : Menu) : Menu * list ansi.op :=
  if searchMode m
  then (_refilter (set_searchMode false m), [ansi.hide_cursor])
  else (m, []).

Definition _on_backspace (m : Menu) : Menu :=
  if searchMode m && negb (String.eqb (searchText m) EmptyString)
  then _refilter (set_searchText (drop_last (searchText m)) m)
  else m.

Definition SearchMixin_on_esc : method := λ m,
  if searchMode m then
    let '(m, out) := _stop_search m in
    Returns (PyBool false) m out
  else Menu_on_esc m.

(** ** [MultiSelectMixin]

    [_build_marker] is left out: nothing calls it. *)

Definition MultiSelectMixin_init (m : Menu) : Menu :=
  set_selectedItems ∅ m.

Definition MultiSelectMixin_on_enter : method := λ m,
  let filled :=
    if decide (selectedItems m = ∅) then
      match py_index (options m) (selected m) with
      | inl e => inl e
      | inr o => inr (set_selectedItems ({[o]} ∪ selectedItems m) m)
      end
    else inr m in
  match filled with
  | inl e => Raises e m []
  | inr m => Returns (PyBool true) (set_result (PyList (sorted (selectedItems m))) m) []
  end.

(** The class is only ever instantiated with [SearchMixin] next in the
    method resolution order, so [super()._on_esc] is [SearchMixin._on_esc]. *)
Definition MultiSelectMixin_on_esc : method := λ m,
  SearchMixin_on_esc (set_result (PyList []) m).

Definition _on_space : method := λ m,
  match py_index (options m) (selected m) with
  | inl e => Raises e m []
  | inr option =>
    let m :=
      if decide (option ∈ selectedItems m)
      then set_selectedItems (selectedItems m ∖ {[option]}) m
      else set_selectedItems ({[option]} ∪ selectedItems m) m in
    Returns PyNone (_on_down m) []
  end.

(** ** Dispatch by handler name *)

Definition Menu_methods : list (string * method) :=
  [ ("_on_down", returns_none _on_down);
    ("_on_up", returns_none _on_up);
    ("_on_right", returns_none _on_right);
    ("_on_left", returns_none _on_left);
    ("_on_pageDown", returns_none _on_pageDown);
    ("_on_pageUp", returns_none _on_pageUp);
    ("_on_home", returns_none _on_home);
    ("_on_end", returns_none _on_end);
    ("_on_enter", Menu_on_enter);
    ("_on_esc", Menu_on_esc) ].

Definition SearchMixin_methods : list (string * method) :=
  [ ("_on_backspace", returns_none _on_backspace);
    ("_on_esc", SearchMixin_on_esc) ].

Definition MultiSelectMixin_methods : list (string * method) :=
  [ ("_on_enter", MultiSelectMixin_on_enter);
    ("_on_esc", MultiSelectMixin_on_esc);
    ("_on_space", _on_space) ].

(** The handlers visible on an instance, in method resolution order. *)
Definition handlers (cls : MenuClass) : list (string * method) :=
  match cls with
  | PlainMenu => Menu_methods
  | SearchMenu => SearchMixin_methods ++ Menu_methods
  | MultiSelectMenu => MultiSelectMixin_methods ++ SearchMixin_methods ++ Menu_methods
  end.

(** [getattr(self, name)], [None] when [hasattr] is false. *)
Fixpoint getattr (name : string) (l : list (string * method)) : option method :=
  match l with
  | [] => None
  | (n, h) :: l' => if String.eqb name n then Some h else getattr name l'
  end.

Definition Menu_dispatch_key (cls : MenuClass) (key : string) : method := λ m,
  match getattr ("_on_" +:+ key) (handlers cls) with
  | Some handler => handler m
  | None => Returns PyNone m []
  end.

(** [len(key) == 1 and 32 < ord(key) < 127] *)
Definition is_printable (key : string) : bool :=
  match key with
  | String c EmptyString => ((32 <? N_of_ascii c) && (N_of_ascii c <? 127))%N
  | _ => false
  end.

Definition SearchMixin_dispatch_key (cls : MenuClass) (key : string) : method := λ m,
  if is_printable key then
    let '(m, out) := _start_search m in
    let m := set_searchText (searchText m +:+ key) m in
    Returns PyNone (_refilter m) out
  else Menu_dispatch_key cls key m.

Definition _dispatch_key (cls : MenuClass) (key : string) : method :=
  match cls with
  | PlainMenu => Menu_dispatch_key cls key
  | SearchMenu | MultiSelectMenu => SearchMixin_dispatch_key cls key
  end.

(** The constructor of each class: the [__init__] chain along the method
    resolution order. *)
Definition new (cls : MenuClass) (terminal_size : Z * Z) (title : string)
    (opts : list string) (default : option string) (height columns : option Z)
    : exn + Menu :=
  match Menu_init terminal_size title opts default height columns with
  | inl e => inl e
  | inr m =>
    match cls with
    | PlainMenu => inr m
    | SearchMenu => inr (_refilter (SearchMixin_init m))
    | MultiSelectMenu => inr (MultiSelectMixin_init (_refilter (SearchMixin_init m)))
    end
  end.

(** ** Rendering *)

Definition _build_left_marker (m : Menu) (index : Z) : list span :=
  if (index >? 0) && (index =? _top_left m) then ansi.colorize "^" "white" None true
  else if (_top_left m <=? index) && (index <=? _bottom_left m) then [Text " "]
  else [].

Definition _build_right_marker (m : Menu) (index : Z) : list span :=
  if (index <? len (options m) - 1) && (index =? _bottom_right m)
  then ansi.colorize "v" "white" None true
  else if (_top_right m <=? index) && (index <=? _bottom_right m) then [Text " "]
  else [].

Definition Menu_colorize_item (m : Menu) (index : Z) (item : string) : list span :=
  if index =? selected m then ansi.colorize item "black" (Some "white") false
  else [Text item].

(** Only called on [index >= 0], where the indexing cannot raise once
    [index < len(self.options)] has been checked. *)
Definition _is_multi_selected (m : Menu) (index : Z) : bool :=
  (index <? len (options m)) &&
  match py_index (options m) index with
  | inr o => bool_decide (o ∈ selectedItems m)
  | inl _ => false
  end.

Definition MultiSelectMixin_colorize_item (m : Menu) (index : Z) (item : string)
    : list span :=
  let multiSelected := _is_multi_selected m index in
  if index =? selected m then
    if multiSelected then ansi.colorize item "red" (Some "white") false
    else ansi.colorize item "black" (Some "white") false
  else if multiSelected then ansi.colorize item "red" None false
  else [Text item].

Definition _colorize_item (cls : MenuClass) : Menu → Z → string → list span :=
  match cls with
  | MultiSelectMenu => MultiSelectMixin_colorize_item
  | PlainMenu | SearchMenu => Menu_colorize_item
  end.

Definition _build_menu_item (cls : MenuClass) (m : Menu) (index : Z)
    (option : string) : list span :=
  let item := option +:+ spaces (width m - slen option) in
  _build_left_marker m index ++ _colorize_item cls m index item
    ++ _build_right_marker m index.

(** [sep.join(items)] on styled text. *)
Fixpoint join (sep : list span) (items : list (list span)) : list span :=
  match items with
  | [] => []
  | [x] => x
  | x :: items' => x ++ sep ++ join sep items'
  end.

Definition Menu_print_menu (cls : MenuClass) (m : Menu) : list ansi.op :=
  let page := py_slice (options m) (first m) (first m + height m * columns m) in
  xrange (height m) ≫= λ row,
    let lineItemIndexes := py_range row (row + len page) (height m) in
    let items :=
      lineItemIndexes ≫= λ index,
        if index <? len page then
          match py_index page index with
          | inr o => [_build_menu_item cls m (first m + index) o]
          | inl _ => []
          end
        else [] in
    [ansi.write (join [Text " "] items); ansi.clear_eol; ansi.write [Newline]].

Definition SearchMixin_print_menu (cls : MenuClass) (m : Menu) : list ansi.op :=
  (match options m with
   | _ :: _ => Menu_print_menu cls m
   | [] => xrange (height m) ≫= λ _, [ansi.clear_line; ansi.down 1]
   end)
  ++ [ansi.clear_line]
  ++ (if searchMode m then [ansi.write [Text ("/" +:+ searchText m)]] else []).

Definition _print_menu (cls : MenuClass) (m : Menu) : list ansi.op :=
  match cls with
  | PlainMenu => Menu_print_menu cls m
  | SearchMenu | MultiSelectMenu => SearchMixin_print_menu cls m
  end.

Definition _clear_menu (m : Menu) : list ansi.op :=
  let lines := height m in
  let lines := if truthy (PyStr (title m)) then lines + 1 else lines in
  [ansi.restore_position; ansi.up lines]
  ++ (xrange lines ≫= λ _, [ansi.clear_line; ansi.down 1])
  ++ [ansi.clear_line; ansi.up lines].

(** ** The keyboard loop *)

(** What [keyboard.keyboard_listener()] does when asked for its next item:
    it yields a key or raises; the end of the list is the end of the
    stream. *)
Inductive event : Type :=
  | Key (k : string)
  | SourceFails (e : exn).

(** Prefix the operations already issued to those of what follows. *)
Definition after (out : list ansi.op) (o : outcome) : outcome :=
  match o with
  | Returns r m out' => Returns r m (out ++ out')
  | Raises e m out' => Raises e m (out ++ out')
  end.

(** The [for] loop inside the [try] of [show]. *)
Fixpoint keyboard_loop (cls : MenuClass) (m : Menu) (src : list event) : outcome :=
  match src with
  | [] => Returns PyNone m []
  | SourceFails e :: _ => Raises e m []
  | Key key :: src' =>
    match _dispatch_key cls key m with
    | Raises e m out => Raises e m out
    | Returns ret m out =>
      if truthy ret then Returns (result m) m out
      else
        after (out ++ [ansi.restore_position; ansi.up (height m)] ++ _print_menu cls m)
              (keyboard_loop cls m src')
    end
  end.

(** What [show] issues before entering the [try]. *)
Definition show_prologue (cls : MenuClass) (m : Menu) : list ansi.op :=
  (if truthy (PyStr (title m))
   then [ansi.write (ansi.colorize (title m) "white" None true ++ [Newline])]
   else [])
  ++ _print_menu cls m
  ++ [ansi.save_position; ansi.hide_cursor].

(** The [finally] clause of [show], run on the object as the [try] left it. *)
Definition show_finally (o : outcome) : outcome :=
  match o with
  | Returns r m out => Returns r m (out ++ _clear_menu m ++ [ansi.show_cursor])
  | Raises e m out => Raises e m (out ++ _clear_menu m ++ [ansi.show_cursor])
  end.

Definition show (cls : MenuClass) (m : Menu) (src : list event) : outcome :=
  after (show_prologue cls m) (show_finally (keyboard_loop cls m src)).

(** [show_menu(title, options, default, height, multiSelect)] *)
Definition show_menu (terminal_size : Z * Z) (title : string)
    (opts : list string) (default : option string) (height : option Z)
    (multiSelect : bool) (src : list event) : exn + outcome :=
  let cls := if multiSelect then MultiSelectMenu else SearchMenu in
  match new cls terminal_size title opts default height None with
  | inl e => inl e
  | inr menu => inr (show cls menu src)
  end.

(** ** Vocabulary of the properties *)

(** The keys whose handler moves the cursor and ends with [_adjust_selected]. *)
Definition navigation_keys : list string :=
  ["down"; "up"; "right"; "left"; "pageDown"; "pageUp"; "home"; "end"].

(** The object after the keyboard loop has consumed [keys] and is still
    running: [None] if a handler raised or the widget was finalized. *)
Fixpoint press (cls : MenuClass) (keys : list string) (m : Menu) : option Menu :=
  match keys with
  | [] => Some m
  | key :: keys' =>
    match _dispatch_key cls key m with
    | Returns ret m' _ => if truthy ret then None else press cls keys' m'
    | Raises _ _ _ => None
    end
  end.

(** The value [show] hands back to its caller, if it returns. *)
Definition returned (o : outcome) : option pyval :=
  match o with
  | Returns r _ _ => Some r
  | Raises _ _ _ => None
  end.

Definition output (o : outcome) : list ansi.op :=
  match o with
  | Returns _ _ out => out
  | Raises _ _ out => out
  end.

Definition object (o : outcome) : Menu :=
  match o with
  | Returns _ m _ => m
  | Raises _ m _ => m
  end.

(** A configuration the engine is meant to run on. *)
Definition valid (m : Menu) : Prop :=
  1 ≤ height m ∧ 1 ≤ columns m ∧ 1 ≤ len (options m).

(** The bounds [_adjust_selected] establishes. *)
Definition clamped (m : Menu) : Prop :=
  (0 ≤ selected m < len (options m)) ∧
  (0 ≤ first m ≤ Z.max 0 (len (options m) - _items_in_page m)).

(** Index [i] of the option list is on the page sliced by [_print_menu],
    [options[first : first + height*columns]]. *)
Definition in_page (m : Menu) (i : Z) : bool :=
  (first m <=? i) && (i <? first m + height m * columns m)
  && (0 <=? i) && (i <? len (options m)).

(** [k] presses of pageDown. *)
Definition pageDowns (k : nat) (m : Menu) : Menu := Nat.iter k _on_pageDown m.

(** ** An idealised screen

    Modelled from the spec: the terminal driver ([ansi]) is absent from the
    sources; the spec lists its operations as move-cursor up/down by N,
    clear-line, clear-to-end-of-line, save/restore cursor position and
    show/hide cursor.  The screen below keeps what the erase-on-exit
    property needs: the row of the cursor, the saved row, the rows that
    hold text, and whether the cursor is shown.  Rows are unbounded (no
    scrolling) and text never wraps. *)

Record screen : Type := mkScreen {
  row : Z;
  saved_row : Z;
  inked : gset Z;
  cursor_shown : bool
}.

(** Writing a span puts text on the current row; a line break moves down. *)
Definition put (s : screen) (sp : span) : screen :=
  match sp with
  | Newline => mkScreen (row s + 1) (saved_row s) (inked s) (cursor_shown s)
  | Text _ | Colorized _ _ _ _ =>
    mkScreen (row s) (saved_row s) ({[row s]} ∪ inked s) (cursor_shown s)
  end.

Definition exec (s : screen) (o : ansi.op) : screen :=
  match o with
  | ansi.write data => foldl put s data
  | ansi.clear_eol => s
  | ansi.clear_line => mkScreen (row s) (saved_row s) (inked s ∖ {[row s]}) (cursor_shown s)
  | ansi.up n => mkScreen (row s - n) (saved_row s) (inked s) (cursor_shown s)
  | ansi.down n => mkScreen (row s + n) (saved_row s) (inked s) (cursor_shown s)
  | ansi.save_position => mkScreen (row s) (row s) (inked s) (cursor_shown s)
  | ansi.restore_position => mkScreen (saved_row s) (saved_row s) (inked s) (cursor_shown s)
  | ansi.hide_cursor => mkScreen (row s) (saved_row s) (inked s) false
  | ansi.show_cursor => mkScreen (row s) (saved_row s) (inked s) true
  end.

Definition run_screen (ops : list ansi.op) (s : screen) : screen :=
  foldl exec s ops.

(** Number of terminal lines [_clear_menu] walks over. *)
Definition menu_lines (m : Menu) : Z :=
  if truthy (PyStr (title m)) then height m + 1 else height m.

(** Everything in the object but the cursor and the window. *)
Definition rest (m : Menu) :=
  (title m, options m, width m, columns m, height m, result m, searchMode m,
   searchText m, _allOptions m, _fullHeight m, _indexes m, selectedItems m).

(** A handler that ends with the clamp and changes nothing but [selected]
    and [first]. *)
Definition ends_with_clamp (h : Menu → Menu) : Prop :=
  ∀ m, ∃ m1, h m = _adjust_selected m1 ∧ rest m1 = rest m.


(** [first] sits on a page boundary. *)
Definition page_aligned (m : Menu) : Prop :=
  (height m * columns m | first m).

(** What [show_menu] hands back, if it returns. *)
Definition returned_by (r : exn + outcome) : option pyval :=
  match r with
  | inl _ => None
  | inr o => returned o
  end.

(** The five-option menu of the scrolling scenario, as [Menu.__init__]
    builds it with height 3 and one column on a terminal large enough. *)
Definition abcde (title : string) : Menu :=
  mkMenu title ["a"; "b"; "c"; "d"; "e"] 1 1 0 3 0 PyNone false EmptyString [] 0 [] ∅.

(** The same menu as an instance of [MenuClass(SearchMixin, Menu)]. *)
Definition abcde_search (title : string) : Menu :=
  mkMenu title ["a"; "b"; "c"; "d"; "e"] 1 1 0 3 0 PyNone false EmptyString
    ["a"; "b"; "c"; "d"; "e"] 3 [0; 1; 2; 3; 4] ∅.

(** The scrolling scenario on an instance of class [cls]: five options,
    height 3, one column, no default; three [down] keys, then [enter]. *)
Definition scrolling_scenario (cls : MenuClass) (ts : Z * Z) (title : string) : Prop :=
  ∃ m0,
    new cls ts title ["a"; "b"; "c"; "d"; "e"] None (Some 3) (Some 1) = inr m0 ∧
    selected m0 = 0 ∧ first m0 = 0 ∧
    (∃ m2, press cls ["down"; "down"] m0 = Some m2 ∧ first m2 = 0 ∧ selected m2 = 2) ∧
    (∃ m3, press cls ["down"; "down"; "down"] m0 = Some m3 ∧
           first m3 = 1 ∧ selected m3 = 3) ∧
    ∀ src, returned (show cls m0 (Key "down" :: Key "down" :: Key "down"
                                   :: Key "enter" :: src))
           = Some (PyStr "d").

(** The three-option multi-select menu [show_menu] builds when the terminal
    leaves room for [c] columns. *)
Definition xyz (title : string) (c : Z) : Menu :=
  mkMenu title ["x"; "y"; "z"] 1 c 0 3 0 PyNone false EmptyString
    ["x"; "y"; "z"] 3 [0; 1; 2] ∅.

(** [space] on a set of chosen options. *)
Definition toggle (o : string) (s : gset string) : gset string :=
  if decide (o ∈ s) then s ∖ {[o]} else {[o]} ∪ s.

(** The menu [show_menu] builds for four fruit names on an 80x24 terminal. *)
Definition fruit : Menu :=
  mkMenu "Fruit" ["apple"; "buzz"; "fizz"; "grape"] 5 5 0 4 0 PyNone false EmptyString
    ["apple"; "buzz"; "fizz"; "grape"] 4 [0; 1; 2; 3] ∅.

(** [fruit] after the query "z" has been typed. *)
Definition fruit_z : Menu :=
  mkMenu "Fruit" ["buzz"; "fizz"] 5 5 0 4 0 PyNone true "z"
    ["apple"; "buzz"; "fizz"; "grape"] 4 [1; 2] ∅.

(** [fruit] after the query "q", which no option contains, has been typed. *)
Definition fruit_q : Menu :=
  mkMenu "Fruit" [] 5 5 0 4 0 PyNone true "q"
    ["apple"; "buzz"; "fizz"; "grape"] 4 [] ∅.

(** The window is clamped and the cursor sits on the page: the invariant of
    a tour by pageDown. *)
Definition cursor_on_page (m : Menu) : Prop :=
  valid m ∧
  0 ≤ first m ≤ len (options m) - _items_in_page m ∧
  first m ≤ selected m ≤ first m + _items_in_page m - 1.




(** ** Vocabulary of the further properties *)

(** The keys for which an instance of [cls] has a handler [_on_<key>]. *)
Definition handler_keys (cls : MenuClass) : list string :=
  match cls with
  | PlainMenu => navigation_keys ++ ["enter"; "esc"]
  | SearchMenu => navigation_keys ++ ["enter"; "esc"; "backspace"]
  | MultiSelectMenu => navigation_keys ++ ["enter"; "esc"; "backspace"; "space"]
  end.

(** The keys that do something on an instance of [cls]: those with a
    handler and, with the search mixin, the printable characters. *)
Definition claimed (cls : MenuClass) (key : string) : bool :=
  bool_decide (key ∈ handler_keys cls) ||
  match cls with
  | PlainMenu => false
  | SearchMenu | MultiSelectMenu => is_printable key
  end.

(** The test of [_refilter]: the query occurs in the option, case ignored. *)
Definition matches (q o : string) : bool := str_in (lower q) (lower o).

(** What is visible and what is chosen comes from the full option list. *)
Definition within_options (m : Menu) : Prop :=
  (∀ o, o ∈ options m → o ∈ _allOptions m) ∧
  (∀ o, o ∈ selectedItems m → o ∈ _allOptions m).

(** A result of a confirmed selection over the options [all]: one of them
    in a single-select menu, a non-empty ascending list of distinct ones in
    a multi-select menu. *)
Definition confirmed_result (cls : MenuClass) (all : list string) (r : pyval) : Prop :=
  match cls with
  | MultiSelectMenu =>
    ∃ l, r = PyList l ∧ l ≠ [] ∧ StronglySorted String.le l ∧ NoDup l ∧
         ∀ o, o ∈ l → o ∈ all
  | PlainMenu | SearchMenu => ∃ s, r = PyStr s ∧ s ∈ all
  end.

(** A method that keeps [within_options] and the full list, and that
    finalizes only with [None] or a confirmed result. *)
Definition chooses_among (cls : MenuClass) (h : method) : Prop :=
  ∀ m, within_options m →
    match h m with
    | Returns ret m' _ =>
      within_options m' ∧ _allOptions m' = _allOptions m ∧
      (truthy ret = true →
       result m' = PyNone ∨ confirmed_result cls (_allOptions m) (result m'))
    | Raises _ _ _ => True
    end.

(** A menu of seven options on two rows and two columns. *)
Definition grid : Menu :=
  mkMenu "Grid" ["a"; "b"; "c"; "d"; "e"; "f"; "g"] 1 2 0 2 0 PyNone false
    EmptyString [] 0 [] ∅.

(** The page [_print_menu] slices out of the option list. *)
Definition page (m : Menu) : list string :=
  py_slice (options m) (first m) (first m + height m * columns m).

(** The positions in the page of the items [_print_menu] puts on line
    [row]: those of [range(row, row+len(page), self.height)] that pass the
    test [index < len(page)]. *)
Definition row_indexes (m : Menu) (row : Z) : list Z :=
  filter (λ index, index < len (page m))
         (py_range row (row + len (page m)) (height m)).

(** The cursor indexes the visible list, unless that list is empty. *)
Definition cursor_in_list (m : Menu) : Prop :=
  options m = [] ∨ 0 ≤ selected m < len (options m).

(** A method that keeps [cursor_in_list] and raises nothing but the
    [IndexError] of indexing an empty visible list. *)
Definition raises_only_on_empty (h : method) : Prop :=
  ∀ m, cursor_in_list m →
    match h m with
    | Returns _ m' _ => cursor_in_list m'
    | Raises e m' _ => e = IndexError ∧ options m' = []
    end.

(** [k] presses of pageUp, and of down. *)
Definition pageUps (k : nat) (m : Menu) : Menu := Nat.iter k _on_pageUp m.
Definition downs (k : nat) (m : Menu) : Menu := Nat.iter k _on_down m.

Definition ups (k : nat) (m : Menu) : Menu := Nat.iter k _on_up m.

(** The two scroll markers. *)
Definition up_marker : list span := ansi.colorize "^" "white" None true.
Definition down_marker : list span := ansi.colorize "v" "white" None true.

(** The show/hide of the text cursor that goes with a change of
    [searchMode]. *)
Definition cursor_op (before after : bool) : list ansi.op :=
  match before, after with
  | false, true => [ansi.show_cursor]
  | true, false => [ansi.hide_cursor]
  | _, _ => []
  end.

(** A method whose only terminal output is the show/hide of the text cursor
    that goes with what it does to [searchMode]. *)
Definition follows_search (h : method) : Prop :=
  ∀ m, output (h m) = cursor_op (searchMode m) (searchMode (object (h m))).

(** Operations that neither show nor hide the text cursor. *)
Definition paints_only (ops : list ansi.op) : Prop :=
  Forall (λ o, o ≠ ansi.show_cursor ∧ o ≠ ansi.hide_cursor) ops.

(** * The menus of [src/termenu/termenu.py]

    The older module holds two widgets that do not use the grid engine: the
    one-line [Menu] and the [VerticalMenu].  Both write through
    [self._print], recorded here as [ansi.write]. *)

(** [sep.join(l)] on strings. *)
Fixpoint str_join (sep : string) (l : list string) : string :=
  match l with
  | [] => EmptyString
  | [x] => x
  | x :: l' => x +:+ sep +:+ str_join sep l'
  end.

(** The [default] argument of the two constructors when it is not [None]:
    an integer or a string. *)
Inductive default_arg : Type :=
  | DefaultIndex (i : Z)
  | DefaultName (s : string).

(** The first lines of both [__init__]: the index the default stands for. *)
Definition default_index (opts : list string) (default : option default_arg) : Z :=
  match default with
  | None => 0
  | Some (DefaultName s) => match list_index s opts with Some i => i | None => 0 end
  | Some (DefaultIndex i) => i
  end.

(** [l[i] = v]. *)
Definition py_setitem {A} (l : list A) (i : Z) (v : A) : exn + list A :=
  let j := if i <? 0 then i + len l else i in
  if (0 <=? j) && (j <? len l) then inr (<[Z.to_nat j := v]> l) else inl IndexError.

(** [[l[i] for i in is]]. *)
Fixpoint py_indexes {A} (l : list A) (indexes : list Z) : exn + list A :=
  match indexes with
  | [] => inr []
  | i :: indexes' =>
    match py_index l i with
    | inl e => inl e
    | inr x =>
      match py_indexes l indexes' with
      | inl e => inl e
      | inr xs => inr (x :: xs)
      end
    end
  end.

(** [sorted(s)] of a set of integers. *)
Definition sorted_ints (s : gset Z) : list Z := merge_sort Z.le (elements s).

(** The carriage return. *)
Definition cr : string := String (ascii_of_nat 13) EmptyString.

(** A call of [show] on an object of type [M]: it returns a value or
    raises, and leaves the object and the terminal operations issued. *)
Inductive ran (M : Type) : Type :=
  | Returned (ret : pyval) (m : M) (out : list ansi.op)
  | Raised (e : exn) (m : M) (out : list ansi.op).
Arguments Returned {M} ret m out.
Arguments Raised {M} e m out.

Definition ran_after {M} (out : list ansi.op) (o : ran M) : ran M :=
  match o with
  | Returned r m out' => Returned r m (out ++ out')
  | Raised e m out' => Raised e m (out ++ out')
  end.

Definition ran_value {M} (o : ran M) : exn + pyval :=
  match o with
  | Returned r _ _ => inr r
  | Raised e _ _ => inl e
  end.

Definition ran_object {M} (o : ran M) : M :=
  match o with
  | Returned _ m _ => m
  | Raised _ m _ => m
  end.

Definition ran_output {M} (o : ran M) : list ansi.op :=
  match o with
  | Returned _ _ out => out
  | Raised _ _ out => out
  end.

(** ** The one-line [Menu] *)

Module Line.

Definition MARGIN : Z := 5.

Record Menu : Type := mkMenu {
  title : string;
  options : list string;
  clearOnExit : bool;
  separator : string;
  selected : Z
}.

Definition set_selected (v : Z) (m : Menu) : Menu :=
  mkMenu (title m) (options m) (clearOnExit m) (separator m) v.

(** [Menu.__init__].  [self.slices] is the closure over the [options]
    argument, of which [self.options] is a copy; nothing changes either. *)
Definition Menu_init (title : string) (opts : list string)
    (default : option default_arg) (clearOnExit : bool) (separator : string)
    : exn + Menu :=
  match py_mod (default_index opts default) (len opts) with
  | inl e => inl e
  | inr r => inr (mkMenu title opts clearOnExit separator (Z.max 0 r))
  end.

(** The body of the [for] loop of [_paginate], on the state
    [(slices, start, contents)]. *)
Definition _paginate_step (m : Menu) (maxWidth : Z)
    (st : list (Z * Z) * Z * list string) (io : Z * string)
    : list (Z * Z) * Z * list string :=
  let '(slices, start, contents) := st in
  let '(i, option) := io in
  let contents := contents ++ [option] in
  if slen (title m) + slen (str_join (separator m) contents) + MARGIN >? maxWidth
  then (slices ++ [(start, i)], i, [option])
  else (slices, start, contents).

Definition _paginate (m : Menu) (opts : list string) (maxWidth : Z) : list (Z * Z) :=
  let '(slices, start, _) :=
    foldl (_paginate_step m maxWidth) ([], 0, [])
          (imap (λ i o, (Z.of_nat i, o)) opts) in
  slices ++ [(start, len opts)].

(** [self.slices()], on a terminal [maxWidth] columns wide. *)
Definition slices (m : Menu) (maxWidth : Z) : list (Z * Z) :=
  _paginate m (options m) maxWidth.

(** [_print_menu] on a terminal [maxWidth] columns wide.  The unpacking
    [[(first, last)] = ...] raises [ValueError] unless exactly one slice
    holds the cursor. *)
Definition _print_menu (maxWidth : Z) (m : Menu) : exn + list ansi.op :=
  match filter (λ se, se.1 ≤ selected m < se.2) (slices m maxWidth) with
  | [(first, last)] =>
    match py_index (options m) (selected m) with
    | inl e => inl e
    | inr chosen =>
      match py_setitem ((λ o, [Text o]) <$> options m) (selected m)
              (ansi.colorize chosen "black" (Some "white") false) with
      | inl e => inl e
      | inr optionsCopy =>
        let optionsStr := join [Text (separator m)] (py_slice optionsCopy first last) in
        let optionsStr :=
          if first >? 0
          then ansi.colorize "< " "white" None true ++ optionsStr
          else optionsStr in
        let optionsStr :=
          if last <? len (options m)
          then optionsStr ++ ansi.colorize " >" "white" None true
          else optionsStr in
        inr [ansi.clear_line; ansi.write [Text cr];
             ansi.write (ansi.colorize (title m) "white" None true ++ optionsStr)]
      end
    end
  | _ => inl ValueError
  end.

(** The [for] loop of [show].  [tty n] is the width [get_terminal_size]
    reports at the [n]-th drawing of the menu. *)
Fixpoint keyboard_loop (tty : nat → Z) (n : nat) (m : Menu) (src : list event)
    : ran Menu :=
  match src with
  | [] => Returned PyNone m []
  | SourceFails e :: _ => Raised e m []
  | Key key :: src' =>
    let redraw m :=
      match _print_menu (tty n) m with
      | inl e => Raised e m []
      | inr out => ran_after out (keyboard_loop tty (S n) m src')
      end in
    if String.eqb key "right" then
      redraw (if selected m <? len (options m) - 1
              then set_selected (selected m + 1) m else m)
    else if String.eqb key "left" then
      redraw (if selected m >? 0 then set_selected (selected m - 1) m else m)
    else if String.eqb key "enter" then
      match py_index (options m) (selected m) with
      | inl e => Raised e m []
      | inr o => Returned (PyStr o) m []
      end
    else if String.eqb key "esc" then Returned PyNone m []
    else redraw m
  end.

(** The [finally] clause of [show]. *)
Definition show_finally (o : ran Menu) : ran Menu :=
  let cleanup m :=
    (if clearOnExit m then [ansi.clear_line; ansi.write [Text cr]]
     else [ansi.write [Newline]])
    ++ [ansi.show_cursor] in
  match o with
  | Returned r m out => Returned r m (out ++ cleanup m)
  | Raised e m out => Raised e m (out ++ cleanup m)
  end.

Definition show (tty : nat → Z) (m : Menu) (src : list event) : ran Menu :=
  ran_after [ansi.hide_cursor]
    (show_finally
       (match _print_menu (tty 0%nat) m with
        | inl e => Raised e m []
        | inr out => ran_after out (keyboard_loop tty 1 m src)
        end)).

(** [show_menu(title, options, default, clearOnExit)] of the older module. *)
Definition show_menu (tty : nat → Z) (title : string) (opts : list string)
    (default : option default_arg) (clearOnExit : bool) (src : list event)
    : exn + ran Menu :=
  match Menu_init title opts default clearOnExit "  " with
  | inl e => inl e
  | inr menu => inr (show tty menu src)
  end.

End Line.

(** ** The [VerticalMenu] *)

Module Vertical.

Record VerticalMenu : Type := mkVerticalMenu {
  title : string;
  options : list string;
  selected : Z;
  width : Z;
  clearOnExit : bool;
  height : Z;
  first : Z;
  multiSelect : bool;
  selectedItems : gset Z
}.

Definition set_selected (v : Z) (m : VerticalMenu) : VerticalMenu :=
  mkVerticalMenu (title m) (options m) v (width m) (clearOnExit m) (height m)
    (first m) (multiSelect m) (selectedItems m).

Definition set_first (v : Z) (m : VerticalMenu) : VerticalMenu :=
  mkVerticalMenu (title m) (options m) (selected m) (width m) (clearOnExit m)
    (height m) v (multiSelect m) (selectedItems m).

Definition set_selectedItems (v : gset Z) (m : VerticalMenu) : VerticalMenu :=
  mkVerticalMenu (title m) (options m) (selected m) (width m) (clearOnExit m)
    (height m) (first m) (multiSelect m) v.

(** [VerticalMenu.__init__] on a terminal of size [terminal_size]
    (width, height).  [selectedItems] exists only on a multi-select menu;
    the code reads it only behind a test of [multiSelect]. *)
Definition VerticalMenu_init (terminal_size : Z * Z) (title : string)
    (opts : list string) (default : option default_arg) (clearOnExit : bool)
    (height : option Z) (multiSelect : bool) : exn + VerticalMenu :=
  match py_mod (default_index opts default) (len opts) with
  | inl e => inl e
  | inr r =>
    let selected := Z.max 0 r in
    match py_max (slen <$> opts) with
    | inl e => inl e
    | inr width =>
      let maxHeight := snd terminal_size - 2 in
      let height :=
        match height with
        | None => maxHeight
        | Some h => if (h =? 0) || (h >? maxHeight) then maxHeight else h
        end in
      let height := Z.min (len opts) height in
      match py_mod selected height with
      | inl e => inl e
      | inr r' =>
        inr (mkVerticalMenu title opts selected width clearOnExit height
               (selected - r') multiSelect ∅)
      end
    end
  end.

(** One line of [_print_menu]: the data of its [self._print(line)]. *)
Definition menu_line (m : VerticalMenu) (i : Z) (option : string) : list span :=
  let marker :=
    if (i =? 0) && negb (first m =? 0) then ansi.colorize "^" "white" None true
    else if (i =? height m - 1) && (first m + height m <? len (options m))
    then ansi.colorize "v" "white" None true
    else [Text " "] in
  let multiSelected := multiSelect m && bool_decide (first m + i ∈ selectedItems m) in
  let marker := marker ++ [Text (if multiSelected then "*" else " ")] in
  let line := option +:+ spaces (width m - slen option) in
  let line :=
    if first m + i =? selected m then
      if multiSelected then ansi.colorize line "black" (Some "cyan") false
      else ansi.colorize line "black" (Some "white") false
    else if multiSelected then ansi.colorize line "black" (Some "blue") false
    else [Text line] in
  marker ++ line ++ [Newline].

(** The page of [_print_menu], padded with empty lines. *)
Definition page (m : VerticalMenu) : list string :=
  let options := py_slice (options m) (first m) (first m + height m) in
  options ++ replicate (Z.to_nat (height m - len options)) EmptyString.

Definition _print_menu (redraw : bool) (m : VerticalMenu) : list ansi.op :=
  (if redraw then [ansi.restore_position; ansi.up (height m)] else [])
  ++ imap (λ i option, ansi.write (menu_line m (Z.of_nat i) option)) (page m).

(** What one turn of the [if]/[elif] chain of [show] does with a key. *)
Inductive turn : Type :=
  | Continue (m : VerticalMenu)
  | Return (ret : pyval) (m : VerticalMenu)
  | Throw (e : exn) (m : VerticalMenu).

Definition on_key (key : string) (m : VerticalMenu) : turn :=
  if String.eqb key "down" then Continue (set_selected (selected m + 1) m)
  else if String.eqb key "up" then Continue (set_selected (selected m - 1) m)
  else if String.eqb key "pageDown" then
    match py_mod (selected m) (height m) with
    | inl e => Throw e m
    | inr r =>
      if r <? height m - 1
      then Continue (set_selected (selected m - r + height m - 1) m)
      else Continue (set_selected (selected m + height m) m)
    end
  else if String.eqb key "pageUp" then
    match py_mod (selected m) (height m) with
    | inl e => Throw e m
    | inr r =>
      if r >? 0
      then Continue (set_selected (selected m - r) m)
      else Continue (set_selected (selected m - height m) m)
    end
  else if String.eqb key "home" then Continue (set_selected 0 m)
  else if String.eqb key "end" then Continue (set_selected (len (options m) - 1) m)
  else if String.eqb key "enter" then
    if multiSelect m then
      let m :=
        if decide (selectedItems m = ∅)
        then set_selectedItems ({[selected m]} ∪ selectedItems m) m
        else m in
      match py_indexes (options m) (sorted_ints (selectedItems m)) with
      | inl e => Throw e m
      | inr chosen => Return (PyList chosen) m
      end
    else
      match py_index (options m) (selected m) with
      | inl e => Throw e m
      | inr o => Return (PyStr o) m
      end
  else if String.eqb key "esc" then Return PyNone m
  else if String.eqb key " " then
    if multiSelect m then
      if decide (selected m ∈ selectedItems m)
      then Continue (set_selectedItems (selectedItems m ∖ {[selected m]}) m)
      else Continue (set_selectedItems ({[selected m]} ∪ selectedItems m) m)
    else Continue m
  else Continue m.

(** The two clamps at the end of the loop body. *)
Definition clamp (m : VerticalMenu) : VerticalMenu :=
  let m := if selected m <? 0 then set_selected 0 m else m in
  if selected m >? len (options m) - 1
  then set_selected (len (options m) - 1) m else m.

(** The end of the loop body: the clamps, then the window. *)
Definition settle (m : VerticalMenu) : exn + VerticalMenu :=
  let m := clamp m in
  match py_mod (selected m) (height m) with
  | inl e => inl e
  | inr r => inr (set_first (selected m - r) m)
  end.

(** The [for] loop of [show]. *)
Fixpoint keyboard_loop (m : VerticalMenu) (src : list event) : ran VerticalMenu :=
  match src with
  | [] => Returned PyNone m []
  | SourceFails e :: _ => Raised e m []
  | Key key :: src' =>
    match on_key key m with
    | Throw e m => Raised e m []
    | Return r m => Returned r m []
    | Continue m =>
      match settle m with
      | inl e => Raised e (clamp m) []
      | inr m => ran_after (_print_menu true m) (keyboard_loop m src')
      end
    end
  end.

Definition show_prologue (m : VerticalMenu) : list ansi.op :=
  (if truthy (PyStr (title m))
   then [ansi.write (ansi.colorize (title m) "white" None true ++ [Newline])]
   else [])
  ++ _print_menu false m
  ++ [ansi.save_position; ansi.hide_cursor].

(** The [finally] clause of [show]; [ansi.down()] moves one line. *)
Definition cleanup (m : VerticalMenu) : list ansi.op :=
  (if clearOnExit m then
     let lines := if truthy (PyStr (title m)) then height m + 1 else height m in
     [ansi.restore_position; ansi.up lines]
     ++ (xrange lines ≫= λ _, [ansi.clear_line; ansi.down 1])
     ++ [ansi.up lines]
   else [])
  ++ [ansi.show_cursor].

Definition show (m : VerticalMenu) (src : list event) : ran VerticalMenu :=
  ran_after (show_prologue m)
    (match keyboard_loop m src with
     | Returned r m out => Returned r m (out ++ cleanup m)
     | Raised e m out => Raised e m (out ++ cleanup m)
     end).

(** [show_vertical_menu(title, options, default, clearOnExit, height,
    multiSelect)]. *)
Definition show_vertical_menu (terminal_size : Z * Z) (title : string)
    (opts : list string) (default : option default_arg) (clearOnExit : bool)
    (height : option Z) (multiSelect : bool) (src : list event)
    : exn + ran VerticalMenu :=
  match VerticalMenu_init terminal_size title opts default clearOnExit height
          multiSelect with
  | inl e => inl e
  | inr menu => inr (show menu src)
  end.

(** The object after the loop of [show] has consumed [keys] and is still
    running: [None] if the loop was left. *)
Fixpoint press (keys : list string) (m : VerticalMenu) : option VerticalMenu :=
  match keys with
  | [] => Some m
  | key :: keys' =>
    match on_key key m with
    | Continue m =>
      match settle m with
      | inr m => press keys' m
      | inl _ => None
      end
    | Return _ _ | Throw _ _ => None
    end
  end.

(** The cursor indexes the list and the window is the page of the cursor,
    pages being counted from the top of the list. *)
Definition aligned (m : VerticalMenu) : Prop :=
  0 ≤ selected m < len (options m) ∧
  first m = height m * (selected m / height m).

(** The chosen indexes are indexes of the list. *)
Definition chosen_in_range (m : VerticalMenu) : Prop :=
  ∀ i, i ∈ selectedItems m → 0 ≤ i < len (options m).

(** Number of terminal lines the menu takes: the title line, if any, and
    the page. *)
Definition menu_lines (m : VerticalMenu) : Z :=
  if truthy (PyStr (title m)) then height m + 1 else height m.

End Vertical.

(** Operations that write [d] whole lines: the cursor moves [d] rows down,
    the saved position and the visibility of the cursor are kept, and no
    row but the [d] rows written is touched. *)
Definition fills (ops : list ansi.op) (d : Z) : Prop :=
  ∀ s, row (run_screen ops s) = row s + d ∧
       saved_row (run_screen ops s) = saved_row s ∧
       cursor_shown (run_screen ops s) = cursor_shown s ∧
       ∀ r, ¬ (row s ≤ r < row s + d) →
            (r ∈ inked (run_screen ops s) ↔ r ∈ inked s).

(** The menu is drawn on [lines] rows from row [top] on: the cursor and the
    saved position are on the row under it, and outside of these rows the
    screen is as [s0] was. *)
Definition drawn_on (s0 : screen) (top lines : Z) (s : screen) : Prop :=
  row s = top + lines ∧ saved_row s = top + lines ∧
  ∀ r, ¬ (top ≤ r < top + lines) → (r ∈ inked s ↔ r ∈ inked s0).

(** ** Vocabulary for [_paginate] *)

(** The options [contents] fit on a line [maxWidth] wide after the title:
    the negation of the test of [_paginate]. *)
Definition fits (m : Line.Menu) (maxWidth : Z) (contents : list string) : Prop :=
  slen (Line.title m) + slen (str_join (Line.separator m) contents) + Line.MARGIN
  ≤ maxWidth.

(** The slices [l] lead from index [a] to index [b]: each one starts where
    the one before it ends. *)
Fixpoint chain (a : Z) (l : list (Z * Z)) (b : Z) : Prop :=
  match l with
  | [] => a = b
  | (s, e) :: l' => s = a ∧ s ≤ e ∧ chain e l' b
  end.
(** * Properties *)

(** ** Frame properties of the handlers *)

(** Case analysis on the innermost integer comparison of the goal. *)
Ltac no_if t :=
  lazymatch t with
  | context [if _ then _ else _] => fail
  | _ => idtac
  end.

Ltac case_cmp :=
  match goal with
  | |- context [if ?a <? ?b then _ else _] =>
    no_if a; no_if b; destruct (Z.ltb_spec a b)
  | |- context [if ?a >? ?b then _ else _] =>
    no_if a; no_if b; rewrite (Z.gtb_ltb a b); destruct (Z.ltb_spec b a)
  | |- context [if ?a <=? ?b then _ else _] =>
    no_if a; no_if b; destruct (Z.leb_spec a b)
  | |- context [if ?a >=? ?b then _ else _] =>
    no_if a; no_if b; rewrite (Z.geb_leb a b); destruct (Z.leb_spec b a)
  | |- context [if ?a =? ?b then _ else _] =>
    no_if a; no_if b; destruct (Z.eqb_spec a b)
  end; cbn in *.

Ltac cases := unfold _items_in_page in *; cbn in *; repeat case_cmp.

Lemma adjust_selected_rest m : rest (_adjust_selected m) = rest m.
Proof. unfold _adjust_selected. cases; reflexivity. Qed.

Lemma rest_fields m' m :
  rest m' = rest m →
  options m' = options m ∧ height m' = height m ∧ columns m' = columns m ∧
  title m' = title m.
Proof. unfold rest. intros [= ]. auto. Qed.

(** Two objects that agree on [rest] differ by the cursor and window only. *)
Lemma rest_eq m' m :
  rest m' = rest m → m' = set_first (first m') (set_selected (selected m') m).
Proof. destruct m, m'. unfold rest. cbn. intros [= ]. by subst. Qed.

Lemma adjust_selected_frame m :
  options (_adjust_selected m) = options m ∧
  height (_adjust_selected m) = height m ∧
  columns (_adjust_selected m) = columns m.
Proof.
  destruct (rest_fields _ _ (adjust_selected_rest m)) as (? & ? & ? & _). auto.
Qed.

Lemma adjust_selected_selected m :
  selected (_adjust_selected m) = Z.min (Z.max (selected m) 0) (len (options m) - 1).
Proof. unfold _adjust_selected. cases; lia. Qed.

Lemma adjust_selected_first m :
  first (_adjust_selected m)
  = Z.min (Z.max (first m) 0) (len (options m) - _items_in_page m).
Proof. unfold _adjust_selected. cases; lia. Qed.

(** ** The clamp and the navigation handlers *)

Lemma items_in_page_bounds m :
  valid m → 1 ≤ _items_in_page m ≤ len (options m).
Proof.
  intros (Hh & Hc & Hn). unfold _items_in_page.
  assert (1 ≤ height m * columns m) by nia. lia.
Qed.

Lemma adjust_selected_clamped m :
  valid m → clamped (_adjust_selected m).
Proof.
  intros Hv. pose proof (items_in_page_bounds m Hv) as Hi.
  destruct (adjust_selected_frame m) as (Ho & Hh & Hc).
  unfold clamped, _items_in_page. rewrite Ho, Hh, Hc.
  rewrite adjust_selected_selected, adjust_selected_first.
  fold (_items_in_page m). lia.
Qed.

Ltac clamp_tail :=
  intros m; eexists; split; [reflexivity |]; cases; reflexivity.

Lemma on_down_ends_with_clamp : ends_with_clamp _on_down.
Proof. unfold _on_down. clamp_tail. Qed.

Lemma on_up_ends_with_clamp : ends_with_clamp _on_up.
Proof. unfold _on_up. clamp_tail. Qed.

Lemma on_right_ends_with_clamp : ends_with_clamp _on_right.
Proof. unfold _on_right. clamp_tail. Qed.

Lemma on_left_ends_with_clamp : ends_with_clamp _on_left.
Proof. unfold _on_left. clamp_tail. Qed.

Lemma on_pageDown_ends_with_clamp : ends_with_clamp _on_pageDown.
Proof. unfold _on_pageDown. clamp_tail. Qed.

Lemma on_pageUp_ends_with_clamp : ends_with_clamp _on_pageUp.
Proof. unfold _on_pageUp. clamp_tail. Qed.

Lemma on_home_ends_with_clamp : ends_with_clamp _on_home.
Proof. unfold _on_home. clamp_tail. Qed.

Lemma on_end_ends_with_clamp : ends_with_clamp _on_end.
Proof. unfold _on_end. clamp_tail. Qed.

Lemma ends_with_clamp_sound h m :
  ends_with_clamp h → valid m →
  clamped (h m) ∧ valid (h m) ∧ options (h m) = options m ∧
  height (h m) = height m ∧ columns (h m) = columns m.
Proof.
  intros Hh Hv. destruct (Hh m) as (m1 & -> & (Ho & Hh1 & Hc & _)%rest_fields).
  assert (valid m1) as Hv1 by (unfold valid in *; rewrite Ho, Hh1, Hc; exact Hv).
  destruct (adjust_selected_frame m1) as (Ho' & Hh' & Hc').
  split; [by apply adjust_selected_clamped |].
  unfold valid. rewrite Ho', Hh', Hc'. repeat split; try congruence; apply Hv1.
Qed.

(** Dispatch of a navigation key reaches the handler of that name, in each
    of the three classes, and reports "not finalized". *)
Lemma dispatch_navigation cls key :
  key ∈ navigation_keys →
  ∃ h, ends_with_clamp h ∧ ∀ m, _dispatch_key cls key m = Returns PyNone (h m) [].
Proof.
  unfold navigation_keys. intros Hin.
  repeat (apply elem_of_cons in Hin as [-> | Hin]);
    [ exists _on_down | exists _on_up | exists _on_right | exists _on_left
    | exists _on_pageDown | exists _on_pageUp | exists _on_home | exists _on_end
    | by apply elem_of_nil in Hin ];
    (split;
     [ auto using on_down_ends_with_clamp, on_up_ends_with_clamp,
         on_right_ends_with_clamp, on_left_ends_with_clamp,
         on_pageDown_ends_with_clamp, on_pageUp_ends_with_clamp,
         on_home_ends_with_clamp, on_end_ends_with_clamp
     | by destruct cls ]).
Qed.

(** C3. For every valid configuration (height >= 1, columns >= 1, at least
    one option) and every sequence of navigation keys, the keyboard loop is
    still running on an object that satisfies [0 <= selected < N] and
    [0 <= first <= max(0, N - itemsInPage)], provided at least one handler
    (hence one clamp) has run or the object satisfied the bounds to begin
    with; the option list and the geometry are untouched. *)
Theorem clamp_invariant cls keys m :
  valid m →
  Forall (λ key, key ∈ navigation_keys) keys →
  keys ≠ [] ∨ clamped m →
  ∃ m', press cls keys m = Some m' ∧
        (0 ≤ selected m' < len (options m)) ∧
        (0 ≤ first m' ≤ Z.max 0 (len (options m) - _items_in_page m')) ∧
        _items_in_page m' = Z.min (height m * columns m) (len (options m)) ∧
        options m' = options m.
Proof.
  intros Hv Hkeys. revert m Hv.
  induction Hkeys as [| key keys Hkey _ IH]; intros m Hv Hstart.
  - destruct Hstart as [? | Hc]; [done |].
    exists m. destruct Hc. done.
  - destruct (dispatch_navigation cls key Hkey) as (h & Hh & Hd).
    destruct (ends_with_clamp_sound h m Hh Hv) as (Hc & Hv' & Ho & Hhe & Hco).
    destruct (IH (h m) Hv' (or_intror Hc)) as (m' & Hp & Hs & Hf & Hi & Ho').
    exists m'. cbn. rewrite Hd. cbn.
    rewrite Ho, Hhe, Hco in *. done.
Qed.

Lemma clamp_invariant_witness :
  valid (abcde "Pick") ∧
  ∃ m', press PlainMenu ["down"; "end"; "pageUp"; "left"] (abcde "Pick") = Some m' ∧
        (0 ≤ selected m' < 5) ∧ (0 ≤ first m' ≤ Z.max 0 (5 - _items_in_page m')) ∧
        _items_in_page m' = 3 ∧ options m' = ["a"; "b"; "c"; "d"; "e"].
Proof.
  assert (valid (abcde "Pick")) as Hv by (unfold valid, len; cbn; lia).
  split; [exact Hv |].
  apply (clamp_invariant PlainMenu ["down"; "end"; "pageUp"; "left"] (abcde "Pick") Hv).
  - unfold navigation_keys. repeat constructor.
  - left. discriminate.
Defined.

(** ** Construction on a terminal that is large enough *)

Lemma columns_on_wide_terminal ts width c :
  0 ≤ width → 1 ≤ c → c * (width + 1) ≤ ts.1 →
  _compute_columns ts width (Some c) = c.
Proof.
  intros Hw Hc Hts. unfold _compute_columns.
  assert (c ≤ ts.1 / (width + 1)) by (apply Z.div_le_lower_bound; lia).
  lia.
Qed.

Lemma height_on_tall_terminal ts opts h :
  h ≤ len opts → h + 2 ≤ ts.2 → _compute_height ts opts (Some h) = h.
Proof. unfold _compute_height. lia. Qed.

Lemma new_abcde ts title :
  2 ≤ ts.1 → 5 ≤ ts.2 →
  new PlainMenu ts title ["a"; "b"; "c"; "d"; "e"] None (Some 3) (Some 1)
  = inr (abcde title) ∧
  new SearchMenu ts title ["a"; "b"; "c"; "d"; "e"] None (Some 3) (Some 1)
  = inr (abcde_search title).
Proof.
  intros Hw Hh. unfold new, Menu_init. cbn [py_max fmap list_fmap slen].
  change (foldl Z.max _ _) with 1.
  rewrite columns_on_wide_terminal by (cbn; lia).
  rewrite height_on_tall_terminal by (unfold len; cbn; lia).
  split; reflexivity.
Qed.

(** ** C1: page alignment of [first] *)

(** C1, as stated, fails: after three [down] keys on five options with
    height 3 and one column, [first] is 1, which is not a multiple of
    [height*columns = 3]. *)
Lemma first_not_page_aligned :
  new PlainMenu (80, 24) "Pick" ["a"; "b"; "c"; "d"; "e"] None (Some 3) (Some 1)
  = inr (abcde "Pick") ∧
  ∃ m, press PlainMenu ["down"; "down"; "down"] (abcde "Pick") = Some m ∧
       first m = 1 ∧ height m * columns m = 3 ∧ ¬ page_aligned m.
Proof.
  split; [reflexivity |].
  exists (mkMenu "Pick" ["a"; "b"; "c"; "d"; "e"] 1 1 3 3 1 PyNone false EmptyString [] 0 [] ∅).
  split; [reflexivity |]. split; [reflexivity |]. split; [reflexivity |].
  unfold page_aligned. cbn. intros [k Hk]. lia.
Qed.

(** C1 (amended). In the object built by the constructor [first] is a
    multiple of [height]: [Menu.__init__] sets it to
    [selected - selected % height], and the two classes [show_menu] builds
    reset it to 0; so it is a multiple of [height*columns] when there is
    one column. *)
Theorem initial_first_aligned cls ts title opts default h c m :
  new cls ts title opts default h c = inr m →
  (height m | first m) ∧
  (cls = PlainMenu → first m = selected m - selected m mod height m) ∧
  (cls ≠ PlainMenu → first m = 0) ∧
  (columns m = 1 → page_aligned m).
Proof.
  unfold new, Menu_init, py_mod. intros Hnew.
  destruct (py_max _) as [| w]; [done |].
  destruct (_compute_default _ _) as [| sel]; [done |].
  destruct (Z.eqb_spec (_compute_height ts opts h) 0) as [| Hne]; [done |].
  set (hh := _compute_height ts opts h) in *.
  assert (hh | sel - sel mod hh) as Hdiv.
  { exists (sel / hh). pose proof (Z.div_mod sel hh Hne). lia. }
  destruct cls; inversion Hnew; subst; clear Hnew; unfold page_aligned; cbn;
    repeat split; try done;
    try (intros ->; by rewrite Z.mul_1_r); try (intros _); apply Z.divide_0_r.
Qed.

Lemma initial_first_aligned_witness :
  new PlainMenu (80, 24) "Pick" ["a"; "b"; "c"; "d"; "e"] (Some "e") (Some 3) (Some 1)
  = inr (mkMenu "Pick" ["a"; "b"; "c"; "d"; "e"] 1 1 4 3 3 PyNone false EmptyString [] 0 [] ∅) ∧
  (3 | 3).
Proof.
  split; [reflexivity |].
  exact (proj1 (initial_first_aligned PlainMenu (80, 24) "Pick" ["a"; "b"; "c"; "d"; "e"]
                  (Some "e") (Some 3) (Some 1) _ eq_refl)).
Defined.

(** ** C4: the [down] key *)

Lemma dispatch_down cls m :
  _dispatch_key cls "down" m = Returns PyNone (_on_down m) [].
Proof. by destruct cls. Qed.

Lemma on_down_selected m :
  selected (_on_down m) = Z.min (Z.max (selected m + 1) 0) (len (options m) - 1).
Proof. unfold _on_down. rewrite adjust_selected_selected. cases; lia. Qed.

Lemma on_down_first m :
  first (_on_down m)
  = Z.min (Z.max (if selected m =? first m + _items_in_page m - 1
                  then first m + 1 else first m) 0)
          (len (options m) - _items_in_page m).
Proof. unfold _on_down. rewrite adjust_selected_first. cases; lia. Qed.

Lemma returned_after out o : returned (after out o) = returned o.
Proof. by destruct o. Qed.

Lemma returned_show cls m src :
  returned (show cls m src) = returned (keyboard_loop cls m src).
Proof.
  unfold show. rewrite returned_after. by destruct (keyboard_loop cls m src).
Qed.

(** C4. The [down] key adds one to [selected], adds one to [first] exactly
    when [selected] was [first + itemsInPage - 1], and clamps both; on
    ["a","b","c","d","e"] with height 3, one column and no default the
    object starts at [selected = 0, first = 0], the third [down] leaves
    [first = 1, selected = 3], and [enter] then finalizes with ["d"]. *)
Theorem down_scrolls_at_page_bottom cls m ts title :
  2 ≤ ts.1 → 5 ≤ ts.2 →
  (∃ m', _dispatch_key cls "down" m = Returns PyNone m' [] ∧
         selected m' = Z.min (Z.max (selected m + 1) 0) (len (options m) - 1) ∧
         first m' = Z.min (Z.max (if selected m =? first m + _items_in_page m - 1
                                  then first m + 1 else first m) 0)
                          (len (options m) - _items_in_page m) ∧
         options m' = options m) ∧
  scrolling_scenario PlainMenu ts title ∧
  scrolling_scenario SearchMenu ts title.
Proof.
  intros Hw Hh. split; [| split].
  - exists (_on_down m).
    split; [apply dispatch_down |].
    split; [apply on_down_selected |].
    split; [apply on_down_first |].
    destruct (on_down_ends_with_clamp m) as (m1 & -> & (Ho & _)%rest_fields).
    by destruct (adjust_selected_frame m1) as (-> & _).
  - exists (abcde title).
    split; [apply (new_abcde ts title Hw Hh) |].
    repeat split; eexists; repeat split; reflexivity.
  - exists (abcde_search title).
    split; [apply (new_abcde ts title Hw Hh) |].
    repeat split; eexists; repeat split; reflexivity.
Qed.

Lemma down_scrolls_at_page_bottom_witness :
  (∃ m', _dispatch_key PlainMenu "down" (abcde "Pick") = Returns PyNone m' [] ∧
         selected m' = 1 ∧ first m' = 0 ∧ options m' = ["a"; "b"; "c"; "d"; "e"]) ∧
  scrolling_scenario PlainMenu (80, 24) "Pick" ∧
  scrolling_scenario SearchMenu (80, 24) "Pick".
Proof.
  apply (down_scrolls_at_page_bottom PlainMenu (abcde "Pick") (80, 24) "Pick");
    cbn; lia.
Defined.

(** ** C5: [space] in a multi-select menu *)

Lemma new_xyz ts title :
  2 ≤ ts.1 → 5 ≤ ts.2 →
  ∃ c, c ∈ [1; 2; 3; 4; 5] ∧
       new MultiSelectMenu ts title ["x"; "y"; "z"] None None None
       = inr (xyz title c).
Proof.
  intros Hw Hh. exists (Z.min 5 (ts.1 / 2)). split.
  - assert (1 ≤ ts.1 / 2) by (apply Z.div_le_lower_bound; lia).
    assert (Z.min 5 (ts.1 / 2) = 1 ∨ Z.min 5 (ts.1 / 2) = 2 ∨ Z.min 5 (ts.1 / 2) = 3
            ∨ Z.min 5 (ts.1 / 2) = 4 ∨ Z.min 5 (ts.1 / 2) = 5) as Hc by lia.
    destruct Hc as [-> | [-> | [-> | [-> | ->]]]]; set_solver.
  - unfold new, Menu_init. cbn [py_max fmap list_fmap slen].
    change (foldl Z.max _ _) with 1.
    unfold _compute_height, len. change (Z.of_nat (length _)) with 3.
    replace (Z.min (Z.min 3 (ts.2 - 2)) (ts.2 - 2)) with 3 by lia.
    reflexivity.
Qed.

(** C5, as stated, fails: [space] already advances the cursor to ["y"], the
    [down] that follows moves it on to ["z"], and the second [space] picks
    ["z"]; the result is ["x","z"], not ["x","y"]. *)
Lemma space_down_space_enter_not_xy :
  returned_by (show_menu (80, 24) "Pick" ["x"; "y"; "z"] None None true
                 [Key "space"; Key "down"; Key "space"; Key "enter"])
  = Some (PyList ["x"; "z"]) ∧
  returned_by (show_menu (80, 24) "Pick" ["x"; "y"; "z"] None None true
                 [Key "space"; Key "down"; Key "space"; Key "enter"])
  ≠ Some (PyList ["x"; "y"]).
Proof. split; [by vm_compute | by vm_compute]. Qed.

Lemma dispatch_space m o :
  py_index (options m) (selected m) = inr o →
  _dispatch_key MultiSelectMenu "space" m
  = Returns PyNone (_on_down (set_selectedItems (toggle o (selectedItems m)) m)) [].
Proof.
  intros Ho. change (_dispatch_key MultiSelectMenu "space" m) with (_on_space m).
  unfold _on_space, toggle. rewrite Ho. by destruct (decide _).
Qed.

(** C5 (amended). In a multi-select menu [space] toggles the membership of
    the option at [selected] and then moves the cursor as [down] does; on
    ["x","y","z"] from [selected = 0] the keys space, down, space, enter
    therefore finalize with ["x","z"], and the keys space, space, enter with
    ["x","y"]. *)
Theorem space_toggles_and_advances ts title m o :
  2 ≤ ts.1 → 5 ≤ ts.2 →
  py_index (options m) (selected m) = inr o →
  (∃ m', _dispatch_key MultiSelectMenu "space" m = Returns PyNone m' [] ∧
         selectedItems m' = toggle o (selectedItems m) ∧
         selected m' = selected (_on_down m) ∧ first m' = first (_on_down m)) ∧
  returned_by (show_menu ts title ["x"; "y"; "z"] None None true
                 [Key "space"; Key "down"; Key "space"; Key "enter"])
  = Some (PyList ["x"; "z"]) ∧
  returned_by (show_menu ts title ["x"; "y"; "z"] None None true
                 [Key "space"; Key "space"; Key "enter"])
  = Some (PyList ["x"; "y"]).
Proof.
  intros Hw Hh Ho. split.
  - eexists. split; [by apply dispatch_space |].
    split; [| split].
    + unfold _on_down, _adjust_selected. cases; reflexivity.
    + rewrite !on_down_selected. reflexivity.
    + rewrite !on_down_first. reflexivity.
  - destruct (new_xyz ts title Hw Hh) as (c & Hc & Hnew).
    unfold show_menu. rewrite Hnew. unfold returned_by. rewrite !returned_show.
    repeat (apply elem_of_cons in Hc as [-> | Hc]);
      [split; by vm_compute .. | by apply elem_of_nil in Hc].
Qed.

Lemma space_toggles_and_advances_witness :
  py_index (options (xyz "Pick" 5)) (selected (xyz "Pick" 5)) = inr "x"%string ∧
  returned_by (show_menu (80, 24) "Pick" ["x"; "y"; "z"] None None true
                 [Key "space"; Key "down"; Key "space"; Key "enter"])
  = Some (PyList ["x"; "z"]).
Proof.
  split; [reflexivity |].
  refine (proj1 (proj2 (space_toggles_and_advances (80, 24) "Pick" (xyz "Pick" 5) "x" _ _ _)));
    [cbn; lia | cbn; lia | reflexivity].
Defined.

(** ** C2: [esc] in a multi-select menu *)

(** C2. What the code does on [esc] in a multi-select menu that is not
    searching: [MultiSelectMixin._on_esc] stores the empty list, then the
    call it delegates to ends in [Menu._on_esc], which stores [None] over
    it; [show] returns [None]. *)
Theorem multi_select_esc_returns_none :
  returned_by (show_menu (80, 24) "Pick" ["x"; "y"; "z"] None None true [Key "esc"])
  = Some PyNone ∧
  ∀ m src,
    keyboard_loop MultiSelectMenu (set_searchMode false m) (Key "esc" :: src)
    = Returns PyNone (set_result PyNone (set_searchMode false m)) [].
Proof. split; [by vm_compute | reflexivity]. Qed.

(** ** C6: typing a query and erasing it *)

Lemma length_append s t :
  String.length (s +:+ t) = (String.length s + String.length t)%nat.
Proof.
  induction s as [| c s IH]; [done |].
  change (String c s +:+ t) with (String c (s +:+ t)). cbn. by rewrite IH.
Qed.

Lemma length_drop_last s :
  String.length (drop_last s) = pred (String.length s).
Proof.
  induction s as [| c s IH]; [done |].
  destruct s as [| c' s]; [done |].
  change (drop_last (String c (String c' s))) with (String c (drop_last (String c' s))).
  cbn [String.length]. rewrite IH. done.
Qed.

Lemma length_printable key :
  is_printable key = true → String.length key = 1%nat.
Proof. destruct key as [| c [| c' key]]; cbn; congruence. Qed.

Lemma eqb_empty_length s :
  String.eqb s EmptyString = match String.length s with O => true | S _ => false end.
Proof. by destruct s. Qed.

Lemma str_in_empty s : str_in EmptyString s = true.
Proof. by destruct s. Qed.

Lemma snd_imap {A B} (f : nat → A → B * A) (l : list A) :
  (∀ i o, (f i o).2 = o) → snd <$> imap f l = l.
Proof.
  revert f. induction l as [| x l IH]; intros f Hf; [done |].
  cbn. rewrite Hf. f_equal. apply IH. intros i o. apply Hf.
Qed.

Lemma filter_all {A} (P : A → Prop) `{∀ x, Decision (P x)} (l : list A) :
  (∀ x, P x) → filter P l = l.
Proof.
  intros HP. induction l as [| x l IH]; [done |].
  rewrite filter_cons_True by apply HP. by rewrite IH.
Qed.

(** With an empty query every option matches. *)
Lemma refilter_empty_query m :
  searchMode m = true → searchText m = EmptyString →
  options (_refilter m) = _allOptions m.
Proof.
  intros Hmode Htext. unfold _refilter. rewrite Hmode, Htext. cbn.
  rewrite filter_all by (intros [i o]; cbn; by rewrite str_in_empty).
  by apply snd_imap.
Qed.

Lemma refilter_frame m :
  searchMode (_refilter m) = searchMode m ∧
  searchText (_refilter m) = searchText m ∧
  _allOptions (_refilter m) = _allOptions m ∧
  selected (_refilter m) = 0 ∧ first (_refilter m) = 0.
Proof. unfold _refilter. destruct (searchMode m) eqn:E; cbn; rewrite ?E; auto. Qed.

Lemma dispatch_printable cls key m :
  cls ≠ PlainMenu → is_printable key = true →
  _dispatch_key cls key m
  = Returns PyNone
      (_refilter (set_searchText (searchText (_start_search m).1 +:+ key)
                                 (_start_search m).1))
      (_start_search m).2.
Proof.
  intros Hcls Hkey.
  destruct cls; [done | |]; cbn; unfold SearchMixin_dispatch_key;
    rewrite Hkey; by destruct (_start_search m).
Qed.

Lemma dispatch_backspace cls m :
  cls ≠ PlainMenu →
  _dispatch_key cls "backspace" m = Returns PyNone (_on_backspace m) [].
Proof. by destruct cls. Qed.

(** Typing printable characters turns search mode on and makes the query
    grow by one character per key. *)
Lemma typing_grows_query cls chars m :
  cls ≠ PlainMenu →
  Forall (λ key, is_printable key = true) chars →
  ∃ m', press cls chars m = Some m' ∧
        _allOptions m' = _allOptions m ∧
        (chars = [] → m' = m) ∧
        (chars ≠ [] → searchMode m' = true) ∧
        String.length (searchText m')
        = (String.length (searchText (if searchMode m || bool_decide (chars = [])
                                      then m else set_searchText EmptyString m))
           + length chars)%nat.
Proof.
  intros Hcls Hchars. revert m.
  induction Hchars as [| key chars Hkey _ IH]; intros m.
  - exists m. cbn. rewrite orb_true_r, Nat.add_0_r. done.
  - cbn [press]. rewrite dispatch_printable by done. cbn [truthy].
    set (m1 := _refilter _).
    assert (searchMode m1 = true ∧ _allOptions m1 = _allOptions m ∧
            String.length (searchText m1)
            = S (String.length (searchText (if searchMode m then m
                                            else set_searchText EmptyString m)))) as (Hm & Ha & Hl).
    { subst m1. destruct (refilter_frame
        (set_searchText (searchText (_start_search m).1 +:+ key) (_start_search m).1))
        as (-> & -> & -> & _).
      unfold _start_search. destruct (searchMode m) eqn:Hmode; cbn;
        rewrite ?Hmode, ?length_append, ?(length_printable key Hkey); cbn;
        repeat split; lia. }
    destruct (IH m1) as (m' & Hp & Ha' & _ & _ & Hl').
    exists m'. split; [exact Hp |]. split; [congruence |].
    split; [done |]. split.
    + intros _. destruct chars as [| k chars'].
      * cbn in Hp. congruence.
      * destruct (IH m1) as (m2 & Hp2 & _ & _ & Hs & _).
        rewrite Hp in Hp2. injection Hp2 as <-. by apply Hs.
    + rewrite Hl'. rewrite Hm. cbn [orb]. rewrite Hl. cbn. rewrite orb_false_r. lia.
Qed.

(** One backspace on a non-empty query. *)
Lemma backspace_step cls k m :
  cls ≠ PlainMenu →
  searchMode m = true → String.length (searchText m) = S k →
  ∃ m1, _dispatch_key cls "backspace" m = Returns PyNone m1 [] ∧
        searchMode m1 = true ∧ String.length (searchText m1) = k ∧
        _allOptions m1 = _allOptions m ∧ selected m1 = 0 ∧ first m1 = 0 ∧
        (k = O → options m1 = _allOptions m).
Proof.
  intros Hcls Hmode Hlen. rewrite dispatch_backspace by done.
  unfold _on_backspace. rewrite Hmode, eqb_empty_length, Hlen. cbn [andb negb].
  set (m1 := set_searchText _ m).
  destruct (refilter_frame m1) as (Hm & Ht & Ha & Hs & Hf).
  assert (String.length (searchText m1) = k) as Hl1
    by (subst m1; cbn; by rewrite length_drop_last, Hlen).
  exists (_refilter m1). rewrite Hm, Ht, Ha. repeat split; try done.
  intros ->. rewrite refilter_empty_query; [done | done |].
  by destruct (searchText m1).
Qed.

(** [n] backspaces erase a query of [n >= 1] characters, and the last one
    restores the whole option list. *)
Lemma backspaces_erase_query cls n m :
  cls ≠ PlainMenu →
  searchMode m = true → String.length (searchText m) = S n →
  ∃ m', press cls (replicate (S n) "backspace") m = Some m' ∧
        options m' = _allOptions m ∧ selected m' = 0 ∧ first m' = 0.
Proof.
  intros Hcls. revert m. induction n as [| n IH]; intros m Hmode Hlen;
    destruct (backspace_step cls _ m Hcls Hmode Hlen)
      as (m1 & Hd & Hm & Hl & Ha & Hs & Hf & Ho);
    cbn [replicate press]; rewrite Hd; cbn [truthy].
  - exists m1. auto.
  - destruct (IH m1 Hm Hl) as (m' & Hp & Ho' & Hs' & Hf').
    exists m'. rewrite Ha in Ho'. done.
Qed.

Lemma press_app cls keys1 keys2 m m1 :
  press cls keys1 m = Some m1 →
  press cls (keys1 ++ keys2) m = press cls keys2 m1.
Proof.
  revert m. induction keys1 as [| key keys1 IH]; intros m; cbn.
  - by intros [= ->].
  - destruct (_dispatch_key cls key m) as [ret m2 out |]; [| done].
    destruct (truthy ret); [done | apply IH].
Qed.

(** C6. From an object that is not searching, typing [k] printable
    characters and then pressing backspace [k] times leaves the visible
    option list equal to the full option list, with [selected = 0] and
    [first = 0].  (For [k = 0] nothing is dispatched, so the object has to
    show the full list at 0/0 to begin with, as a fresh one does.) *)
Theorem filter_round_trip cls chars m :
  cls ≠ PlainMenu →
  searchMode m = false →
  Forall (λ key, is_printable key = true) chars →
  (chars = [] → options m = _allOptions m ∧ selected m = 0 ∧ first m = 0) →
  ∃ m', press cls (chars ++ replicate (length chars) "backspace") m = Some m' ∧
        options m' = _allOptions m ∧ selected m' = 0 ∧ first m' = 0.
Proof.
  intros Hcls Hmode Hchars Hfresh.
  destruct (typing_grows_query cls chars m Hcls Hchars)
    as (m1 & Hp & Ha & Hnil & Hcons & Hlen).
  rewrite (press_app _ _ _ _ _ Hp).
  destruct chars as [| key chars].
  - cbn. rewrite (Hnil eq_refl). exists m. split; [done |]. by apply Hfresh.
  - rewrite Hmode in Hlen. cbn in Hlen.
    destruct (backspaces_erase_query cls (length chars) m1 Hcls) as (m' & Hp' & Ho & Hs);
      [by apply Hcons | exact Hlen |].
    exists m'. split; [exact Hp' |]. by rewrite <- Ha.
Qed.

Lemma filter_round_trip_witness :
  new SearchMenu (80, 24) "Fruit" ["apple"; "buzz"; "fizz"; "grape"] None None None
  = inr fruit ∧
  press SearchMenu ["z"] fruit = Some fruit_z ∧
  ∃ m', press SearchMenu (["z"; "Q"] ++ replicate 2 "backspace") fruit = Some m' ∧
        options m' = ["apple"; "buzz"; "fizz"; "grape"] ∧
        selected m' = 0 ∧ first m' = 0.
Proof.
  split; [reflexivity |]. split; [reflexivity |].
  apply (filter_round_trip SearchMenu ["z"; "Q"] fruit).
  - discriminate.
  - reflexivity.
  - repeat constructor.
  - discriminate.
Defined.

(** ** C7: [esc] and the search mode *)

Lemma dispatch_esc m :
  _dispatch_key PlainMenu "esc" m = Menu_on_esc m ∧
  _dispatch_key SearchMenu "esc" m = SearchMixin_on_esc m ∧
  _dispatch_key MultiSelectMenu "esc" m = MultiSelectMixin_on_esc m.
Proof. done. Qed.

Lemma keyboard_loop_key cls m key src :
  keyboard_loop cls m (Key key :: src)
  = match _dispatch_key cls key m with
    | Raises e m out => Raises e m out
    | Returns ret m out =>
      if truthy ret then Returns (result m) m out
      else after (out ++ [ansi.restore_position; ansi.up (height m)]
                      ++ _print_menu cls m)
                 (keyboard_loop cls m src)
    end.
Proof. done. Qed.

(** C7. In the two classes that mix the search in, [esc] while searching
    does not finalize: the handler returns [False], search mode is left,
    the visible list is the full list again with [selected = 0] and
    [first = 0], and the loop redraws and goes on with the next key; [esc]
    while not searching finalizes and [show] returns [None]. *)
Theorem esc_while_searching_does_not_finalize cls m src :
  cls ≠ PlainMenu →
  if searchMode m then
    ∃ m', _dispatch_key cls "esc" m = Returns (PyBool false) m' [ansi.hide_cursor] ∧
          searchMode m' = false ∧ options m' = _allOptions m ∧
          selected m' = 0 ∧ first m' = 0 ∧
          keyboard_loop cls m (Key "esc" :: src)
          = after ([ansi.hide_cursor; ansi.restore_position; ansi.up (height m')]
                   ++ _print_menu cls m')
                  (keyboard_loop cls m' src)
  else
    ∃ m', _dispatch_key cls "esc" m = Returns (PyBool true) m' [] ∧
          result m' = PyNone ∧
          keyboard_loop cls m (Key "esc" :: src) = Returns PyNone m' [] ∧
          returned (show cls m (Key "esc" :: src)) = Some PyNone.
Proof.
  intros Hcls. destruct (searchMode m) eqn:Hmode.
  - assert (∃ m0, _dispatch_key cls "esc" m
                  = Returns (PyBool false) (_refilter (set_searchMode false m0))
                      [ansi.hide_cursor] ∧
                  _allOptions m0 = _allOptions m) as (m0 & Hd & Ha).
    { destruct cls; [done | exists m | exists (set_result (PyList []) m)];
        (split; [| done]);
        destruct (dispatch_esc m) as (_ & Hs & Hm); rewrite ?Hs, ?Hm;
        unfold MultiSelectMixin_on_esc, SearchMixin_on_esc, _stop_search;
        cbn; by rewrite Hmode. }
    exists (_refilter (set_searchMode false m0)).
    split; [exact Hd |].
    split; [reflexivity |]. split; [exact Ha |].
    split; [reflexivity |]. split; [reflexivity |].
    by rewrite keyboard_loop_key, Hd.
  - assert (∃ m', _dispatch_key cls "esc" m = Returns (PyBool true) m' [] ∧
                  result m' = PyNone) as (m' & Hd & Hr).
    { destruct (dispatch_esc m) as (_ & Hs & Hm).
      destruct cls; [done | rewrite Hs | rewrite Hm];
        unfold MultiSelectMixin_on_esc, SearchMixin_on_esc; cbn;
        rewrite Hmode; by eexists. }
    exists m'. split; [exact Hd |]. split; [exact Hr |].
    assert (keyboard_loop cls m (Key "esc" :: src) = Returns PyNone m' []) as Hk
      by (rewrite keyboard_loop_key, Hd; cbn; by rewrite Hr).
    split; [exact Hk |]. by rewrite returned_show, Hk.
Qed.

Lemma esc_while_searching_does_not_finalize_witness :
  press SearchMenu ["z"] fruit = Some fruit_z ∧
  ∃ m', _dispatch_key SearchMenu "esc" fruit_z
        = Returns (PyBool false) m' [ansi.hide_cursor] ∧
        searchMode m' = false ∧
        options m' = ["apple"; "buzz"; "fizz"; "grape"] ∧
        selected m' = 0 ∧ first m' = 0 ∧
        keyboard_loop SearchMenu fruit_z [Key "esc"; Key "esc"]
        = after ([ansi.hide_cursor; ansi.restore_position; ansi.up (height m')]
                 ++ _print_menu SearchMenu m')
                (keyboard_loop SearchMenu m' [Key "esc"]).
Proof.
  split; [reflexivity |].
  apply (esc_while_searching_does_not_finalize SearchMenu fruit_z [Key "esc"]).
  discriminate.
Defined.

(** ** C10: [enter] and [space] on an empty page *)

Lemma py_index_nil {A} (i : Z) : py_index (@nil A) i = inl IndexError.
Proof.
  unfold py_index, len. cbn [length]. change (Z.of_nat 0) with 0.
  set (j := if i <? 0 then _ else _).
  destruct (Z.leb_spec 0 j), (Z.ltb_spec j 0); cbn; try reflexivity; lia.
Qed.

Lemma show_raises cls m src e m' out :
  keyboard_loop cls m src = Raises e m' out →
  show cls m src
  = Raises e m' (show_prologue cls m ++ out ++ _clear_menu m' ++ [ansi.show_cursor]).
Proof. unfold show. by intros ->. Qed.

(** C10. When the filter has emptied the visible option list, [enter] in
    the single-select menu raises [IndexError] out of [show] (after the
    clean-up) instead of finalizing; so does [space] in the multi-select
    menu, and so does [enter] there when no option has been chosen; with a
    chosen option [enter] finalizes with the sorted choice. *)
Theorem enter_on_empty_page_raises m src :
  options m = [] →
  show SearchMenu m (Key "enter" :: src)
  = Raises IndexError m
      (show_prologue SearchMenu m ++ [] ++ _clear_menu m ++ [ansi.show_cursor]) ∧
  show MultiSelectMenu m (Key "space" :: src)
  = Raises IndexError m
      (show_prologue MultiSelectMenu m ++ [] ++ _clear_menu m ++ [ansi.show_cursor]) ∧
  if decide (selectedItems m = ∅) then
    show MultiSelectMenu m (Key "enter" :: src)
    = Raises IndexError m
        (show_prologue MultiSelectMenu m ++ [] ++ _clear_menu m ++ [ansi.show_cursor])
  else
    returned (show MultiSelectMenu m (Key "enter" :: src))
    = Some (PyList (sorted (selectedItems m))).
Proof.
  intros Hopts.
  assert (py_index (options m) (selected m) = inl IndexError) as Hidx
    by (rewrite Hopts; apply py_index_nil).
  split; [| split].
  - apply show_raises. rewrite keyboard_loop_key.
    change (_dispatch_key SearchMenu "enter" m) with (Menu_on_enter m).
    unfold Menu_on_enter. by rewrite Hidx.
  - apply show_raises. rewrite keyboard_loop_key.
    change (_dispatch_key MultiSelectMenu "space" m) with (_on_space m).
    unfold _on_space. by rewrite Hidx.
  - destruct (decide (selectedItems m = ∅)) as [Hempty | Hchosen].
    + apply show_raises. rewrite keyboard_loop_key.
      change (_dispatch_key MultiSelectMenu "enter" m) with (MultiSelectMixin_on_enter m).
      unfold MultiSelectMixin_on_enter. rewrite Hidx.
      by destruct (decide (selectedItems m = ∅)).
    + rewrite returned_show, keyboard_loop_key.
      change (_dispatch_key MultiSelectMenu "enter" m) with (MultiSelectMixin_on_enter m).
      unfold MultiSelectMixin_on_enter.
      by destruct (decide (selectedItems m = ∅)).
Qed.

Lemma enter_on_empty_page_raises_witness :
  new SearchMenu (80, 24) "Fruit" ["apple"; "buzz"; "fizz"; "grape"] None None None
  = inr fruit ∧
  press SearchMenu ["q"] fruit = Some fruit_q ∧
  options fruit_q = [] ∧
  show SearchMenu fruit_q [Key "enter"]
  = Raises IndexError fruit_q
      (show_prologue SearchMenu fruit_q ++ [] ++ _clear_menu fruit_q
         ++ [ansi.show_cursor]).
Proof.
  split; [reflexivity |]. split; [reflexivity |]. split; [reflexivity |].
  exact (proj1 (enter_on_empty_page_raises fruit_q [] eq_refl)).
Defined.

(** ** C9: a tour of the list by pageDown *)

Lemma pageDowns_succ_r k m :
  pageDowns (S k) m = pageDowns k (_on_pageDown m).
Proof. unfold pageDowns. apply Nat.iter_succ_r. Qed.

Lemma on_pageDown_frame m :
  options (_on_pageDown m) = options m ∧
  height (_on_pageDown m) = height m ∧
  columns (_on_pageDown m) = columns m.
Proof.
  destruct (on_pageDown_ends_with_clamp m)
    as (m1 & -> & (Ho & Hh & Hc & _)%rest_fields).
  destruct (adjust_selected_frame m1) as (-> & -> & ->). done.
Qed.

Lemma on_pageDown_selected m :
  selected (_on_pageDown m)
  = Z.min (Z.max (if selected m =? first m + _items_in_page m - 1
                  then selected m + _items_in_page m
                  else first m + _items_in_page m - 1) 0)
          (len (options m) - 1).
Proof. unfold _on_pageDown. rewrite adjust_selected_selected. cases; lia. Qed.

Lemma on_pageDown_first m :
  first (_on_pageDown m)
  = Z.min (Z.max (if selected m =? first m + _items_in_page m - 1
                  then first m + _items_in_page m else first m) 0)
          (len (options m) - _items_in_page m).
Proof. unfold _on_pageDown. rewrite adjust_selected_first. cases; lia. Qed.

Lemma on_pageDown_items m :
  _items_in_page (_on_pageDown m) = _items_in_page m.
Proof.
  unfold _items_in_page. by destruct (on_pageDown_frame m) as (-> & -> & ->).
Qed.

(** One pageDown: the invariant is kept, the window moves forward by at
    most one page, and the cursor moves forward unless it is on the last
    option. *)
Lemma on_pageDown_step m :
  cursor_on_page m →
  cursor_on_page (_on_pageDown m) ∧
  first m ≤ first (_on_pageDown m) ≤ first m + _items_in_page m ∧
  (selected m < len (options m) - 1 → selected m < selected (_on_pageDown m)) ∧
  (selected m = len (options m) - 1 →
   selected (_on_pageDown m) = selected m ∧ first (_on_pageDown m) = first m) ∧
  (selected m < len (options m) - 1 →
   selected m = first m + _items_in_page m - 1 →
   first m < first (_on_pageDown m)).
Proof.
  intros (Hv & Hf & Hs). pose proof (items_in_page_bounds m Hv) as Hi.
  destruct (on_pageDown_frame m) as (Ho & Hh & Hc).
  unfold cursor_on_page, valid.
  rewrite on_pageDown_items, Ho, Hh, Hc, on_pageDown_selected, on_pageDown_first.
  destruct Hv as (? & ? & ?).
  destruct (Z.eqb_spec (selected m) (first m + _items_in_page m - 1)); lia.
Qed.

Lemma ends_with_clamp_rest h m : ends_with_clamp h → rest (h m) = rest m.
Proof.
  intros Hh. destruct (Hh m) as (m1 & -> & <-). apply adjust_selected_rest.
Qed.

Lemma on_pageDown_moves_cursor_only m :
  _on_pageDown m
  = set_first (first (_on_pageDown m)) (set_selected (selected (_on_pageDown m)) m).
Proof. apply rest_eq, ends_with_clamp_rest, on_pageDown_ends_with_clamp. Qed.

Lemma last_option_fixed m :
  cursor_on_page m → selected m = len (options m) - 1 → _on_pageDown m = m.
Proof.
  intros Hinv Hlast.
  destruct (on_pageDown_step m Hinv) as (_ & _ & _ & Hfix & _).
  destruct (Hfix Hlast) as (Hs & Hf). clear Hfix.
  rewrite (on_pageDown_moves_cursor_only m), Hs, Hf. by destruct m.
Qed.

Lemma pageDowns_invariant k m :
  cursor_on_page m →
  cursor_on_page (pageDowns k m) ∧ options (pageDowns k m) = options m ∧
  _items_in_page (pageDowns k m) = _items_in_page m ∧
  height (pageDowns k m) * columns (pageDowns k m) = height m * columns m.
Proof.
  intros Hinv. induction k as [| k (IH & Ho & Hi & Hg)]; [done |].
  change (pageDowns (S k) m) with (_on_pageDown (pageDowns k m)).
  destruct (on_pageDown_frame (pageDowns k m)) as (Ho' & Hh' & Hc').
  rewrite on_pageDown_items, Ho', Hh', Hc'.
  by destruct (on_pageDown_step _ IH) as (? & _).
Qed.

Lemma pageDowns_monotone j k m :
  cursor_on_page m → (j ≤ k)%nat →
  first (pageDowns j m) ≤ first (pageDowns k m).
Proof.
  intros Hinv Hjk. induction Hjk as [| k _ IH]; [lia |].
  change (pageDowns (S k) m) with (_on_pageDown (pageDowns k m)).
  destruct (pageDowns_invariant k m Hinv) as (Hk & _).
  destruct (on_pageDown_step _ Hk) as (_ & ? & _). lia.
Qed.

Lemma pageDowns_fixed T k m :
  cursor_on_page m →
  selected (pageDowns T m) = len (options m) - 1 →
  (T ≤ k)%nat → pageDowns k m = pageDowns T m.
Proof.
  intros Hinv Hlast Hle. induction Hle as [| k _ IH]; [done |].
  change (pageDowns (S k) m) with (_on_pageDown (pageDowns k m)).
  rewrite IH. destruct (pageDowns_invariant T m Hinv) as (HT & Ho & _).
  apply last_option_fixed; [done | by rewrite Ho].
Qed.

Lemma on_page_in_page m i :
  cursor_on_page m → first m ≤ i < first m + _items_in_page m →
  in_page m i = true.
Proof.
  intros (Hv & Hf & Hs) Hi. unfold in_page, _items_in_page in *.
  repeat (apply andb_true_intro; split); lia.
Qed.

(** From any state that satisfies the invariant, pageDown reaches the last
    option, moving the cursor forward at every step, and shows every index
    from [first] on along the way. *)
Lemma pageDowns_reach_end d m :
  cursor_on_page m →
  len (options m) - 1 - selected m ≤ Z.of_nat d →
  ∃ T, selected (pageDowns T m) = len (options m) - 1 ∧
       (∀ k, (k < T)%nat → selected (pageDowns k m) < selected (pageDowns (S k) m)) ∧
       (∀ i, first m ≤ i < len (options m) →
             ∃ k, (k ≤ T)%nat ∧ in_page (pageDowns k m) i = true).
Proof.
  revert m. induction d as [| d IH]; intros m Hinv Hd;
    pose proof Hinv as (Hv & Hf & Hs);
    pose proof (items_in_page_bounds m Hv) as Hi;
    destruct (Z.eq_dec (selected m) (len (options m) - 1)) as [Hlast | Hmore];
    try lia.
  1, 2: exists O; split; [exact Hlast |]; split; [lia |];
    intros i Hi'; exists O; split; [lia |];
    apply (on_page_in_page m i Hinv); lia.
  destruct (on_pageDown_step m Hinv) as (Hinv' & Hwin & Hfwd & _ & _).
  destruct (on_pageDown_frame m) as (Ho & _).
  destruct (IH (_on_pageDown m) Hinv') as (T & Hend & Hprog & Hcov).
  { rewrite Ho. lia. }
  exists (S T). rewrite pageDowns_succ_r, <- Ho. split; [exact Hend |]. split.
  - intros [| k] Hk.
    + apply Hfwd. lia.
    + rewrite (pageDowns_succ_r (S k) m), (pageDowns_succ_r k m).
      apply Hprog. lia.
  - intros i Hi'.
    destruct (Z.lt_ge_cases i (first (_on_pageDown m))) as [Hlow | Hhigh].
    + exists O. split; [lia |]. apply (on_page_in_page m i Hinv). lia.
    + destruct (Hcov i) as (k & Hk & Hin); [lia |].
      exists (S k). rewrite pageDowns_succ_r. split; [lia | exact Hin].
Qed.

Lemma press_pageDowns cls k m :
  press cls (replicate k "pageDown") m = Some (pageDowns k m).
Proof.
  revert m. induction k as [| k IH]; intros m; [done |].
  rewrite pageDowns_succ_r. cbn [replicate press].
  assert (_dispatch_key cls "pageDown" m = Returns PyNone (_on_pageDown m) []) as ->
    by (by destruct cls).
  apply IH.
Qed.

(** A pageDown pressed on the last item of the page, before the end of the
    list, brings a page that starts further down. *)
Lemma pageDowns_new_page k m :
  cursor_on_page m →
  selected (pageDowns k m) < selected (pageDowns (S k) m) →
  selected (pageDowns k m) = first (pageDowns k m) + _items_in_page m - 1 →
  first (pageDowns k m) < first (pageDowns (S k) m).
Proof.
  intros Hinv Hfwd Hbottom.
  destruct (pageDowns_invariant k m Hinv) as (Hk & Ho & Hi & _).
  destruct (pageDowns_invariant (S k) m Hinv) as ((_ & Hf' & Hs') & Ho' & Hi' & _).
  change (pageDowns (S k) m) with (_on_pageDown (pageDowns k m)) in *.
  destruct (on_pageDown_step _ Hk) as (_ & _ & _ & _ & Hnew).
  apply Hnew; [| by rewrite Hi]. rewrite Ho', Hi', <- Ho in *. lia.
Qed.

(** C9. From [selected = 0, first = 0] on a valid configuration, dispatching
    pageDown again and again reaches [selected = N-1] after finitely many
    keys, the cursor moving forward at each of them; by then every index of
    the list has been on the visible page; until then a pageDown pressed on
    the last item of a page brings a page that starts further down, and the
    window never moves back, so no page that has been left is shown again;
    and from then on pageDown changes nothing. *)
Theorem pageDown_tours_the_list cls m :
  valid m → selected m = 0 → first m = 0 →
  (∀ k, press cls (replicate k "pageDown") m = Some (pageDowns k m)) ∧
  ∃ T,
    selected (pageDowns T m) = len (options m) - 1 ∧
    (∀ k, (k < T)%nat → selected (pageDowns k m) < selected (pageDowns (S k) m)) ∧
    (∀ i, 0 ≤ i < len (options m) →
          ∃ k, (k ≤ T)%nat ∧ in_page (pageDowns k m) i = true) ∧
    (∀ j k, (j ≤ k)%nat → first (pageDowns j m) ≤ first (pageDowns k m)) ∧
    (∀ k, (k < T)%nat →
          selected (pageDowns k m) = first (pageDowns k m) + _items_in_page m - 1 →
          first (pageDowns k m) < first (pageDowns (S k) m)) ∧
    (∀ k, (T ≤ k)%nat → pageDowns k m = pageDowns T m).
Proof.
  intros Hv Hs Hf.
  assert (cursor_on_page m) as Hinv.
  { pose proof (items_in_page_bounds m Hv). split; [exact Hv | lia]. }
  split; [intros k; apply press_pageDowns |].
  destruct (pageDowns_reach_end (Z.to_nat (len (options m))) m Hinv)
    as (T & Hend & Hprog & Hcov); [lia |].
  exists T. split; [exact Hend |]. split; [exact Hprog |].
  split; [intros i Hi; apply Hcov; lia |].
  split; [intros j k; by apply pageDowns_monotone |].
  split; [intros k Hk; apply pageDowns_new_page; auto |].
  intros k. by apply pageDowns_fixed.
Qed.

Lemma pageDown_tours_the_list_witness :
  valid (abcde "Pick") ∧
  press PlainMenu (replicate 3 "pageDown") (abcde "Pick") = Some (pageDowns 3 (abcde "Pick")) ∧
  selected (pageDowns 3 (abcde "Pick")) = 4.
Proof.
  assert (valid (abcde "Pick")) as Hv by (unfold valid, len; cbn; lia).
  split; [exact Hv |]. split; [| reflexivity].
  exact (proj1 (pageDown_tours_the_list PlainMenu (abcde "Pick") Hv eq_refl eq_refl) 3%nat).
Defined.

(** ** C8: the clean-up of [show] *)

(** *** Handlers keep the geometry and the title *)

Lemma navigation_ends_with_clamp :
  Forall ends_with_clamp
    [_on_down; _on_up; _on_right; _on_left; _on_pageDown; _on_pageUp; _on_home; _on_end].
Proof.
  repeat apply Forall_cons_2; [..| apply Forall_nil_2];
    auto using on_down_ends_with_clamp, on_up_ends_with_clamp,
      on_right_ends_with_clamp, on_left_ends_with_clamp,
      on_pageDown_ends_with_clamp, on_pageUp_ends_with_clamp,
      on_home_ends_with_clamp, on_end_ends_with_clamp.
Qed.










Lemma getattr_Forall (P : method → Prop) name l h :
  Forall P (snd <$> l) → getattr name l = Some h → P h.
Proof.
  induction l as [| [n h'] l IH]; [done |].
  cbn. intros [Hh Hl]%Forall_cons. destruct (String.eqb name n); [| by apply IH].
  by intros [= <-].
Qed.


(** *** Operations on the screen *)

Lemma run_screen_app a b s :
  run_screen (a ++ b) s = run_screen b (run_screen a s).
Proof. unfold run_screen. apply foldl_app. Qed.




Lemma put_text data s :
  Forall (λ sp, sp ≠ Newline) data →
  row (foldl put s data) = row s ∧
  saved_row (foldl put s data) = saved_row s ∧
  ∀ r, r ≠ row s → (r ∈ inked (foldl put s data) ↔ r ∈ inked s).
Proof.
  intros Hdata. revert s. induction Hdata as [| sp data Hsp _ IH]; intros s; [done |].
  cbn [foldl]. destruct (IH (put s sp)) as (Hr & Hs & Hi).
  assert (row (put s sp) = row s ∧ saved_row (put s sp) = saved_row s ∧
          ∀ r, r ≠ row s → (r ∈ inked (put s sp) ↔ r ∈ inked s)) as (Hr' & Hs' & Hi').
  { destruct sp; [| | done]; cbn; (split; [done |]); (split; [done |]);
      intros r Hne; rewrite elem_of_union, elem_of_singleton; tauto. }
  split; [congruence |]. split; [congruence |].
  intros r Hne. rewrite Hi by congruence. by apply Hi'.
Qed.







Lemma len_xrange n : 0 ≤ n → len (xrange n) = n.
Proof.
  intros Hn. unfold len, xrange. rewrite length_fmap, length_seq. lia.
Qed.

(** *** What the menu writes *)





(** *** The region of the screen the menu owns *)




Lemma output_after out o : output (after out o) = out ++ output o.
Proof. by destruct o. Qed.

Lemma object_after out o : object (after out o) = object o.
Proof. by destruct o. Qed.


Lemma erase_lines {A} (l : list A) s :
  let s' := run_screen (l ≫= λ _, [ansi.clear_line; ansi.down 1]) s in
  row s' = row s + len l ∧ saved_row s' = saved_row s ∧
  ∀ r, r ∈ inked s' ↔ r ∈ inked s ∧ ¬ (row s ≤ r < row s + len l).
Proof.
  revert s. induction l as [| x l IH]; intros s.
  - cbn. split; [unfold len; cbn; lia |]. split; [done |].
    intros r. unfold len. cbn. split; [intros ?; split; [done | lia] | tauto].
  - rewrite bind_cons. cbn zeta. rewrite run_screen_app.
    set (s1 := run_screen [ansi.clear_line; ansi.down 1] s).
    destruct (IH s1) as (Hr & Hs & Hi).
    assert (len (x :: l) = 1 + len l) as -> by (unfold len; cbn [length]; lia).
    assert (0 ≤ len l) by (unfold len; lia).
    assert (row s1 = row s + 1 ∧ saved_row s1 = saved_row s ∧
            inked s1 = inked s ∖ {[row s]}) as (Hr1 & Hs1 & Hi1) by done.
    split; [lia |]. split; [congruence |].
    intros r. rewrite Hi, Hi1, elem_of_difference, elem_of_singleton.
    split; [intros ((? & ?) & ?) | intros (? & ?)]; repeat split; try done; lia.
Qed.










(** * Further properties of the engine *)

(** ** The cursor stays on the visible page *)

(** The clamp puts the cursor on the page whenever the clamped values are
    within one page of each other. *)
Lemma cursor_on_page_adjust m :
  valid m →
  (let s := Z.min (Z.max (selected m) 0) (len (options m) - 1) in
   let f := Z.min (Z.max (first m) 0) (len (options m) - _items_in_page m) in
   f ≤ s ≤ f + _items_in_page m - 1) →
  cursor_on_page (_adjust_selected m).
Proof.
  intros Hv Hsf. pose proof (items_in_page_bounds m Hv) as Hi.
  destruct (adjust_selected_frame m) as (Ho & Hh & Hc).
  unfold cursor_on_page, valid, _items_in_page. rewrite Ho, Hh, Hc.
  rewrite adjust_selected_selected, adjust_selected_first.
  fold (_items_in_page m). cbv zeta in Hsf.
  split; [exact Hv | lia].
Qed.

Ltac keeps_cursor m :=
  intros ((Hh & Hc & Hn) & Hf & Hs);
  assert (1 ≤ height m * columns m) by nia;
  unfold _top_right, _bottom_right, _top_left, _bottom_left;
  rewrite ?Z.mul_sub_distr_l, ?Z.mul_1_r;
  unfold _items_in_page in *;
  repeat case_cmp;
  (apply cursor_on_page_adjust;
   [unfold valid; cbn; lia | unfold _items_in_page; cbn; lia]).






Lemma on_pageUp_keeps_cursor m : cursor_on_page m → cursor_on_page (_on_pageUp m).
Proof. unfold _on_pageUp. keeps_cursor m. Qed.






(** ** The constructor *)

Lemma foldl_max_bounds x l :
  x ≤ foldl Z.max x l ∧ (∀ y, y ∈ l → y ≤ foldl Z.max x l) ∧
  foldl Z.max x l ∈ x :: l.
Proof.
  revert x. induction l as [| z l IH]; intros x; cbn [foldl].
  - split; [lia |]. split; [by intros y ?%elem_of_nil | apply list_elem_of_here].
  - destruct (IH (Z.max x z)) as (Hx & Hl & Hin).
    split; [lia |]. split.
    + intros y [-> | Hy]%elem_of_cons; [lia | by apply Hl].
    + apply elem_of_cons in Hin as [-> | Hin].
      * destruct (Z.max_spec x z) as [(_ & ->) | (_ & ->)];
          [apply list_elem_of_further, list_elem_of_here | apply list_elem_of_here].
      * by apply list_elem_of_further, list_elem_of_further.
Qed.

Lemma py_max_spec l :
  match py_max l with
  | inl e => l = [] ∧ e = ValueError
  | inr w => l ≠ [] ∧ w ∈ l ∧ ∀ y, y ∈ l → y ≤ w
  end.
Proof.
  destruct l as [| x l]; [done |]. cbn.
  destruct (foldl_max_bounds x l) as (Hx & Hl & Hin).
  split; [done |]. split; [exact Hin |].
  intros y [-> | Hy]%elem_of_cons; [exact Hx | by apply Hl].
Qed.

Lemma list_index_spec d l :
  match list_index d l with
  | Some i => 0 ≤ i < len l ∧ l !! Z.to_nat i = Some d ∧
              ∀ j, (j < Z.to_nat i)%nat → l !! j ≠ Some d
  | None => d ∉ l
  end.
Proof.
  induction l as [| y l IH]; cbn [list_index]; [apply not_elem_of_nil |].
  destruct (String.eqb_spec d y) as [<- | Hne].
  - unfold len. cbn. split; [lia |]. split; [done |]. intros j Hj. lia.
  - destruct (list_index d l) as [i |]; cbn.
    + destruct IH as (Hi & Hl & Hfirst).
      unfold len in *. cbn [length].
      replace (Z.to_nat (Z.succ i)) with (S (Z.to_nat i)) by lia.
      split; [lia |]. split; [exact Hl |].
      intros [| j] Hj; cbn; [congruence | apply Hfirst; lia].
    + intros [-> | Hin]%elem_of_cons; [done | by apply IH].
Qed.

Lemma compute_default_spec opts default :
  opts ≠ [] →
  ∃ sel, _compute_default opts default = inr sel ∧ 0 ≤ sel < len opts ∧
         match default with
         | None => sel = 0
         | Some d =>
           match list_index d opts with
           | Some i => sel = i
           | None => sel = 0
           end
         end.
Proof.
  intros Hne. unfold _compute_default, py_mod.
  assert (1 ≤ len opts) as Hn by (destruct opts; [done | unfold len; cbn; lia]).
  destruct (Z.eqb_spec (len opts) 0) as [| _]; [lia |].
  set (d := match default with None => 0 | Some d => _ end).
  assert (0 ≤ d < len opts) as Hd.
  { subst d. destruct default as [d |]; [| lia].
    pose proof (list_index_spec d opts) as Hspec.
    destruct (list_index d opts); [apply Hspec | lia]. }
  exists d. rewrite Z.mod_small by lia. rewrite Z.max_r by lia.
  split; [done |]. split; [exact Hd |].
  subst d. destruct default as [d |]; [| done]. by destruct (list_index d opts).
Qed.

(** X2. The constructor fails in exactly two ways: on an empty option list
    with [ValueError] (the [max] of no label widths), and, on a non-empty
    one, with [ZeroDivisionError] when the computed height
    [min(len(options), height, terminal rows - 2)] is 0; in every other case
    it builds an object of that height. *)
Theorem constructor_errors cls ts title opts default h c :
  match new cls ts title opts default h c with
  | inl e =>
    (opts = [] ∧ e = ValueError) ∨
    (opts ≠ [] ∧ _compute_height ts opts h = 0 ∧ e = ZeroDivisionError)
  | inr m => opts ≠ [] ∧ height m = _compute_height ts opts h ∧ height m ≠ 0
  end.
Proof.
  unfold new, Menu_init.
  pose proof (py_max_spec (slen <$> opts)) as Hmax.
  destruct (py_max (slen <$> opts)) as [e | w].
  - destruct Hmax as (Hnil & ->). left. by apply fmap_nil_inv in Hnil.
  - destruct Hmax as (Hne & _).
    assert (opts ≠ []) as Hopts by (by intros ->).
    destruct (compute_default_spec opts default Hopts) as (sel & -> & _).
    unfold py_mod. destruct (Z.eqb_spec (_compute_height ts opts h) 0) as [H0 | H0].
    + right. done.
    + destruct cls; cbn; done.
Qed.

(** X3. The object the constructor builds holds the option list as given,
    a column width equal to the longest label (so every label fits), a
    height that exceeds neither the list, nor the terminal rows less two,
    nor the height asked for, a column count that exceeds neither the cap
    nor what the terminal width leaves room for, and a cursor inside the
    list. *)
Theorem constructor_geometry cls ts title opts default h c m :
  new cls ts title opts default h c = inr m →
  options m = opts ∧
  (∀ o, o ∈ opts → slen o ≤ width m) ∧
  (∃ o, o ∈ opts ∧ slen o = width m) ∧
  height m ≤ len opts ∧ height m ≤ ts.2 - 2 ∧
  (∀ h0, h = Some h0 → height m ≤ h0) ∧
  columns m ≤ ts.1 / (width m + 1) ∧
  columns m ≤ match c with Some c0 => c0 | None => MAX_COLUMNS end ∧
  0 ≤ selected m < len opts.
Proof.
  unfold new, Menu_init. intros Hnew.
  pose proof (py_max_spec (slen <$> opts)) as Hmax.
  destruct (py_max (slen <$> opts)) as [e | w]; [done |].
  destruct Hmax as (Hne & Hin & Hle).
  assert (opts ≠ []) as Hopts by (by intros ->).
  destruct (compute_default_spec opts default Hopts) as (sel & Hsel & Hbound & _).
  rewrite Hsel in Hnew. unfold py_mod in Hnew.
  destruct (_ =? 0); [done |].
  assert (∀ o, o ∈ opts → slen o ≤ w) as Hfit
    by (intros o Ho; apply Hle, list_elem_of_fmap; eauto).
  assert (∃ o, o ∈ opts ∧ slen o = w) as Hlongest
    by (apply list_elem_of_fmap in Hin as (o & -> & Ho); eauto).
  assert (_compute_height ts opts h ≤ len opts ∧
          _compute_height ts opts h ≤ ts.2 - 2 ∧
          ∀ h0, h = Some h0 → _compute_height ts opts h ≤ h0) as (Hh1 & Hh2 & Hh3).
  { unfold _compute_height. repeat split; try lia. intros h0 ->. lia. }
  assert (_compute_columns ts w c ≤ ts.1 / (w + 1) ∧
          _compute_columns ts w c ≤ match c with Some c0 => c0 | None => MAX_COLUMNS end)
    as (Hc1 & Hc2).
  { unfold _compute_columns. destruct c; cbn; lia. }
  destruct cls; injection Hnew as <-; cbn; repeat split; auto; lia.
Qed.

Lemma constructor_geometry_witness :
  new SearchMenu (80, 24) "Fruit" ["apple"; "buzz"; "fizz"; "grape"] None None None
  = inr fruit ∧
  height fruit ≤ 4 ∧ columns fruit ≤ 80 / (width fruit + 1) ∧
  ∀ o, o ∈ ["apple"; "buzz"; "fizz"; "grape"] → slen o ≤ width fruit.
Proof.
  split; [reflexivity |].
  destruct (constructor_geometry SearchMenu (80, 24) "Fruit"
              ["apple"; "buzz"; "fizz"; "grape"] None None None fruit eq_refl)
    as (_ & Hfit & _ & Hh & _ & _ & Hc & _).
  split; [exact Hh |]. split; [exact Hc | exact Hfit].
Defined.

Lemma py_index_in_range {A} (l : list A) i x :
  0 ≤ i < len l → l !! Z.to_nat i = Some x → py_index l i = inr x.
Proof.
  intros Hi Hx. unfold py_index.
  destruct (Z.ltb_spec i 0); [lia |].
  destruct (Z.leb_spec 0 i); [| lia]. destruct (Z.ltb_spec i (len l)); [| lia].
  cbn. by rewrite Hx.
Qed.

(** X4. In a plain [Menu] a default that is one of the options puts the
    cursor on its first occurrence, so that enter pressed at once returns
    it; a default that is not among the options puts the cursor on the
    first option. *)
Theorem default_is_preselected ts title opts d h c m src :
  new PlainMenu ts title opts (Some d) h c = inr m →
  if decide (d ∈ opts) then
    py_index opts (selected m) = inr d ∧
    (∀ j, (j < Z.to_nat (selected m))%nat → opts !! j ≠ Some d) ∧
    returned (show PlainMenu m (Key "enter" :: src)) = Some (PyStr d)
  else selected m = 0.
Proof.
  unfold new, Menu_init. intros Hnew.
  pose proof (py_max_spec (slen <$> opts)) as Hmax.
  destruct (py_max (slen <$> opts)) as [e | w]; [done |].
  destruct Hmax as (Hne & _).
  assert (opts ≠ []) as Hopts by (by intros ->).
  destruct (compute_default_spec opts (Some d) Hopts) as (sel & Hsel & Hbound & Hd).
  rewrite Hsel in Hnew. unfold py_mod in Hnew.
  destruct (_ =? 0); [done |]. injection Hnew as <-.
  pose proof (list_index_spec d opts) as Hspec.
  destruct (list_index d opts) as [i |]; subst sel.
  - destruct Hspec as (Hi & Hl & Hfirst).
    assert (d ∈ opts) as Hin by (by eapply list_elem_of_lookup_2).
    destruct (decide (d ∈ opts)); [| done]. cbn [selected].
    assert (py_index opts i = inr d) as Hidx by (by apply py_index_in_range).
    split; [exact Hidx |]. split; [exact Hfirst |].
    rewrite returned_show, keyboard_loop_key.
    change (_dispatch_key PlainMenu "enter" ?m) with (Menu_on_enter m).
    unfold Menu_on_enter. cbn [options selected]. by rewrite Hidx.
  - by destruct (decide (d ∈ opts)).
Qed.

Lemma default_is_preselected_witness :
  new PlainMenu (80, 24) "Pick" ["a"; "b"; "c"; "d"; "e"] (Some "e") (Some 3) (Some 1)
  = inr (mkMenu "Pick" ["a"; "b"; "c"; "d"; "e"] 1 1 4 3 3 PyNone false EmptyString
           [] 0 [] ∅) ∧
  py_index ["a"; "b"; "c"; "d"; "e"] 4 = inr "e"%string.
Proof.
  split; [reflexivity |].
  exact (proj1 (default_is_preselected (80, 24) "Pick" ["a"; "b"; "c"; "d"; "e"] "e"
                  (Some 3) (Some 1) _ [] eq_refl)).
Defined.

(** X5. [show_menu] ignores its [default] argument: the search mixin's
    constructor re-derives the visible list, which puts the cursor and the
    window back to 0, so the menu and everything [show_menu] does are the
    same as with no default. *)
Theorem show_menu_ignores_default ts title opts d h multi src :
  show_menu ts title opts (Some d) h multi src
  = show_menu ts title opts None h multi src.
Proof.
  unfold show_menu, new, Menu_init.
  pose proof (py_max_spec (slen <$> opts)) as Hmax.
  destruct (py_max (slen <$> opts)) as [e | w]; [done |].
  destruct Hmax as (Hne & _).
  assert (opts ≠ []) as Hopts by (by intros ->).
  destruct (compute_default_spec opts (Some d) Hopts) as (sel & -> & _).
  destruct (compute_default_spec opts None Hopts) as (sel0 & -> & _).
  unfold py_mod. destruct (_ =? 0); [done |].
  by destruct multi.
Qed.

(** ** Keys without a handler *)

Lemma getattr_unknown name (l : list (string * method)) :
  Forall (λ nh, nh.1 ≠ name) l → getattr name l = None.
Proof.
  induction 1 as [| [n h] l Hn _ IH]; [done |].
  cbn in *. destruct (String.eqb_spec name n); [congruence | exact IH].
Qed.

Lemma handler_name_neq key k :
  key ≠ k → ("_on_" +:+ k) ≠ ("_on_" +:+ key).
Proof. intros Hne Heq. by apply (inj (String.app "_on_")) in Heq. Qed.

Lemma getattr_unclaimed cls key :
  key ∉ handler_keys cls → getattr ("_on_" +:+ key) (handlers cls) = None.
Proof.
  intros Hkey. apply getattr_unknown.
  destruct cls; unfold handlers, Menu_methods, SearchMixin_methods,
    MultiSelectMixin_methods; cbn [app];
    repeat (apply Forall_cons_2; [| ]); try apply Forall_nil_2; cbn [fst];
    match goal with
    | |- ?n ≠ _ =>
      let k := eval cbv in (String.substring 4 (String.length n - 4) n) in
      change n with ("_on_" +:+ k); apply handler_name_neq;
      intros ->; apply Hkey; unfold handler_keys, navigation_keys;
      cbn [app]; apply (bool_decide_unpack _); by vm_compute
    end.
Qed.

(** X6. A key that names no handler and (with the search mixin) is not a
    printable character does nothing at all: the object is unchanged,
    nothing is written to the terminal, and the menu is not finalized. *)
Theorem unclaimed_key_is_ignored cls key m :
  claimed cls key = false →
  _dispatch_key cls key m = Returns PyNone m [].
Proof.
  unfold claimed. intros (Hkey & Hprint)%orb_false_elim.
  apply bool_decide_eq_false in Hkey.
  assert (Menu_dispatch_key cls key m = Returns PyNone m []) as Hbase
    by (unfold Menu_dispatch_key; by rewrite getattr_unclaimed).
  destruct cls; cbn; [exact Hbase | |];
    unfold SearchMixin_dispatch_key; rewrite Hprint; exact Hbase.
Qed.

Lemma unclaimed_key_is_ignored_witness :
  claimed MultiSelectMenu " " = false ∧
  _dispatch_key MultiSelectMenu " " (xyz "Pick" 5) = Returns PyNone (xyz "Pick" 5) [].
Proof.
  split; [by vm_compute |].
  apply (unclaimed_key_is_ignored MultiSelectMenu " " (xyz "Pick" 5)). by vm_compute.
Defined.

(** ** The ends of the list *)

Lemma fixed_by h m :
  ends_with_clamp h → selected (h m) = selected m → first (h m) = first m →
  h m = m.
Proof.
  intros Hh Hs Hf. rewrite (rest_eq _ m (ends_with_clamp_rest h m Hh)), Hs, Hf.
  by destruct m.
Qed.

(** Decide where a handler leaves [selected] or [first]: through the clamp,
    then by cases on the handler's own tests. *)
Ltac through_clamp :=
  cbv zeta;
  rewrite ?adjust_selected_selected, ?adjust_selected_first;
  unfold _top_right, _bottom_right, _top_left, _bottom_left;
  rewrite ?Z.mul_sub_distr_l, ?Z.mul_1_r;
  unfold _items_in_page in *;
  repeat case_cmp; cbn; lia.

Ltac stays m :=
  intros ((Hh & Hc & Hn) & Hf & Hs) Hend;
  assert (1 ≤ height m * columns m) by nia;
  apply fixed_by;
  [ auto using on_down_ends_with_clamp, on_up_ends_with_clamp,
      on_right_ends_with_clamp, on_left_ends_with_clamp,
      on_pageDown_ends_with_clamp, on_pageUp_ends_with_clamp,
      on_home_ends_with_clamp, on_end_ends_with_clamp
  | .. ].

Lemma on_down_at_last m :
  cursor_on_page m → selected m = len (options m) - 1 → _on_down m = m.
Proof. stays m; unfold _on_down; through_clamp. Qed.

Lemma on_right_at_last m :
  cursor_on_page m → selected m = len (options m) - 1 → _on_right m = m.
Proof. stays m; unfold _on_right; through_clamp. Qed.

Lemma on_end_at_last m :
  cursor_on_page m → selected m = len (options m) - 1 → _on_end m = m.
Proof. stays m; unfold _on_end; through_clamp. Qed.

Lemma on_up_at_first m :
  cursor_on_page m → selected m = 0 → _on_up m = m.
Proof. stays m; unfold _on_up; through_clamp. Qed.

Lemma on_left_at_first m :
  cursor_on_page m → selected m = 0 → _on_left m = m.
Proof. stays m; unfold _on_left; through_clamp. Qed.

Lemma on_pageUp_at_first m :
  cursor_on_page m → selected m = 0 → _on_pageUp m = m.
Proof. stays m; unfold _on_pageUp; through_clamp. Qed.

Lemma on_home_at_first m :
  cursor_on_page m → selected m = 0 → _on_home m = m.
Proof. stays m; unfold _on_home; through_clamp. Qed.

(** At an end of the list the cursor stays where it is as soon as it is
    inside the window, clamped or not. *)
Ltac cursor_stays m :=
  intros (Hh & Hc & Hn) Hwin Hend;
  assert (1 ≤ height m * columns m) by nia.

Lemma on_down_cursor_at_last m :
  valid m → first m ≤ selected m ≤ first m + _items_in_page m - 1 →
  selected m = len (options m) - 1 → selected (_on_down m) = selected m.
Proof. cursor_stays m. unfold _on_down. through_clamp. Qed.

Lemma on_right_cursor_at_last m :
  valid m → first m ≤ selected m ≤ first m + _items_in_page m - 1 →
  selected m = len (options m) - 1 → selected (_on_right m) = selected m.
Proof. cursor_stays m. unfold _on_right. through_clamp. Qed.

Lemma on_pageDown_cursor_at_last m :
  valid m → first m ≤ selected m ≤ first m + _items_in_page m - 1 →
  selected m = len (options m) - 1 → selected (_on_pageDown m) = selected m.
Proof. cursor_stays m. unfold _on_pageDown. through_clamp. Qed.

Lemma on_end_cursor_at_last m :
  valid m → first m ≤ selected m ≤ first m + _items_in_page m - 1 →
  selected m = len (options m) - 1 → selected (_on_end m) = selected m.
Proof. cursor_stays m. unfold _on_end. through_clamp. Qed.

Lemma on_up_cursor_at_first m :
  valid m → first m ≤ selected m ≤ first m + _items_in_page m - 1 →
  selected m = 0 → selected (_on_up m) = selected m.
Proof. cursor_stays m. unfold _on_up. through_clamp. Qed.

Lemma on_left_cursor_at_first m :
  valid m → first m ≤ selected m ≤ first m + _items_in_page m - 1 →
  selected m = 0 → selected (_on_left m) = selected m.
Proof. cursor_stays m. unfold _on_left. through_clamp. Qed.

Lemma on_pageUp_cursor_at_first m :
  valid m → first m ≤ selected m ≤ first m + _items_in_page m - 1 →
  selected m = 0 → selected (_on_pageUp m) = selected m.
Proof. cursor_stays m. unfold _on_pageUp. through_clamp. Qed.

Lemma on_home_cursor_at_first m :
  valid m → first m ≤ selected m ≤ first m + _items_in_page m - 1 →
  selected m = 0 → selected (_on_home m) = selected m.
Proof. cursor_stays m. unfold _on_home. through_clamp. Qed.

(** X7. There is no wrap-around.  Take a menu of at least one row, one
    column and one option whose cursor is inside the window, that is
    [first <= selected <= first + _items_in_page() - 1]; the window itself
    need not be clamped (the constructor can leave [first] beyond
    [len(options) - _items_in_page()]).  With the cursor on the last option,
    down, right, pageDown and end leave the cursor on the last option; with
    the cursor on the first option, up, left, pageUp and home leave it on
    the first option.  When the window is clamped as well,
    [0 <= first <= len(options) - _items_in_page()], these keys leave the
    whole object as it is. *)
Theorem no_wrap_around m :
  valid m → first m ≤ selected m ≤ first m + _items_in_page m - 1 →
  (selected m = len (options m) - 1 →
   (selected (_on_down m) = selected m ∧ selected (_on_right m) = selected m ∧
    selected (_on_pageDown m) = selected m ∧ selected (_on_end m) = selected m) ∧
   (0 ≤ first m ≤ len (options m) - _items_in_page m →
    _on_down m = m ∧ _on_right m = m ∧ _on_pageDown m = m ∧ _on_end m = m)) ∧
  (selected m = 0 →
   (selected (_on_up m) = selected m ∧ selected (_on_left m) = selected m ∧
    selected (_on_pageUp m) = selected m ∧ selected (_on_home m) = selected m) ∧
   (0 ≤ first m ≤ len (options m) - _items_in_page m →
    _on_up m = m ∧ _on_left m = m ∧ _on_pageUp m = m ∧ _on_home m = m)).
Proof.
  intros Hv Hwin. split; intros Hend; split.
  - auto using on_down_cursor_at_last, on_right_cursor_at_last,
      on_pageDown_cursor_at_last, on_end_cursor_at_last.
  - intros Hclamped. assert (cursor_on_page m) as Hinv by done.
    auto using on_down_at_last, on_right_at_last, last_option_fixed, on_end_at_last.
  - auto using on_up_cursor_at_first, on_left_cursor_at_first,
      on_pageUp_cursor_at_first, on_home_cursor_at_first.
  - intros Hclamped. assert (cursor_on_page m) as Hinv by done.
    auto using on_up_at_first, on_left_at_first, on_pageUp_at_first, on_home_at_first.
Qed.

(** The witness is the menu the constructor builds for five options with
    default "e", height 3 and one column: the cursor is on the last option
    and [first = 3] is beyond [len(options) - _items_in_page() = 2]. *)
Lemma no_wrap_around_witness :
  new PlainMenu (80, 24) "Pick" ["a"; "b"; "c"; "d"; "e"] (Some "e") (Some 3) (Some 1)
  = inr (mkMenu "Pick" ["a"; "b"; "c"; "d"; "e"] 1 1 4 3 3 PyNone false EmptyString
           [] 0 [] ∅) ∧
  selected (_on_down (mkMenu "Pick" ["a"; "b"; "c"; "d"; "e"] 1 1 4 3 3 PyNone false
                        EmptyString [] 0 [] ∅)) = 4 ∧
  selected (_on_pageDown (mkMenu "Pick" ["a"; "b"; "c"; "d"; "e"] 1 1 4 3 3 PyNone false
                            EmptyString [] 0 [] ∅)) = 4.
Proof.
  split; [reflexivity |].
  destruct (no_wrap_around
              (mkMenu "Pick" ["a"; "b"; "c"; "d"; "e"] 1 1 4 3 3 PyNone false
                 EmptyString [] 0 [] ∅)) as (Hlast & _).
  - unfold valid, len; cbn; lia.
  - unfold _items_in_page, len; cbn; lia.
  - destruct (Hlast eq_refl) as ((Hd & _ & Hp & _) & _).
    split; [exact Hd | exact Hp].
Defined.

Lemma press_navigation_rest cls keys m :
  Forall (λ key, key ∈ navigation_keys) keys →
  ∃ m', press cls keys m = Some m' ∧ rest m' = rest m.
Proof.
  intros Hkeys. revert m. induction Hkeys as [| key keys Hkey _ IH]; intros m.
  - by exists m.
  - destruct (dispatch_navigation cls key Hkey) as (h & Hh & Hd).
    destruct (IH (h m)) as (m' & Hp & Hr).
    exists m'. cbn [press]. rewrite Hd. cbn [truthy]. split; [exact Hp |].
    rewrite Hr. by apply ends_with_clamp_rest.
Qed.

Lemma on_home_lands m :
  valid m → _on_home m = set_first 0 (set_selected 0 m).
Proof.
  intros (Hh & Hc & Hn). assert (1 ≤ height m * columns m) by nia.
  rewrite (rest_eq _ m (ends_with_clamp_rest _ m on_home_ends_with_clamp)).
  assert (selected (_on_home m) = 0 ∧ first (_on_home m) = 0) as (-> & ->); [| done].
  split; unfold _on_home; through_clamp.
Qed.

Lemma on_end_lands m :
  valid m →
  _on_end m = set_first (len (options m) - _items_in_page m)
                (set_selected (len (options m) - 1) m).
Proof.
  intros (Hh & Hc & Hn). assert (1 ≤ height m * columns m) by nia.
  rewrite (rest_eq _ m (ends_with_clamp_rest _ m on_end_ends_with_clamp)).
  assert (selected (_on_end m) = len (options m) - 1 ∧
          first (_on_end m) = len (options m) - _items_in_page m) as (-> & ->); [| done].
  split; unfold _on_end; through_clamp.
Qed.

Lemma valid_rest m' m : rest m' = rest m → valid m → valid m'.
Proof.
  intros (Ho & Hh & Hc & _)%rest_fields. unfold valid. by rewrite Ho, Hh, Hc.
Qed.

(** X8. Home and end forget where the cursor was: after any sequence of
    navigation keys, home leaves the cursor on the first option with the
    window at the top, and end leaves it on the last option with the
    window on the last page, exactly as they do when pressed at once. *)
Theorem home_and_end_forget_history cls keys m :
  valid m →
  Forall (λ key, key ∈ navigation_keys) keys →
  press cls (keys ++ ["home"]) m = Some (set_first 0 (set_selected 0 m)) ∧
  press cls (keys ++ ["end"]) m
  = Some (set_first (len (options m) - _items_in_page m)
            (set_selected (len (options m) - 1) m)).
Proof.
  intros Hv Hkeys.
  destruct (press_navigation_rest cls keys m Hkeys) as (m' & Hp & Hr).
  pose proof (valid_rest m' m Hr Hv) as Hv'.
  rewrite !(press_app _ _ _ _ _ Hp). cbn [press].
  assert (_dispatch_key cls "home" m' = Returns PyNone (_on_home m') [] ∧
          _dispatch_key cls "end" m' = Returns PyNone (_on_end m') []) as (-> & ->)
    by (by destruct cls).
  cbn [truthy]. rewrite on_home_lands, on_end_lands by done.
  destruct (rest_fields _ _ Hr) as (Ho & Hh & Hc & _).
  unfold _items_in_page. rewrite Ho, Hh, Hc.
  rewrite (rest_eq m' m Hr). done.
Qed.

Lemma home_and_end_forget_history_witness :
  valid (abcde "Pick") ∧
  press PlainMenu (["down"; "pageDown"; "down"] ++ ["home"]) (abcde "Pick")
  = Some (abcde "Pick").
Proof.
  assert (valid (abcde "Pick")) as Hv by (unfold valid, len; cbn; lia).
  split; [exact Hv |].
  refine (proj1 (home_and_end_forget_history PlainMenu ["down"; "pageDown"; "down"]
                   (abcde "Pick") Hv _)).
  unfold navigation_keys. repeat constructor.
Defined.

(** ** The filter *)

Lemma enumerate_elem (l : list string) i o :
  (i, o) ∈ imap (λ (j : nat) (x : string), (Z.of_nat j, x)) l
  ↔ 0 ≤ i ∧ l !! Z.to_nat i = Some o.
Proof.
  rewrite elem_of_lookup_imap. split.
  - intros (j & x & [= -> ->] & Hx). rewrite Nat2Z.id. split; [lia | done].
  - intros (Hi & Ho). exists (Z.to_nat i), o. split; [f_equal; lia | done].
Qed.

(** X9. What [_refilter] derives.  The visible list is a subsequence of the
    full list; in search mode it holds exactly the options in which the
    query occurs, case ignored, and otherwise all of them; [_indexes] has one
    entry for each visible option, the position in the full list of that
    option; and the cursor and the window are back at 0. *)
Theorem refilter_shows_the_matches m :
  options (_refilter m) `sublist_of` _allOptions m ∧
  (∀ o, o ∈ options (_refilter m)
        ↔ o ∈ _allOptions m ∧ (searchMode m = true → matches (searchText m) o = true)) ∧
  length (_indexes (_refilter m)) = length (options (_refilter m)) ∧
  (∀ k i, _indexes (_refilter m) !! k = Some i →
          0 ≤ i ∧ is_Some (options (_refilter m) !! k) ∧
          options (_refilter m) !! k = _allOptions m !! Z.to_nat i) ∧
  selected (_refilter m) = 0 ∧ first (_refilter m) = 0.
Proof.
  unfold _refilter, matches. destruct (searchMode m) eqn:Hmode; cbn.
  - set (enum := imap _ (_allOptions m)).
    assert (snd <$> enum = _allOptions m) as Henum by (by apply snd_imap).
    assert (∀ k i o, filter (λ io, str_in (lower (searchText m)) (lower io.2)) enum
                       !! k = Some (i, o) →
                     0 ≤ i ∧ _allOptions m !! Z.to_nat i = Some o) as Hlook.
    { intros k i o Hk.
      apply list_elem_of_lookup_2, list_elem_of_filter in Hk as (_ & Hin).
      by apply enumerate_elem in Hin. }
    split; [rewrite <- Henum; apply fmap_sublist, sublist_filter |].
    split.
    { intros o. rewrite list_elem_of_fmap. split.
      - intros ([i o'] & -> & Hin).
        apply list_elem_of_filter in Hin as (HP & Hin).
        apply enumerate_elem in Hin as (_ & Hin).
        split; [by eapply list_elem_of_lookup_2 | intros _; by apply Is_true_true].
      - intros (Hin & Hmatch). apply list_elem_of_lookup_1 in Hin as (j & Hj).
        exists (Z.of_nat j, o). split; [done |].
        apply list_elem_of_filter. split.
        + apply Is_true_true. by apply Hmatch.
        + apply enumerate_elem. rewrite Nat2Z.id. split; [lia | done]. }
    split; [by rewrite !length_fmap |].
    split; [| done].
    intros k i Hk. apply list_lookup_fmap_Some in Hk as ([i' o] & -> & Hk).
    destruct (Hlook k i' o Hk) as (Hi & Ho).
    rewrite list_lookup_fmap, Hk. cbn. split; [exact Hi |]. split; [by exists o | done].
  - split; [done |].
    split; [intros o; split; [by intros ? | by intros (? & _)] |].
    split; [unfold xrange, len; by rewrite length_fmap, length_seq, Nat2Z.id |].
    split; [| done].
    intros k i Hk. unfold xrange, len in Hk.
    apply list_lookup_fmap_Some in Hk as (j & -> & Hj).
    apply lookup_seq in Hj as (-> & Hlt). rewrite Nat2Z.id in *. cbn.
    split; [lia |]. split; [by apply lookup_lt_is_Some_2 | done].
Qed.

Lemma lower_app a b : lower (a +:+ b) = lower a +:+ lower b.
Proof.
  induction a as [| c a IH]; [done |].
  change (String c a +:+ b) with (String c (a +:+ b)).
  cbn [lower]. by rewrite IH.
Qed.

Lemma prefix_app_l a b s :
  String.prefix (a +:+ b) s = true → String.prefix a s = true.
Proof.
  revert s. induction a as [| c a IH]; intros s; [by destruct s |].
  change (String c a +:+ b) with (String c (a +:+ b)).
  destruct s as [| c' s]; [done |]. cbn.
  destruct (ascii_dec c c'); [apply IH | done].
Qed.

Lemma str_in_app_l a b s : str_in (a +:+ b) s = true → str_in a s = true.
Proof.
  induction s as [| c s IH]; cbn [str_in].
  - rewrite !orb_false_r. apply prefix_app_l.
  - intros [Hp | Hs]%orb_true_iff; apply orb_true_iff;
      [left; by eapply prefix_app_l | right; by apply IH].
Qed.

Lemma filter_sublist_impl {A} (P Q : A → Prop)
    `{∀ x, Decision (P x)} `{∀ x, Decision (Q x)} (l : list A) :
  (∀ x, P x → Q x) → filter P l `sublist_of` filter Q l.
Proof.
  intros HPQ. induction l as [| x l IH]; [done |].
  rewrite !filter_cons. destruct (decide (P x)) as [HP | HP].
  - rewrite decide_True by auto. by apply sublist_skip.
  - destruct (decide (Q x)); [by apply sublist_cons | exact IH].
Qed.

Lemma refilter_options_ext a b :
  searchMode a = searchMode b → searchText a = searchText b →
  _allOptions a = _allOptions b →
  options (_refilter a) = options (_refilter b).
Proof. unfold _refilter. intros -> -> ->. by destruct (searchMode b). Qed.

Lemma refilter_narrows m c :
  searchMode m = true →
  options (_refilter (set_searchText (searchText m +:+ c) m))
    `sublist_of` options (_refilter m).
Proof.
  intros Hmode. unfold _refilter. cbn. rewrite Hmode. cbn.
  apply fmap_sublist, filter_sublist_impl. intros [i o]. cbn.
  rewrite lower_app. intros Hin%Is_true_true. apply Is_true_true.
  by eapply str_in_app_l.
Qed.

(** After a printable key the object is searching and shows the matches of
    its query. *)
Lemma typed_state cls key m :
  cls ≠ PlainMenu → is_printable key = true →
  ∃ m1 out, _dispatch_key cls key m = Returns PyNone m1 out ∧
            searchMode m1 = true ∧ options m1 = options (_refilter m1) ∧
            _allOptions m1 = _allOptions m.
Proof.
  intros Hcls Hkey. rewrite dispatch_printable by done.
  set (x := set_searchText _ _).
  assert (searchMode x = true ∧ _allOptions x = _allOptions m) as (Hmode & Hall).
  { subst x. unfold _start_search. by destruct (searchMode m) eqn:E. }
  destruct (refilter_frame x) as (Hm & Ht & Ha & _).
  exists (_refilter x), (_start_search m).2. split; [done |].
  split; [congruence |]. split; [| congruence].
  symmetry. by apply refilter_options_ext.
Qed.

Lemma typed_states cls chars m :
  cls ≠ PlainMenu → chars ≠ [] →
  Forall (λ key, is_printable key = true) chars →
  ∃ m1, press cls chars m = Some m1 ∧
        searchMode m1 = true ∧ options m1 = options (_refilter m1) ∧
        _allOptions m1 = _allOptions m.
Proof.
  intros Hcls Hne Hchars. revert m.
  induction Hchars as [| key chars Hkey Hchars IH]; [done |]. intros m.
  destruct (typed_state cls key m Hcls Hkey) as (m1 & out & Hd & Hmode & Hshow & Hall).
  cbn [press]. rewrite Hd. cbn [truthy].
  destruct chars as [| key' chars].
  - exists m1. done.
  - destruct (IH ltac:(done) m1) as (m2 & Hp & Hmode2 & Hshow2 & Hall2).
    exists m2. split; [exact Hp |]. split; [done |]. split; [done | congruence].
Qed.

(** X10. A longer query never shows more: once something has been typed,
    typing one more character leaves a subsequence of the options that
    were visible, with the character appended to the query. *)
Theorem longer_query_shows_fewer cls chars c m :
  cls ≠ PlainMenu → chars ≠ [] →
  Forall (λ key, is_printable key = true) chars →
  is_printable c = true →
  ∃ m1 m2, press cls chars m = Some m1 ∧
           press cls (chars ++ [c]) m = Some m2 ∧
           options m2 `sublist_of` options m1 ∧
           searchText m2 = searchText m1 +:+ c.
Proof.
  intros Hcls Hne Hchars Hc.
  destruct (typed_states cls chars m Hcls Hne Hchars) as (m1 & Hp & Hmode & Hshow & _).
  exists m1, (_refilter (set_searchText (searchText m1 +:+ c) m1)).
  split; [exact Hp |]. rewrite (press_app _ _ _ _ _ Hp). cbn [press].
  rewrite dispatch_printable by done.
  assert (_start_search m1 = (m1, [])) as -> by (unfold _start_search; by rewrite Hmode).
  cbn [fst snd truthy]. split; [done |]. split.
  - rewrite Hshow. by apply refilter_narrows.
  - by destruct (refilter_frame (set_searchText (searchText m1 +:+ c) m1)) as (_ & -> & _).
Qed.

Lemma longer_query_shows_fewer_witness :
  ∃ m1 m2, press SearchMenu ["z"] fruit = Some m1 ∧
           press SearchMenu (["z"] ++ ["Z"]) fruit = Some m2 ∧
           options m2 `sublist_of` options m1 ∧
           searchText m2 = searchText m1 +:+ "Z".
Proof.
  apply (longer_query_shows_fewer SearchMenu ["z"] "Z" fruit).
  - discriminate.
  - discriminate.
  - repeat constructor.
  - reflexivity.
Defined.

(** ** Multiple selection *)

Lemma sorted_spec (S : gset string) :
  StronglySorted String.le (sorted S) ∧ NoDup (sorted S) ∧
  ∀ x, x ∈ sorted S ↔ x ∈ S.
Proof.
  unfold sorted. pose proof (merge_sort_Permutation String.le (elements S)) as Hperm.
  split; [apply StronglySorted_merge_sort; apply _ |]. split.
  - rewrite Hperm. apply NoDup_elements.
  - intros x. rewrite Hperm. apply elem_of_elements.
Qed.

Lemma sorted_nonempty (S : gset string) : S ≠ ∅ → sorted S ≠ [].
Proof.
  intros HS Hnil. apply HS. apply set_eq. intros x.
  rewrite <- (proj2 (proj2 (sorted_spec S)) x), Hnil. set_solver.
Qed.

Lemma py_index_total {A} (l : list A) i :
  0 ≤ i < len l → ∃ x, py_index l i = inr x ∧ l !! Z.to_nat i = Some x.
Proof.
  intros Hi. destruct (lookup_lt_is_Some_2 l (Z.to_nat i)) as (x & Hx);
    [unfold len in Hi; lia |].
  exists x. split; [by apply py_index_in_range | done].
Qed.

Lemma py_index_elem {A} (l : list A) i x : py_index l i = inr x → x ∈ l.
Proof.
  unfold py_index. destruct (_ && _); [| done].
  destruct (l !! _) as [y |] eqn:Hy; [| done].
  intros [= <-]. by eapply list_elem_of_lookup_2.
Qed.

(** X11. Enter in a multi-select menu finalizes with the chosen options in
    ascending order and without repetition; when nothing has been chosen,
    with the one highlighted option. *)
Theorem multi_select_enter_is_sorted m :
  (selectedItems m = ∅ → ∃ o, py_index (options m) (selected m) = inr o) →
  ∃ l m', _dispatch_key MultiSelectMenu "enter" m = Returns (PyBool true) m' [] ∧
          result m' = PyList l ∧
          StronglySorted String.le l ∧ NoDup l ∧ l ≠ [] ∧
          ∀ x, x ∈ l ↔ if decide (selectedItems m = ∅)
                       then py_index (options m) (selected m) = inr x
                       else x ∈ selectedItems m.
Proof.
  intros Hhl.
  change (_dispatch_key MultiSelectMenu "enter" m) with (MultiSelectMixin_on_enter m).
  unfold MultiSelectMixin_on_enter.
  destruct (decide (selectedItems m = ∅)) as [Hempty | Hchosen].
  - destruct (Hhl Hempty) as (o & Ho). rewrite Ho. cbn [selectedItems set_selectedItems].
    destruct (sorted_spec ({[o]} ∪ selectedItems m)) as (Hs & Hd & Hin).
    eexists _, _. split; [reflexivity |]. split; [reflexivity |].
    split; [exact Hs |]. split; [exact Hd |]. split.
    + apply sorted_nonempty. intros Hnil.
      apply (not_elem_of_empty (C := gset string) o). rewrite <- Hnil.
      apply elem_of_union_l, elem_of_singleton. done.
    + intros x. rewrite Hin, Hempty, elem_of_union, elem_of_singleton.
      split; [intros [-> | []%not_elem_of_empty]; done | intros [= ->]; by left].
  - destruct (sorted_spec (selectedItems m)) as (Hs & Hd & Hin).
    eexists _, _. split; [reflexivity |]. split; [reflexivity |].
    split; [exact Hs |]. split; [exact Hd |]. split; [by apply sorted_nonempty | exact Hin].
Qed.

Lemma multi_select_enter_is_sorted_witness :
  ∃ l m', _dispatch_key MultiSelectMenu "enter" (xyz "Pick" 5)
          = Returns (PyBool true) m' [] ∧
          result m' = PyList l ∧
          StronglySorted String.le l ∧ NoDup l ∧ l ≠ [] ∧
          ∀ x, x ∈ l ↔ py_index ["x"; "y"; "z"] 0 = inr x.
Proof.
  apply (multi_select_enter_is_sorted (xyz "Pick" 5)).
  intros _. exists "x"%string. reflexivity.
Defined.

Lemma toggle_toggle o (S : gset string) : toggle o (toggle o S) = S.
Proof.
  unfold toggle. destruct (decide (o ∈ S)) as [Hin | Hout].
  - rewrite decide_False by (rewrite elem_of_difference, elem_of_singleton; tauto).
    apply set_eq. intros x.
    rewrite elem_of_union, elem_of_difference, !elem_of_singleton.
    destruct (decide (x = o)) as [-> | Hne]; tauto.
  - rewrite decide_True by (apply elem_of_union_l, elem_of_singleton; done).
    apply set_eq. intros x.
    rewrite elem_of_difference, elem_of_union, !elem_of_singleton.
    split; [tauto |]. intros Hx. split; [tauto | congruence].
Qed.

Lemma cursor_on_page_set_selectedItems S m :
  cursor_on_page m → cursor_on_page (set_selectedItems S m).
Proof. done. Qed.

(** X12. With the cursor on the last option, where [space] cannot move it
    any further, pressing [space] twice toggles that option on and off
    again and leaves the object exactly as it was. *)
Theorem space_twice_on_last_option m :
  cursor_on_page m → selected m = len (options m) - 1 →
  press MultiSelectMenu ["space"; "space"] m = Some m.
Proof.
  intros Hinv Hlast. pose proof Hinv as ((Hh & Hc & Hn) & _).
  destruct (py_index_total (options m) (selected m)) as (o & Ho & _); [lia |].
  assert (∀ S, _dispatch_key MultiSelectMenu "space" (set_selectedItems S m)
               = Returns PyNone (set_selectedItems (toggle o S) m) []) as Hspace.
  { intros S. rewrite (dispatch_space _ o) by exact Ho.
    cbn [selectedItems set_selectedItems].
    rewrite on_down_at_last; [| by apply cursor_on_page_set_selectedItems | exact Hlast].
    done. }
  assert (m = set_selectedItems (selectedItems m) m) as Hm by (by destruct m).
  cbn [press]. rewrite Hm at 1. rewrite Hspace. cbn [truthy].
  rewrite Hspace. cbn [truthy]. rewrite toggle_toggle. by rewrite <- Hm.
Qed.

Lemma space_twice_on_last_option_witness :
  cursor_on_page (set_selected 2 (xyz "Pick" 5)) ∧
  press MultiSelectMenu ["space"; "space"] (set_selected 2 (xyz "Pick" 5))
  = Some (set_selected 2 (xyz "Pick" 5)).
Proof.
  assert (cursor_on_page (set_selected 2 (xyz "Pick" 5))) as Hinv
    by (unfold cursor_on_page, valid, _items_in_page, len; cbn; lia).
  split; [exact Hinv |].
  apply (space_twice_on_last_option _ Hinv). reflexivity.
Defined.

(** ** What [show_menu] returns *)

Lemma within_options_rest m' m :
  rest m' = rest m → within_options m → within_options m'.
Proof.
  unfold rest, within_options. intros [= ]. by repeat match goal with H : _ = _ |- _ => rewrite H end.
Qed.

Lemma chooses_among_navigation cls f :
  ends_with_clamp f → chooses_among cls (returns_none f).
Proof.
  intros Hf m Hm. cbn. pose proof (ends_with_clamp_rest f m Hf) as Hr.
  split; [by eapply within_options_rest |]. split; [| done].
  unfold rest in Hr. by injection Hr.
Qed.

Lemma refilter_options_sublist m :
  options (_refilter m) `sublist_of` _allOptions m.
Proof.
  unfold _refilter. destruct (searchMode m) eqn:Hmode; cbn; [| done].
  set (enum := imap _ (_allOptions m)).
  assert (snd <$> enum = _allOptions m) as Henum by (by apply snd_imap).
  rewrite <- Henum. apply fmap_sublist, sublist_filter.
Qed.

Lemma within_options_refilter m :
  (∀ o, o ∈ selectedItems m → o ∈ _allOptions m) → within_options (_refilter m).
Proof.
  intros Hsel. pose proof (refilter_options_sublist m) as Hsub.
  destruct (refilter_frame m) as (_ & _ & Hall & _).
  split.
  - intros o Ho. rewrite Hall. by eapply elem_of_sublist.
  - rewrite Hall. unfold _refilter. by destruct (searchMode m).
Qed.

Lemma chooses_among_on_esc cls : chooses_among cls SearchMixin_on_esc.
Proof.
  intros m (Hopt & Hsel). unfold SearchMixin_on_esc, _stop_search.
  destruct (searchMode m).
  - split; [by apply within_options_refilter |]. split; [| done].
    by destruct (refilter_frame (set_searchMode false m)) as (_ & _ & -> & _).
  - cbn. split; [done |]. split; [done | by left].
Qed.

Lemma chooses_among_backspace cls : chooses_among cls (returns_none _on_backspace).
Proof.
  intros m (Hopt & Hsel). cbn. unfold _on_backspace.
  destruct (_ && _); [| done].
  split; [by apply within_options_refilter |]. split; [| done].
  by destruct (refilter_frame (set_searchText (drop_last (searchText m)) m))
    as (_ & _ & -> & _).
Qed.

Lemma chooses_among_enter_single cls :
  cls ≠ MultiSelectMenu → chooses_among cls Menu_on_enter.
Proof.
  intros Hcls m (Hopt & Hsel). unfold Menu_on_enter.
  destruct (py_index _ _) as [| o] eqn:Ho; [done |].
  split; [done |]. split; [done |]. intros _. right. cbn.
  destruct cls; [| | done]; exists o; (split; [done |]);
    by apply Hopt, (py_index_elem _ (selected m)).
Qed.

Lemma chooses_among_enter_multi :
  chooses_among MultiSelectMenu MultiSelectMixin_on_enter.
Proof.
  intros m (Hopt & Hsel). unfold MultiSelectMixin_on_enter.
  destruct (decide (selectedItems m = ∅)) as [Hempty | Hchosen].
  - destruct (py_index _ _) as [| o] eqn:Ho; [done |].
    assert (o ∈ _allOptions m) as Hin by (by apply Hopt, (py_index_elem _ (selected m))).
    destruct (sorted_spec ({[o]} ∪ selectedItems m)) as (Hs & Hd & Hl).
    split; [| split; [done |]].
    + split; [done |]. cbn. intros x [->%elem_of_singleton | Hx]%elem_of_union; auto.
    + intros _. right. cbn. eexists. split; [reflexivity |].
      split; [| split; [exact Hs | split; [exact Hd |]]].
      * apply sorted_nonempty. intros Hnil.
        apply (not_elem_of_empty (C := gset string) o). rewrite <- Hnil.
        by apply elem_of_union_l, elem_of_singleton.
      * intros x [->%elem_of_singleton | Hx]%Hl%elem_of_union; auto.
  - destruct (sorted_spec (selectedItems m)) as (Hs & Hd & Hl).
    split; [done |]. split; [done |]. intros _. right. cbn.
    eexists. split; [reflexivity |].
    split; [by apply sorted_nonempty |]. split; [exact Hs |]. split; [exact Hd |].
    intros x Hx%Hl. by apply Hsel.
Qed.

Lemma chooses_among_esc_multi : chooses_among MultiSelectMenu MultiSelectMixin_on_esc.
Proof.
  intros m Hm. unfold MultiSelectMixin_on_esc.
  by apply (chooses_among_on_esc MultiSelectMenu (set_result (PyList []) m)).
Qed.

Lemma chooses_among_space cls : chooses_among cls _on_space.
Proof.
  intros m (Hopt & Hsel). unfold _on_space.
  destruct (py_index _ _) as [| o] eqn:Ho; [done |].
  assert (o ∈ _allOptions m) as Hin by (by apply Hopt, (py_index_elem _ (selected m))).
  set (m1 := if decide _ then _ else _).
  assert (within_options m1 ∧ _allOptions m1 = _allOptions m) as (Hm1 & Hall).
  { subst m1. destruct (decide _); (split; [split; [done |] | done]); cbn.
    - intros x (Hx & _)%elem_of_difference. by apply Hsel.
    - intros x [->%elem_of_singleton | Hx]%elem_of_union; auto. }
  destruct (chooses_among_navigation cls _on_down on_down_ends_with_clamp m1 Hm1)
    as (Hw & Ha & _).
  cbn in Hw, Ha. split; [exact Hw |]. split; [congruence | done].
Qed.

(** The handler an instance of one of [show_menu]'s classes finds under a
    name, whichever it is. *)
Lemma getattr_chooses_among cls name h :
  cls ≠ PlainMenu → getattr name (handlers cls) = Some h → chooses_among cls h.
Proof.
  intros Hcls.
  destruct cls; [done | |];
    unfold handlers, Menu_methods, SearchMixin_methods, MultiSelectMixin_methods;
    cbn [app getattr];
    repeat (match goal with
            | |- context [String.eqb name ?n] =>
              destruct (String.eqb_spec name n) as [-> | ?]
            end;
            [ intros [= <-];
              solve [ exfalso; congruence
                    | auto using chooses_among_navigation, on_down_ends_with_clamp,
                        on_up_ends_with_clamp, on_right_ends_with_clamp,
                        on_left_ends_with_clamp, on_pageDown_ends_with_clamp,
                        on_pageUp_ends_with_clamp, on_home_ends_with_clamp,
                        on_end_ends_with_clamp, chooses_among_on_esc,
                        chooses_among_backspace, chooses_among_enter_multi,
                        chooses_among_esc_multi, chooses_among_space
                    | by apply chooses_among_enter_single ]
            | ]);
    done.
Qed.

Lemma dispatch_chooses_among cls key :
  cls ≠ PlainMenu → chooses_among cls (_dispatch_key cls key).
Proof.
  intros Hcls.
  assert (chooses_among cls (Menu_dispatch_key cls key)) as Hbase.
  { intros m Hm. unfold Menu_dispatch_key.
    destruct (getattr _ _) as [h |] eqn:Hget; [| done].
    by apply (getattr_chooses_among cls _ h Hcls Hget). }
  assert (chooses_among cls (SearchMixin_dispatch_key cls key)) as Hsearch.
  { intros m Hm. unfold SearchMixin_dispatch_key.
    destruct (is_printable key); [| by apply Hbase].
    assert (selectedItems (_start_search m).1 = selectedItems m ∧
            _allOptions (_start_search m).1 = _allOptions m) as (Hsel & Hall)
      by (unfold _start_search; by destruct (searchMode m)).
    destruct (_start_search m) as [m1 out]. cbn [fst snd] in *.
    set (x := set_searchText _ m1).
    destruct (refilter_frame x) as (_ & _ & Hx & _).
    split; [| split; [by rewrite Hx |]; done].
    apply within_options_refilter. subst x. cbn. rewrite Hsel, Hall. apply Hm. }
  by destruct cls.
Qed.

Lemma keyboard_loop_chooses_among cls src m :
  cls ≠ PlainMenu → within_options m →
  match keyboard_loop cls m src with
  | Returns r _ _ => r = PyNone ∨ confirmed_result cls (_allOptions m) r
  | Raises _ _ _ => True
  end.
Proof.
  intros Hcls. revert m. induction src as [| [key | e] src IH]; intros m Hm;
    [by left | | done].
  rewrite keyboard_loop_key.
  pose proof (dispatch_chooses_among cls key Hcls m Hm) as Hd.
  destruct (_dispatch_key cls key m) as [ret m' out | e m' out]; [| done].
  destruct Hd as (Hm' & Hall & Hres).
  destruct (truthy ret); [by apply Hres |].
  specialize (IH m' Hm'). rewrite Hall in IH.
  by destruct (keyboard_loop cls m' src).
Qed.

Lemma Menu_init_fresh ts title opts default h c m :
  Menu_init ts title opts default h c = inr m →
  options m = opts ∧ selectedItems m = ∅.
Proof.
  unfold Menu_init. repeat case_match; try done. by intros [= <-].
Qed.

(** X13. Whatever the keys, what [show_menu] returns is [None], or, after a
    confirmation, one of the options it was given (single-select), or a
    non-empty list of distinct options it was given, in ascending order
    (multi-select).  In particular a multi-select menu never returns the
    empty list. *)
Theorem show_menu_returns_given_options ts title opts default h multi src :
  match show_menu ts title opts default h multi src with
  | inr (Returns r _ _) =>
    r = PyNone ∨
    if multi
    then ∃ l, r = PyList l ∧ l ≠ [] ∧ StronglySorted String.le l ∧ NoDup l ∧
              ∀ o, o ∈ l → o ∈ opts
    else ∃ s, r = PyStr s ∧ s ∈ opts
  | _ => True
  end.
Proof.
  unfold show_menu. set (cls := if multi then _ else _).
  assert (cls ≠ PlainMenu) as Hcls by (subst cls; by destruct multi).
  destruct (new cls ts title opts default h None) as [| m] eqn:Hnew; [done |].
  assert (within_options m ∧ _allOptions m = opts) as (Hm & Hall).
  { unfold new in Hnew. destruct (Menu_init ts title opts default h None) as [| m0] eqn:Hinit;
      [done |].
    destruct (Menu_init_fresh _ _ _ _ _ _ _ Hinit) as (Ho & Hs).
    set (m1 := _refilter (SearchMixin_init m0)) in Hnew.
    assert (within_options m1) as (Hopt1 & Hsel1).
    { apply within_options_refilter. intros o. cbn. rewrite Hs.
      by intros ?%not_elem_of_empty. }
    assert (_allOptions m1 = opts) as Hall1.
    { subst m1. destruct (refilter_frame (SearchMixin_init m0)) as (_ & _ & -> & _).
      exact Ho. }
    destruct cls; [done | |]; injection Hnew as <-; [done |].
    split; [| exact Hall1]. split; [exact Hopt1 |].
    intros o. cbn. by intros ?%not_elem_of_empty. }
  pose proof (keyboard_loop_chooses_among cls src m Hcls Hm) as Hloop.
  unfold show. destruct (keyboard_loop cls m src) as [r m' out |]; [| done].
  cbn. rewrite Hall in Hloop. destruct Hloop as [-> | Hr]; [by left | right].
  subst cls. by destruct multi.
Qed.

(** ** How [show] ends *)

Lemma after_after a b o : after a (after b o) = after (a ++ b) o.
Proof. destruct o; cbn; by rewrite app_assoc. Qed.

(** Keys that do not finalize are consumed one by one; the loop then goes
    on from the object they lead to. *)
Lemma keyboard_loop_press cls keys m m1 src :
  press cls keys m = Some m1 →
  ∃ out, keyboard_loop cls m ((Key <$> keys) ++ src)
         = after out (keyboard_loop cls m1 src).
Proof.
  revert m. induction keys as [| key keys IH]; intros m Hp.
  - injection Hp as <-. exists []. cbn [fmap list_fmap app].
    by destruct (keyboard_loop cls m src).
  - cbn [press] in Hp. cbn [fmap list_fmap app]. rewrite keyboard_loop_key.
    destruct (_dispatch_key cls key m) as [ret m' out |]; [| done].
    destruct (truthy ret); [done |].
    destruct (IH m' Hp) as (out' & ->).
    eexists. by rewrite after_after.
Qed.

(** X14. How [show] ends, in terms of the keys that came before.  When the
    keys read so far did not finalize: if the key stream ends there, [show]
    returns [None] (also in a multi-select menu with options chosen); if the
    key source raises there, [show] raises the same exception; and if the
    next key's handler finalizes, [show] returns the result that handler
    stored, without reading any further key. *)
Theorem show_ends cls keys m m1 :
  press cls keys m = Some m1 →
  returned (show cls m (Key <$> keys)) = Some PyNone ∧
  (∀ e src, ∃ m' out, show cls m ((Key <$> keys) ++ SourceFails e :: src)
                      = Raises e m' out) ∧
  (∀ key ret m2 out src,
     _dispatch_key cls key m1 = Returns ret m2 out → truthy ret = true →
     returned (show cls m ((Key <$> keys) ++ Key key :: src)) = Some (result m2)).
Proof.
  intros Hp. split; [| split].
  - destruct (keyboard_loop_press cls keys m m1 [] Hp) as (out & Hloop).
    rewrite app_nil_r in Hloop. by rewrite returned_show, Hloop.
  - intros e src.
    destruct (keyboard_loop_press cls keys m m1 (SourceFails e :: src) Hp) as (out & Hloop).
    unfold show. rewrite Hloop. cbn. eauto.
  - intros key ret m2 out src Hd Hret.
    destruct (keyboard_loop_press cls keys m m1 (Key key :: src) Hp) as (out' & Hloop).
    rewrite returned_show, Hloop, keyboard_loop_key, Hd, Hret. done.
Qed.

Lemma show_ends_witness :
  press MultiSelectMenu ["space"; "down"] (xyz "Pick" 5)
  = Some (set_selected 2 (set_selectedItems {["x"%string]} (xyz "Pick" 5))) ∧
  returned (show MultiSelectMenu (xyz "Pick" 5) (Key <$> ["space"; "down"]))
  = Some PyNone.
Proof.
  assert (press MultiSelectMenu ["space"; "down"] (xyz "Pick" 5)
          = Some (set_selected 2 (set_selectedItems {["x"%string]} (xyz "Pick" 5))))
    as Hp by (by vm_compute).
  split; [exact Hp |].
  exact (proj1 (show_ends MultiSelectMenu ["space"; "down"] _ _ Hp)).
Defined.

(** ** Moves that undo each other *)

(** A handler sends [m] to the object with the given cursor and window. *)
Lemma lands_on h m s f :
  ends_with_clamp h → selected (h m) = s → first (h m) = f →
  h m = set_first f (set_selected s m).
Proof.
  intros Hh <- <-. apply rest_eq. by apply ends_with_clamp_rest.
Qed.

Ltac lands m :=
  intros ((Hh & Hc & Hn) & Hf & Hs);
  assert (1 ≤ height m * columns m) by nia;
  unfold _top_right, _bottom_left; rewrite ?Z.mul_sub_distr_l, ?Z.mul_1_r;
  intros;
  apply lands_on;
  [ auto using on_down_ends_with_clamp, on_up_ends_with_clamp,
      on_right_ends_with_clamp, on_left_ends_with_clamp
  | .. ].

Lemma on_right_inside m :
  cursor_on_page m → selected m < _top_right m →
  selected m + height m ≤ len (options m) - 1 →
  _on_right m = set_first (first m) (set_selected (selected m + height m) m).
Proof. lands m; unfold _on_right; through_clamp. Qed.

Lemma on_left_inside m :
  cursor_on_page m → _bottom_left m < selected m →
  _on_left m = set_first (first m) (set_selected (selected m - height m) m).
Proof. lands m; unfold _on_left; through_clamp. Qed.

Lemma on_left_after_right m :
  cursor_on_page m → selected m < _top_right m →
  selected m + height m ≤ len (options m) - 1 →
  _on_left (_on_right m) = m.
Proof.
  intros Hinv Hcol Hroom. rewrite on_right_inside by done.
  set (m1 := set_first _ _).
  assert (cursor_on_page m1 ∧ _bottom_left m1 < selected m1) as (Hinv1 & Hcol1).
  { destruct Hinv as ((Hh & Hc & Hn) & Hf & Hs).
    assert (1 ≤ height m * columns m) by nia.
    unfold _top_right in Hcol. rewrite Z.mul_sub_distr_l, Z.mul_1_r in Hcol.
    subst m1. unfold cursor_on_page, valid, _bottom_left, _items_in_page in *.
    cbn. lia. }
  rewrite on_left_inside by done.
  replace (selected m1 - height m1) with (selected m) by (subst m1; cbn; lia).
  subst m1. by destruct m.
Qed.

Lemma on_right_after_left m :
  cursor_on_page m → _bottom_left m < selected m →
  _on_right (_on_left m) = m.
Proof.
  intros Hinv Hcol. rewrite on_left_inside by done.
  set (m1 := set_first _ _).
  assert (cursor_on_page m1 ∧ selected m1 < _top_right m1 ∧
          selected m1 + height m1 ≤ len (options m1) - 1) as (Hinv1 & Hcol1 & Hroom1).
  { destruct Hinv as ((Hh & Hc & Hn) & Hf & Hs).
    assert (1 ≤ height m * columns m) by nia.
    subst m1. unfold cursor_on_page, valid, _bottom_left, _top_right,
      _items_in_page in *.
    cbn. rewrite Z.mul_sub_distr_l, Z.mul_1_r. lia. }
  rewrite on_right_inside by done.
  replace (selected m1 + height m1) with (selected m) by (subst m1; cbn; lia).
  subst m1. by destruct m.
Qed.

Lemma on_up_selected m :
  selected (_on_up m) = Z.min (Z.max (selected m - 1) 0) (len (options m) - 1).
Proof. unfold _on_up. rewrite adjust_selected_selected. cases; lia. Qed.

Lemma on_up_after_down_selected m :
  0 ≤ selected m < len (options m) - 1 →
  selected (_on_up (_on_down m)) = selected m.
Proof.
  intros Hs.
  destruct (rest_fields _ _ (ends_with_clamp_rest _ m on_down_ends_with_clamp))
    as (Ho & _).
  rewrite on_up_selected, on_down_selected, Ho. lia.
Qed.

Lemma on_down_after_up_selected m :
  0 < selected m ≤ len (options m) - 1 →
  selected (_on_down (_on_up m)) = selected m.
Proof.
  intros Hs.
  destruct (rest_fields _ _ (ends_with_clamp_rest _ m on_up_ends_with_clamp))
    as (Ho & _).
  rewrite on_down_selected, on_up_selected, Ho. lia.
Qed.

(** X15. Moves that undo each other.  On a clamped window with the cursor
    on the page (at least one row, one column and one option,
    [0 <= first <= len(options) - _items_in_page()] and
    [first <= selected <= first + _items_in_page() - 1]), right, when the
    cursor is not in the last column and there is an option one column to
    the right, is undone by left, and left, when the cursor is not in the
    first column, is undone by right: the object is exactly as before.
    Wherever the window is, with the cursor inside the list, down followed
    by up brings the cursor back to the same option when it is not on the
    last option, and up followed by down does when it is not on the first. *)
Theorem moves_undo_each_other m :
  (cursor_on_page m →
   (selected m < _top_right m → selected m + height m ≤ len (options m) - 1 →
    _on_left (_on_right m) = m) ∧
   (_bottom_left m < selected m → _on_right (_on_left m) = m)) ∧
  (0 ≤ selected m < len (options m) - 1 →
   selected (_on_up (_on_down m)) = selected m) ∧
  (0 < selected m ≤ len (options m) - 1 →
   selected (_on_down (_on_up m)) = selected m).
Proof.
  split.
  - intros Hinv. split; [by apply on_left_after_right | by apply on_right_after_left].
  - split; [apply on_up_after_down_selected | apply on_down_after_up_selected].
Qed.

Lemma moves_undo_each_other_witness :
  cursor_on_page grid ∧ _on_left (_on_right grid) = grid ∧
  selected (_on_up (_on_down grid)) = 0.
Proof.
  assert (cursor_on_page grid) as Hinv
    by (unfold cursor_on_page, valid, _items_in_page, len; cbn; lia).
  split; [exact Hinv |].
  destruct (moves_undo_each_other grid) as (Hside & Hdu & _).
  destruct (Hside Hinv) as (Hrl & _).
  split; [apply Hrl | apply Hdu]; unfold _top_right, len; cbn; lia.
Defined.

(** ** The layout of a page *)

Lemma bind_if_filter {A B} (p : A → Prop) `{∀ x, Decision (p x)}
    (f : A → list B) (l : list A) :
  l ≫= (λ x, if decide (p x) then f x else []) = filter p l ≫= f.
Proof.
  induction l as [| x l IH]; [done |].
  rewrite filter_cons, !bind_cons, IH. by destruct (decide (p x)).
Qed.

Lemma bind_ext_in {A B} (f g : A → list B) (l : list A) :
  (∀ x, x ∈ l → f x = g x) → l ≫= f = l ≫= g.
Proof.
  intros Hfg. induction l as [| x l IH]; [done |].
  rewrite !bind_cons, Hfg by apply list_elem_of_here.
  f_equal. apply IH. intros y Hy. by apply Hfg, list_elem_of_further.
Qed.

Lemma elem_of_py_range start stop step j :
  j ∈ py_range start stop step
  ↔ ∃ k : nat, (k < Z.to_nat ((stop - start + step - 1) / step))%nat ∧
               j = start + Z.of_nat k * step.
Proof.
  unfold py_range. rewrite list_elem_of_fmap. split.
  - intros (k & -> & Hk). apply elem_of_seq in Hk. exists k. split; [lia | done].
  - intros (k & Hk & ->). exists k. split; [done |]. apply elem_of_seq. lia.
Qed.

Lemma lookup_py_range start stop step k j :
  py_range start stop step !! k = Some j → j = start + Z.of_nat k * step.
Proof.
  unfold py_range. intros (i & -> & Hi)%list_lookup_fmap_Some.
  apply lookup_seq in Hi as (-> & _). done.
Qed.

Lemma NoDup_py_range start stop step :
  0 < step → NoDup (py_range start stop step).
Proof.
  intros Hstep. unfold py_range. apply NoDup_fmap_2; [| apply NoDup_seq].
  intros k1 k2 Heq. nia.
Qed.

Lemma filter_Forall_id {A} (P : A → Prop) `{∀ x, Decision (P x)} (l : list A) :
  Forall P l → filter P l = l.
Proof.
  induction 1 as [| x l Hx _ IH]; [done |].
  by rewrite filter_cons_True, IH.
Qed.

(** Filtering an enumeration by a test that holds exactly below a bound
    keeps the elements below the bound. *)
Lemma filter_fmap_seq_prefix {A} (P : A → Prop) `{∀ x, Decision (P x)}
    (f : nat → A) (n n' : nat) :
  (n' ≤ n)%nat → (∀ k, (k < n)%nat → (P (f k) ↔ (k < n')%nat)) →
  filter P (f <$> seq 0 n) = f <$> seq 0 n'.
Proof.
  intros Hle HP. induction n as [| n IH].
  - by replace n' with O by lia.
  - destruct (decide (n' = S n)) as [-> | Hne].
    + apply filter_Forall_id, Forall_fmap, Forall_forall.
      intros k Hk%elem_of_seq. apply HP; lia.
    + rewrite seq_S, fmap_app, filter_app, IH; cycle 1.
      * lia.
      * intros k Hk. apply HP. lia.
      * cbn [fmap list_fmap plus]. rewrite filter_cons_False, filter_nil, app_nil_r; [done |].
        rewrite HP by lia. lia.
Qed.

Lemma ceil_div_lt h x k :
  0 < h → (x + h - 1) / h ≤ k ↔ x ≤ k * h.
Proof.
  intros Hh. pose proof (Z.div_mod (x + h - 1) h ltac:(lia)) as Hdm.
  pose proof (Z.mod_pos_bound (x + h - 1) h Hh) as Hmod.
  split; intros Hk; nia.
Qed.

(** The test [index < len(page)] on [range(row, row+len(page), height)]
    leaves [range(row, len(page), height)]. *)
Lemma row_indexes_range m row :
  1 ≤ height m → 0 ≤ row →
  row_indexes m row = py_range row (len (page m)) (height m).
Proof.
  intros Hh Hrow. unfold row_indexes, py_range.
  set (L := len (page m)). set (h := height m) in *.
  assert (0 ≤ L) by (subst L; unfold len; lia).
  assert ((L - row + h - 1) / h ≤ (row + L - row + h - 1) / h) as Hq
    by (apply Z.div_le_mono; lia).
  apply filter_fmap_seq_prefix; [lia |].
  intros k Hk.
  destruct (Z.le_gt_cases ((L - row + h - 1) / h) (Z.of_nat k)) as [Hge | Hlt].
  - pose proof (proj1 (ceil_div_lt h (L - row) (Z.of_nat k) ltac:(lia)) Hge). lia.
  - assert (¬ (L - row ≤ Z.of_nat k * h)) as Hnot
      by (intros Hx; apply (ceil_div_lt h (L - row) (Z.of_nat k)) in Hx; lia).
    lia.
Qed.

Lemma page_take_drop m :
  0 ≤ first m → 0 ≤ height m * columns m →
  page m = take (Z.to_nat (height m * columns m))
             (drop (Z.to_nat (first m)) (options m)).
Proof.
  intros Hf Hhc. unfold page, py_slice, py_clip.
  set (N := len (options m)). assert (0 ≤ N) by (subst N; unfold len; lia).
  destruct (Z.ltb_spec (first m) 0); [lia |].
  destruct (Z.ltb_spec (first m + height m * columns m) 0); [lia |].
  destruct (Z.le_gt_cases (first m) N) as [Hin | Hout].
  - rewrite (Z.min_l (first m) N) by lia.
    apply list_eq. intros k. rewrite !lookup_take, !lookup_drop.
    destruct (decide (k < Z.to_nat (height m * columns m))%nat) as [Hk | Hk].
    + destruct (decide (k < Z.to_nat (Z.min (first m + height m * columns m) N - first m))%nat);
        [done |].
      symmetry. apply lookup_ge_None. subst N. unfold len in *. lia.
    + rewrite decide_False; [done |]. lia.
  - rewrite (Z.min_r (first m) N) by lia.
    rewrite !drop_ge by (subst N; unfold len in *; lia). by rewrite !take_nil.
Qed.

(** X16. The page is always full: with the window clamped and the cursor
    on it, the slice [_print_menu] takes holds exactly [_items_in_page()]
    options, namely those from position [first] on, and the highlighted
    option is the one at position [selected - first] of it. *)
Theorem page_is_full m :
  cursor_on_page m →
  len (page m) = _items_in_page m ∧
  (∀ k o, page m !! k = Some o
          ↔ Z.of_nat k < _items_in_page m ∧
            options m !! (Z.to_nat (first m) + k)%nat = Some o) ∧
  py_index (page m) (selected m - first m) = py_index (options m) (selected m).
Proof.
  intros ((Hh & Hc & Hn) & Hf & Hs).
  assert (1 ≤ height m * columns m) as Hhc by nia.
  rewrite page_take_drop by lia.
  set (N := len (options m)) in *. unfold _items_in_page in *. fold N in Hf, Hs |- *.
  assert (∀ k o, take (Z.to_nat (height m * columns m))
                   (drop (Z.to_nat (first m)) (options m)) !! k = Some o
                 ↔ Z.of_nat k < Z.min (height m * columns m) N ∧
                   options m !! (Z.to_nat (first m) + k)%nat = Some o) as Hlook.
  { intros k o. rewrite lookup_take_Some, lookup_drop. split.
    - intros (Ho & Hk). split; [| done].
      apply lookup_lt_Some in Ho. subst N. unfold len. lia.
    - intros (Hk & Ho). split; [done | lia]. }
  assert (len (take (Z.to_nat (height m * columns m))
                 (drop (Z.to_nat (first m)) (options m)))
          = Z.min (height m * columns m) N) as Hlen.
  { unfold len. rewrite length_take, length_drop. subst N. unfold len in *. lia. }
  split; [exact Hlen |]. split; [exact Hlook |].
  destruct (py_index_total (options m) (selected m)) as (o & -> & Ho); [lia |].
  apply py_index_in_range; [rewrite Hlen; lia |].
  apply Hlook. split; [lia |].
  by replace (Z.to_nat (first m) + Z.to_nat (selected m - first m))%nat
    with (Z.to_nat (selected m)) by lia.
Qed.

Lemma page_is_full_witness :
  cursor_on_page grid ∧ len (page grid) = 4 ∧
  py_index (page grid) 0 = inr "a"%string.
Proof.
  assert (cursor_on_page grid) as Hinv
    by (unfold cursor_on_page, valid, _items_in_page, len; cbn; lia).
  split; [exact Hinv |].
  destruct (page_is_full grid Hinv) as (Hlen & _ & Hsel).
  split; [exact Hlen | exact Hsel].
Defined.

(** X17. The layout of the page is column-major.  On line [row] of the
    menu [_print_menu] draws the page positions
    [row, row + height, row + 2*height, ...] below [len(page)] (the test
    [index < len(page)] cuts [range(row, row+len(page), height)] down to
    [range(row, len(page), height)]), each with the option at that position;
    so a page position [j] is drawn once, on line [j mod height], as item
    number [j / height] of that line. *)
Theorem page_is_drawn_column_major cls m :
  1 ≤ height m →
  Menu_print_menu cls m
  = xrange (height m) ≫= (λ row,
      [ansi.write
         (join [Text " "]
            (row_indexes m row ≫= λ index,
               match py_index (page m) index with
               | inr o => [_build_menu_item cls m (first m + index) o]
               | inl _ => []
               end));
       ansi.clear_eol; ansi.write [Newline]]) ∧
  ∀ row, 0 ≤ row < height m →
    row_indexes m row = py_range row (len (page m)) (height m) ∧
    NoDup (row_indexes m row) ∧
    (∀ k j, row_indexes m row !! k = Some j →
            j = row + Z.of_nat k * height m ∧ ∃ o, py_index (page m) j = inr o) ∧
    (∀ j, j ∈ row_indexes m row ↔ 0 ≤ j < len (page m) ∧ j mod height m = row).
Proof.
  intros Hh. split.
  - unfold Menu_print_menu. fold (page m). apply bind_ext_in. intros row _.
    do 3 f_equal. unfold row_indexes. rewrite <- bind_if_filter.
    apply bind_ext_in. intros index _.
    destruct (Z.ltb_spec index (len (page m))), (decide (index < len (page m)));
      (done || lia).
  - intros row Hrow.
    assert (row_indexes m row = py_range row (len (page m)) (height m)) as Hrange
      by (apply row_indexes_range; lia).
    assert (∀ j, j ∈ row_indexes m row → 0 ≤ j < len (page m)) as Hbound.
    { intros j. unfold row_indexes.
      intros (Hlt & (k & _ & ->)%elem_of_py_range)%list_elem_of_filter. nia. }
    split; [exact Hrange |]. split; [rewrite Hrange; apply NoDup_py_range; lia |].
    split.
    + intros k j Hk. split.
      * rewrite Hrange in Hk. by apply lookup_py_range in Hk.
      * apply list_elem_of_lookup_2, Hbound in Hk.
        destruct (py_index_total (page m) j Hk) as (o & Ho & _). eauto.
    + intros j. split.
      * intros Hj. split; [by apply Hbound |].
        rewrite Hrange in Hj. apply elem_of_py_range in Hj as (k & _ & ->).
        rewrite Z.mod_add by lia. apply Z.mod_small. lia.
      * intros (Hj & Hmod). unfold row_indexes. apply list_elem_of_filter.
        split; [lia |]. apply elem_of_py_range.
        pose proof (Z.div_mod j (height m) ltac:(lia)) as Hdm.
        assert (0 ≤ j / height m) by (apply Z.div_pos; lia).
        exists (Z.to_nat (j / height m)). split; [| lia].
        assert (j / height m < (row + len (page m) - row + height m - 1) / height m);
          [| lia].
        apply Z.lt_le_trans with ((j + height m) / height m).
        -- replace (j + height m) with (j + 1 * height m) by lia.
           rewrite Z.div_add by lia. lia.
        -- apply Z.div_le_mono; lia.
Qed.

Lemma page_is_drawn_column_major_witness :
  row_indexes grid 1 = [1; 3] ∧ NoDup (row_indexes grid 1).
Proof.
  assert (1 ≤ height grid) as Hh by (cbn; lia).
  destruct (proj2 (page_is_drawn_column_major PlainMenu grid Hh) 1) as (_ & Hd & _);
    [cbn; lia |].
  split; [by vm_compute | exact Hd].
Defined.

(** ** No exception on a non-empty list *)

Lemma cursor_in_list_adjust m : cursor_in_list (_adjust_selected m).
Proof.
  unfold cursor_in_list. destruct (adjust_selected_frame m) as (-> & _).
  rewrite adjust_selected_selected.
  destruct (options m) as [| o l]; [by left | right].
  unfold len. cbn [length]. lia.
Qed.

Lemma raises_only_on_empty_navigation f :
  ends_with_clamp f → raises_only_on_empty (returns_none f).
Proof.
  intros Hf m _. cbn. destruct (Hf m) as (m1 & -> & _). apply cursor_in_list_adjust.
Qed.

Lemma cursor_in_list_refilter m : cursor_in_list (_refilter m).
Proof.
  unfold cursor_in_list.
  destruct (refilter_frame m) as (_ & _ & _ & -> & _).
  destruct (options (_refilter m)) as [| o l]; [by left | right].
  unfold len. cbn [length]. lia.
Qed.

Lemma py_index_cursor_in_list m :
  cursor_in_list m →
  match py_index (options m) (selected m) with
  | inl e => e = IndexError ∧ options m = []
  | inr _ => True
  end.
Proof.
  intros [Hnil | Hin].
  - rewrite Hnil. by rewrite py_index_nil.
  - by destruct (py_index_total _ _ Hin) as (o & -> & _).
Qed.

Lemma raises_only_on_empty_handlers cls :
  Forall raises_only_on_empty (snd <$> handlers cls).
Proof.
  assert (Forall raises_only_on_empty (snd <$> Menu_methods)) as Hmenu.
  { pose proof navigation_ends_with_clamp as Hnav.
    cbn. repeat apply Forall_cons_2; [..| apply Forall_nil_2];
      try (apply raises_only_on_empty_navigation; eapply Forall_forall in Hnav;
           [exact Hnav |]; set_solver).
    - intros m Hm. unfold Menu_on_enter.
      pose proof (py_index_cursor_in_list m Hm) as Hidx.
      by destruct (py_index _ _).
    - by intros m Hm. }
  assert (raises_only_on_empty SearchMixin_on_esc) as Hesc.
  { intros m Hm. unfold SearchMixin_on_esc, _stop_search.
    destruct (searchMode m); [apply cursor_in_list_refilter | done]. }
  assert (Forall raises_only_on_empty (snd <$> SearchMixin_methods)) as Hsearch.
  { cbn. repeat apply Forall_cons_2; [..| apply Forall_nil_2]; [| exact Hesc].
    intros m Hm. cbn. unfold _on_backspace.
    destruct (_ && _); [apply cursor_in_list_refilter | done]. }
  assert (Forall raises_only_on_empty (snd <$> MultiSelectMixin_methods)) as Hmulti.
  { cbn. repeat apply Forall_cons_2; [..| apply Forall_nil_2].
    - intros m Hm. unfold MultiSelectMixin_on_enter.
      pose proof (py_index_cursor_in_list m Hm) as Hidx.
      destruct (decide _); [| done]. by destruct (py_index _ _).
    - intros m Hm. unfold MultiSelectMixin_on_esc. by apply Hesc.
    - intros m Hm. unfold _on_space.
      pose proof (py_index_cursor_in_list m Hm) as Hidx.
      destruct (py_index _ _); [done |].
      destruct (on_down_ends_with_clamp
                  (if decide (s ∈ selectedItems m)
                   then set_selectedItems (selectedItems m ∖ {[s]}) m
                   else set_selectedItems ({[s]} ∪ selectedItems m) m))
        as (m1 & -> & _).
      apply cursor_in_list_adjust. }
  destruct cls; unfold handlers; rewrite ?fmap_app, ?Forall_app; auto.
Qed.

Lemma raises_only_on_empty_dispatch cls key :
  raises_only_on_empty (_dispatch_key cls key).
Proof.
  assert (raises_only_on_empty (Menu_dispatch_key cls key)) as Hbase.
  { intros m Hm. unfold Menu_dispatch_key.
    destruct (getattr _ _) as [h |] eqn:Hget; [| done].
    by apply (getattr_Forall _ _ _ _ (raises_only_on_empty_handlers cls) Hget). }
  assert (raises_only_on_empty (SearchMixin_dispatch_key cls key)) as Hsearch.
  { intros m Hm. unfold SearchMixin_dispatch_key.
    destruct (is_printable key); [| by apply Hbase].
    destruct (_start_search m). apply cursor_in_list_refilter. }
  by destruct cls.
Qed.

Lemma keyboard_loop_raises cls src m :
  cursor_in_list m →
  match keyboard_loop cls m src with
  | Returns _ _ _ => True
  | Raises e m' _ => SourceFails e ∈ src ∨ (e = IndexError ∧ options m' = [])
  end.
Proof.
  revert m. induction src as [| [key | e] src IH]; intros m Hm; [done | |].
  - rewrite keyboard_loop_key.
    pose proof (raises_only_on_empty_dispatch cls key m Hm) as Hd.
    destruct (_dispatch_key cls key m) as [ret m' out | e m' out]; [| by right].
    destruct (truthy ret); [done |].
    specialize (IH m' Hd).
    destruct (keyboard_loop cls m' src); [done |]. cbn.
    destruct IH as [Hin | Hidx]; [left; by apply list_elem_of_further | by right].
  - cbn. left. apply list_elem_of_here.
Qed.

(** X18. The only exceptions that come out of [show_menu], once the menu
    is built, are those of the key source and the [IndexError] of enter or
    space on a visible list that the filter has emptied: as long as an
    option is visible, no key makes a handler raise. *)
Theorem show_menu_raises_only_on_empty_list ts title opts default h multi src :
  match show_menu ts title opts default h multi src with
  | inr (Raises e m' _) =>
    SourceFails e ∈ src ∨ (e = IndexError ∧ options m' = [])
  | _ => True
  end.
Proof.
  unfold show_menu. set (cls := if multi then _ else _).
  destruct (new cls ts title opts default h None) as [| m] eqn:Hnew; [done |].
  assert (cursor_in_list m) as Hm.
  { unfold new in Hnew. destruct (Menu_init _ _ _ _ _ _) as [| m0]; [done |].
    subst cls. destruct multi; injection Hnew as <-;
      apply (cursor_in_list_refilter (SearchMixin_init m0)). }
  pose proof (keyboard_loop_raises cls src m Hm) as Hloop.
  unfold show. by destruct (keyboard_loop cls m src).
Qed.

(** ** Repeated keys *)

Lemma downs_selected k m :
  0 ≤ selected m < len (options m) →
  options (downs k m) = options m ∧
  selected (downs k m) = Z.min (selected m + Z.of_nat k) (len (options m) - 1).
Proof.
  intros Hs. induction k as [| k (Ho & IH)].
  - split; [done |]. cbn. lia.
  - change (downs (S k) m) with (_on_down (downs k m)).
    destruct (rest_fields _ _ (ends_with_clamp_rest _ (downs k m) on_down_ends_with_clamp))
      as (Ho' & _).
    split; [congruence |]. rewrite on_down_selected, IH, Ho. lia.
Qed.

Lemma ups_selected k m :
  0 ≤ selected m < len (options m) →
  options (ups k m) = options m ∧
  selected (ups k m) = Z.max (selected m - Z.of_nat k) 0.
Proof.
  intros Hs. induction k as [| k (Ho & IH)].
  - split; [done |]. cbn. lia.
  - change (ups (S k) m) with (_on_up (ups k m)).
    destruct (rest_fields _ _ (ends_with_clamp_rest _ (ups k m) on_up_ends_with_clamp))
      as (Ho' & _).
    split; [congruence |]. rewrite on_up_selected, IH, Ho. lia.
Qed.

Lemma press_downs cls k m :
  press cls (replicate k "down") m = Some (downs k m).
Proof.
  revert m. induction k as [| k IH]; intros m; [done |].
  unfold downs. rewrite Nat.iter_succ_r. cbn [replicate press].
  rewrite dispatch_down. apply IH.
Qed.

Lemma press_ups cls k m :
  press cls (replicate k "up") m = Some (ups k m).
Proof.
  revert m. induction k as [| k IH]; intros m; [done |].
  unfold ups. rewrite Nat.iter_succ_r. cbn [replicate press].
  assert (_dispatch_key cls "up" m = Returns PyNone (_on_up m) []) as ->
    by (by destruct cls).
  apply IH.
Qed.

(** X19. Down and up move the cursor by exactly one option and stop at the
    ends: from a cursor inside the list, [k] downs lead to option
    [min(selected + k, N-1)] and [k] ups to option [max(selected - k, 0)];
    and in a single-select menu [k] downs followed by enter return the
    option at that position. *)
Theorem downs_and_ups_count cls k m src :
  cls ≠ MultiSelectMenu →
  0 ≤ selected m < len (options m) →
  (∃ m', press cls (replicate k "down") m = Some m' ∧
         selected m' = Z.min (selected m + Z.of_nat k) (len (options m) - 1)) ∧
  (∃ m', press cls (replicate k "up") m = Some m' ∧
         selected m' = Z.max (selected m - Z.of_nat k) 0) ∧
  ∃ o, py_index (options m) (Z.min (selected m + Z.of_nat k) (len (options m) - 1))
       = inr o ∧
       returned (show cls m ((Key <$> replicate k "down") ++ Key "enter" :: src))
       = Some (PyStr o).
Proof.
  intros Hcls Hs.
  destruct (downs_selected k m Hs) as (Ho & Hd).
  destruct (ups_selected k m Hs) as (_ & Hu).
  split; [exists (downs k m); by rewrite press_downs |].
  split; [exists (ups k m); by rewrite press_ups |].
  destruct (py_index_total (options m)
              (Z.min (selected m + Z.of_nat k) (len (options m) - 1)))
    as (o & Hidx & _); [lia |].
  exists o. split; [exact Hidx |].
  destruct (keyboard_loop_press cls (replicate k "down") m (downs k m)
              (Key "enter" :: src) (press_downs cls k m)) as (out & Hloop).
  rewrite returned_show, Hloop, returned_after, keyboard_loop_key.
  assert (_dispatch_key cls "enter" (downs k m) = Menu_on_enter (downs k m)) as ->
    by (by destruct cls).
  unfold Menu_on_enter. by rewrite Ho, Hd, Hidx.
Qed.

Lemma downs_and_ups_count_witness :
  0 ≤ selected (abcde "Pick") < len (options (abcde "Pick")) ∧
  ∃ o, py_index ["a"; "b"; "c"; "d"; "e"] (Z.min (0 + Z.of_nat 7) (5 - 1)) = inr o ∧
       returned (show PlainMenu (abcde "Pick")
                   ((Key <$> replicate 7 "down") ++ [Key "enter"]))
       = Some (PyStr o).
Proof.
  assert (0 ≤ selected (abcde "Pick") < len (options (abcde "Pick"))) as Hs
    by (unfold len; cbn; lia).
  split; [exact Hs |].
  refine (proj2 (proj2 (downs_and_ups_count PlainMenu 7 (abcde "Pick") [] _ Hs))).
  discriminate.
Defined.

Lemma on_pageUp_selected m :
  selected (_on_pageUp m)
  = Z.min (Z.max (if selected m =? first m
                  then selected m - _items_in_page m else first m) 0)
          (len (options m) - 1).
Proof. unfold _on_pageUp. rewrite adjust_selected_selected. cases; lia. Qed.

Lemma on_pageUp_moves_back m :
  cursor_on_page m → 0 < selected m → selected (_on_pageUp m) < selected m.
Proof.
  intros (Hv & Hf & Hs) Hpos. pose proof (items_in_page_bounds m Hv).
  rewrite on_pageUp_selected.
  destruct (Z.eqb_spec (selected m) (first m)); lia.
Qed.

Lemma pageUps_succ_r k m : pageUps (S k) m = pageUps k (_on_pageUp m).
Proof. unfold pageUps. apply Nat.iter_succ_r. Qed.

Lemma pageUps_invariant k m :
  cursor_on_page m → cursor_on_page (pageUps k m) ∧ rest (pageUps k m) = rest m.
Proof.
  intros Hinv. induction k as [| k (IH & Hr)]; [done |].
  change (pageUps (S k) m) with (_on_pageUp (pageUps k m)).
  split; [by apply on_pageUp_keeps_cursor |].
  rewrite <- Hr. apply ends_with_clamp_rest, on_pageUp_ends_with_clamp.
Qed.

Lemma pageUps_reach_top d m :
  cursor_on_page m → selected m ≤ Z.of_nat d →
  ∃ T, (T ≤ d)%nat ∧ selected (pageUps T m) = 0 ∧
       ∀ k, (k < T)%nat → selected (pageUps (S k) m) < selected (pageUps k m).
Proof.
  revert m. induction d as [| d IH]; intros m Hinv Hd;
    pose proof Hinv as (Hv & Hf & Hs);
    destruct (Z.eq_dec (selected m) 0) as [Htop | Hmore]; try lia.
  1, 2: exists O; split; [lia |]; split; [exact Htop | lia].
  destruct (IH (_on_pageUp m)) as (T & HT & Hend & Hprog).
  { by apply on_pageUp_keeps_cursor. }
  { pose proof (on_pageUp_moves_back m Hinv). lia. }
  exists (S T). rewrite pageUps_succ_r. split; [lia |]. split; [exact Hend |].
  intros [| k] Hk.
  - change (selected (_on_pageUp m) < selected m).
    apply on_pageUp_moves_back; [done | lia].
  - rewrite (pageUps_succ_r (S k) m), (pageUps_succ_r k m). apply Hprog. lia.
Qed.

Lemma press_pageUps cls k m :
  press cls (replicate k "pageUp") m = Some (pageUps k m).
Proof.
  revert m. induction k as [| k IH]; intros m; [done |].
  rewrite pageUps_succ_r. cbn [replicate press].
  assert (_dispatch_key cls "pageUp" m = Returns PyNone (_on_pageUp m) []) as ->
    by (by destruct cls).
  apply IH.
Qed.

(** X20. Repeated pageUp leads back to the top: from any clamped window
    with the cursor on it, after at most [selected] presses, each of which
    moves the cursor back, the cursor is on the first option with the window
    at 0, and further presses change nothing. *)
Theorem pageUp_returns_to_top cls m :
  cursor_on_page m →
  (∀ k, press cls (replicate k "pageUp") m = Some (pageUps k m)) ∧
  ∃ T, Z.of_nat T ≤ selected m ∧
       pageUps T m = set_first 0 (set_selected 0 m) ∧
       (∀ k, (k < T)%nat → selected (pageUps (S k) m) < selected (pageUps k m)) ∧
       (∀ k, (T ≤ k)%nat → pageUps k m = pageUps T m).
Proof.
  intros Hinv. split; [intros k; apply press_pageUps |].
  pose proof Hinv as (Hv & Hf & Hs).
  destruct (pageUps_reach_top (Z.to_nat (selected m)) m Hinv) as (T & HT & Hend & Hprog);
    [lia |].
  destruct (pageUps_invariant T m Hinv) as (HinvT & HrT).
  assert (first (pageUps T m) = 0) as Hfirst
    by (destruct HinvT as (_ & ? & ?); lia).
  exists T. split; [lia |]. split.
  { rewrite (rest_eq _ m HrT), Hend, Hfirst. done. }
  split; [exact Hprog |].
  intros k Hle. induction Hle as [| k _ IH]; [done |].
  change (pageUps (S k) m) with (_on_pageUp (pageUps k m)). rewrite IH.
  by apply on_pageUp_at_first.
Qed.

Lemma pageUp_returns_to_top_witness :
  cursor_on_page (set_first 2 (set_selected 4 (abcde "Pick"))) ∧
  press PlainMenu (replicate 3 "pageUp") (set_first 2 (set_selected 4 (abcde "Pick")))
  = Some (abcde "Pick").
Proof.
  assert (cursor_on_page (set_first 2 (set_selected 4 (abcde "Pick")))) as Hinv
    by (unfold cursor_on_page, valid, _items_in_page, len; cbn; lia).
  split; [exact Hinv |].
  exact (proj1 (pageUp_returns_to_top PlainMenu _ Hinv) 3%nat).
Defined.

(** ** A terminal that is too narrow *)

Lemma new_fields cls ts title opts default h c m :
  new cls ts title opts default h c = inr m →
  py_max (slen <$> opts) = inr (width m) ∧
  columns m = _compute_columns ts (width m) c ∧
  height m = _compute_height ts opts h.
Proof.
  unfold new, Menu_init.
  destruct (py_max (slen <$> opts)) as [| w]; [done |].
  destruct (_compute_default opts default) as [| sel]; [done |].
  destruct (py_mod sel _) as [| r]; [done |].
  destruct cls; by intros [= <-].
Qed.

(** X21. On a terminal narrower than the longest label plus one, the
    constructor computes zero columns; the page is then empty and
    [Menu._print_menu] draws [height] empty lines and no option. *)
Theorem narrow_terminal_draws_no_option cls ts title opts default h c m :
  new cls ts title opts default h c = inr m →
  0 ≤ ts.1 < width m + 1 →
  0 ≤ match c with Some c0 => c0 | None => MAX_COLUMNS end →
  columns m = 0 ∧ page m = [] ∧
  Menu_print_menu cls m
  = xrange (height m) ≫= λ _, [ansi.write []; ansi.clear_eol; ansi.write [Newline]].
Proof.
  intros Hnew Hts Hc.
  destruct (new_fields _ _ _ _ _ _ _ _ Hnew) as (_ & Hcol & _).
  assert (columns m = 0) as Hzero.
  { rewrite Hcol. unfold _compute_columns. rewrite Z.div_small by lia.
    destruct c; lia. }
  assert (page m = []) as Hpage.
  { unfold page, py_slice. rewrite Hzero, Z.mul_0_r, Z.add_0_r, Z.sub_diag. done. }
  split; [exact Hzero |]. split; [exact Hpage |].
  unfold Menu_print_menu. fold (page m). rewrite Hpage.
  apply bind_ext_in. intros row Hrow.
  assert (1 ≤ height m) as Hh.
  { unfold xrange in Hrow. apply list_elem_of_fmap in Hrow as (k & _ & Hk).
    apply elem_of_seq in Hk. lia. }
  unfold py_range, len. cbn [length].
  replace ((row + Z.of_nat 0 - row + height m - 1) / height m) with 0; [done |].
  symmetry. apply Z.div_small. lia.
Qed.

Lemma narrow_terminal_draws_no_option_witness :
  new PlainMenu (4, 24) "Fruit" ["apple"; "buzz"; "fizz"; "grape"] None (Some 2) None
  = inr (mkMenu "Fruit" ["apple"; "buzz"; "fizz"; "grape"] 5 0 0 2 0 PyNone false
           EmptyString [] 0 [] ∅) ∧
  Menu_print_menu PlainMenu
    (mkMenu "Fruit" ["apple"; "buzz"; "fizz"; "grape"] 5 0 0 2 0 PyNone false
       EmptyString [] 0 [] ∅)
  = xrange 2 ≫= λ _, [ansi.write []; ansi.clear_eol; ansi.write [Newline]].
Proof.
  split; [reflexivity |].
  refine (proj2 (proj2 (narrow_terminal_draws_no_option PlainMenu (4, 24) "Fruit"
                          ["apple"; "buzz"; "fizz"; "grape"] None (Some 2) None
                          (mkMenu "Fruit" ["apple"; "buzz"; "fizz"; "grape"] 5 0 0 2 0
                             PyNone false EmptyString [] 0 [] ∅)
                          eq_refl _ _))); [cbn; lia | unfold MAX_COLUMNS; lia].
Defined.

(** ** The scroll markers *)

Lemma left_marker_up m index :
  _build_left_marker m index = up_marker ↔ index = first m ∧ 0 < first m.
Proof.
  unfold _build_left_marker, _top_left, _bottom_left, up_marker.
  destruct (Z.gtb_spec index 0), (Z.eqb_spec index (first m)); cbn;
    repeat case_match; split; (done || lia || intros (? & ?); lia).
Qed.

Lemma right_marker_down m index :
  _build_right_marker m index = down_marker
  ↔ index = _bottom_right m ∧ _bottom_right m < len (options m) - 1.
Proof.
  unfold _build_right_marker, down_marker.
  destruct (Z.ltb_spec index (len (options m) - 1)),
    (Z.eqb_spec index (_bottom_right m)); cbn;
    repeat case_match; split; (done || lia || intros (? & ?); lia).
Qed.

(** X22. The scroll markers tell the truth: on a clamped window, an option
    of the page is drawn with the [^] marker exactly when there are options
    before the window (it is then the first of the page), and one is drawn
    with the [v] marker exactly when there are options after the
    [height*columns] cells of the window (it is then the last cell). *)
Theorem scroll_markers_tell_the_truth m :
  cursor_on_page m →
  ((∃ index, in_page m index = true ∧ _build_left_marker m index = up_marker)
   ↔ 0 < first m) ∧
  ((∃ index, in_page m index = true ∧ _build_right_marker m index = down_marker)
   ↔ first m + height m * columns m < len (options m)).
Proof.
  intros ((Hh & Hc & Hn) & Hf & Hs).
  assert (1 ≤ height m * columns m) as Hhc by nia.
  unfold _items_in_page in *.
  assert (∀ i, in_page m i = true
               ↔ first m ≤ i < first m + height m * columns m ∧ 0 ≤ i < len (options m))
    as Hin.
  { intros i. unfold in_page. rewrite !andb_true_iff, !Z.leb_le, !Z.ltb_lt. lia. }
  split; split.
  - intros (i & _ & (-> & Hpos)%left_marker_up). exact Hpos.
  - intros Hpos. exists (first m). split; [apply Hin; lia | by apply left_marker_up].
  - intros (i & Hi%Hin & (-> & Hmore)%right_marker_down).
    unfold _bottom_right in *. lia.
  - intros Hmore. exists (_bottom_right m).
    split; [apply Hin | apply right_marker_down]; unfold _bottom_right; lia.
Qed.

Lemma scroll_markers_tell_the_truth_witness :
  cursor_on_page grid ∧
  ∃ index, in_page grid index = true ∧ _build_right_marker grid index = down_marker.
Proof.
  assert (cursor_on_page grid) as Hinv
    by (unfold cursor_on_page, valid, _items_in_page, len; cbn; lia).
  split; [exact Hinv |].
  apply (proj2 (scroll_markers_tell_the_truth grid Hinv)). unfold len. cbn. lia.
Defined.

(** ** The text cursor *)

Lemma refilter_searchMode m : searchMode (_refilter m) = searchMode m.
Proof. unfold _refilter. by destruct (searchMode m) eqn:Hmode; cbn. Qed.

Lemma follows_search_navigation f :
  ends_with_clamp f → follows_search (returns_none f).
Proof.
  intros Hf m. cbn.
  assert (searchMode (f m) = searchMode m) as ->
    by (pose proof (ends_with_clamp_rest f m Hf) as Hr; unfold rest in Hr; congruence).
  by destruct (searchMode m).
Qed.

Lemma follows_search_Menu_methods : Forall follows_search (snd <$> Menu_methods).
Proof.
  pose proof navigation_ends_with_clamp as Hnav.
  cbn. repeat apply Forall_cons_2; [..| apply Forall_nil_2];
    try (apply follows_search_navigation; eapply Forall_forall in Hnav; [exact Hnav |];
         set_solver).
  - intros m. unfold Menu_on_enter.
    destruct (py_index _ _); cbn; by destruct (searchMode m).
  - intros m. cbn. by destruct (searchMode m).
Qed.

Lemma follows_search_SearchMixin_on_esc : follows_search SearchMixin_on_esc.
Proof.
  intros m. unfold SearchMixin_on_esc, _stop_search.
  destruct (searchMode m) eqn:Hmode; cbn [object output].
  - by rewrite refilter_searchMode.
  - cbn. by rewrite Hmode.
Qed.

Lemma follows_search_SearchMixin_methods :
  Forall follows_search (snd <$> SearchMixin_methods).
Proof.
  cbn. repeat apply Forall_cons_2; [..| apply Forall_nil_2].
  - intros m. cbn. unfold _on_backspace.
    destruct (_ && _); rewrite ?refilter_searchMode; cbn; by destruct (searchMode m).
  - apply follows_search_SearchMixin_on_esc.
Qed.

Lemma follows_search_MultiSelectMixin_methods :
  Forall follows_search (snd <$> MultiSelectMixin_methods).
Proof.
  cbn. repeat apply Forall_cons_2; [..| apply Forall_nil_2].
  - intros m. unfold MultiSelectMixin_on_enter.
    destruct (decide _); [destruct (py_index _ _) |]; cbn; by destruct (searchMode m).
  - intros m. unfold MultiSelectMixin_on_esc.
    by rewrite (follows_search_SearchMixin_on_esc (set_result (PyList []) m)).
  - intros m. unfold _on_space. destruct (py_index _ _) as [| o];
      [cbn; by destruct (searchMode m) |].
    cbn [object output].
    pose proof (ends_with_clamp_rest _
      (if decide (o ∈ selectedItems m)
       then set_selectedItems (selectedItems m ∖ {[o]}) m
       else set_selectedItems ({[o]} ∪ selectedItems m) m) on_down_ends_with_clamp) as Hr.
    unfold rest in Hr.
    assert (searchMode (_on_down
      (if decide (o ∈ selectedItems m)
       then set_selectedItems (selectedItems m ∖ {[o]}) m
       else set_selectedItems ({[o]} ∪ selectedItems m) m)) = searchMode m) as ->
      by (destruct (decide _); cbn in Hr; congruence).
    by destruct (searchMode m).
Qed.

Lemma follows_search_handlers cls : Forall follows_search (snd <$> handlers cls).
Proof.
  destruct cls; unfold handlers; rewrite ?fmap_app, ?Forall_app;
    auto using follows_search_Menu_methods, follows_search_SearchMixin_methods,
      follows_search_MultiSelectMixin_methods.
Qed.

Lemma follows_search_dispatch_key cls key : follows_search (_dispatch_key cls key).
Proof.
  assert (follows_search (Menu_dispatch_key cls key)) as Hbase.
  { intros m. unfold Menu_dispatch_key.
    destruct (getattr _ _) as [h |] eqn:Hget; [| cbn; by destruct (searchMode m)].
    by apply (getattr_Forall follows_search _ _ _ (follows_search_handlers cls) Hget). }
  assert (follows_search (SearchMixin_dispatch_key cls key)) as Hsearch.
  { intros m. unfold SearchMixin_dispatch_key.
    destruct (is_printable key); [| apply Hbase].
    unfold _start_search. destruct (searchMode m) eqn:Hmode; cbn [negb object output];
      rewrite refilter_searchMode; cbn; by rewrite ?Hmode. }
  by destruct cls.
Qed.

Lemma cursor_shown_put data s : cursor_shown (foldl put s data) = cursor_shown s.
Proof.
  revert s. induction data as [| sp data IH]; intros s; [done |].
  cbn. rewrite IH. by destruct sp.
Qed.

Lemma paints_only_keeps ops s :
  paints_only ops → cursor_shown (run_screen ops s) = cursor_shown s.
Proof.
  unfold paints_only, run_screen. intros Hops. revert s.
  induction Hops as [| o ops [Hshow Hhide] _ IH]; intros s; [done |].
  cbn. rewrite IH. destruct o; try done. apply cursor_shown_put.
Qed.

Lemma paints_only_Menu_print_menu cls m : paints_only (Menu_print_menu cls m).
Proof.
  unfold paints_only, Menu_print_menu. apply Forall_bind, Forall_forall.
  intros row _. by repeat constructor.
Qed.

Lemma paints_only_print_menu cls m : paints_only (_print_menu cls m).
Proof.
  assert (paints_only (SearchMixin_print_menu cls m)) as Hsearch.
  { unfold SearchMixin_print_menu, paints_only. rewrite !Forall_app.
    split; [| split].
    - destruct (options m); [| apply paints_only_Menu_print_menu].
      apply Forall_bind, Forall_forall. intros row _. by repeat constructor.
    - by repeat constructor.
    - destruct (searchMode m); by repeat constructor. }
  destruct cls; [apply paints_only_Menu_print_menu | exact Hsearch..].
Qed.

Lemma cursor_op_shown before after s :
  cursor_shown s = before →
  cursor_shown (run_screen (cursor_op before after) s) = after.
Proof. by destruct before, after. Qed.

Lemma keyboard_loop_cursor cls src m s :
  cursor_shown s = searchMode m →
  cursor_shown (run_screen (output (keyboard_loop cls m src)) s)
  = searchMode (object (keyboard_loop cls m src)).
Proof.
  revert m s. induction src as [| [key | e] src IH]; intros m s Hs; [done | | done].
  rewrite keyboard_loop_key.
  pose proof (follows_search_dispatch_key cls key m) as Hout.
  destruct (_dispatch_key cls key m) as [ret m' out | e m' out]; cbn in Hout.
  - destruct (truthy ret).
    + cbn. rewrite Hout. by apply cursor_op_shown.
    + rewrite output_after, object_after, !run_screen_app.
      apply IH. rewrite paints_only_keeps by apply paints_only_print_menu.
      cbn -[run_screen]. rewrite Hout.
      change (cursor_shown (run_screen (cursor_op (searchMode m) (searchMode m')) s)
              = searchMode m').
      by apply cursor_op_shown.
  - cbn. rewrite Hout. by apply cursor_op_shown.
Qed.

(** X23. The text cursor is visible exactly while a search is in progress:
    when [show] starts on a menu that is not searching, then however the
    keyboard loop is left (a finalizing key, the end of the key stream, an
    exception of the key source or of a handler), the terminal cursor, hidden
    by [show] before the loop, is shown at that point if and only if the
    object is in search mode. *)
Theorem text_cursor_follows_search cls m src scr :
  searchMode m = false →
  cursor_shown
    (run_screen (show_prologue cls m ++ output (keyboard_loop cls m src)) scr)
  = searchMode (object (keyboard_loop cls m src)).
Proof.
  intros Hmode. rewrite run_screen_app. apply keyboard_loop_cursor.
  unfold show_prologue. rewrite !run_screen_app. by rewrite Hmode.
Qed.

Lemma text_cursor_follows_search_witness :
  searchMode fruit = false ∧
  cursor_shown
    (run_screen (show_prologue SearchMenu fruit
                 ++ output (keyboard_loop SearchMenu fruit [Key "z"; Key "down"]))
       (mkScreen 0 0 ∅ true))
  = true.
Proof.
  split; [reflexivity |].
  rewrite (text_cursor_follows_search SearchMenu fruit [Key "z"; Key "down"]
             (mkScreen 0 0 ∅ true)); reflexivity.
Defined.

(** * The one-line menu of [src/termenu/termenu.py] *)

(** ** [_paginate] *)

Lemma chain_le a l b : chain a l b → a ≤ b.
Proof.
  revert a. induction l as [| [s e] l IH]; intros a; cbn; [lia |].
  intros (Hsa & Hse & Hl). apply IH in Hl. lia.
Qed.

Lemma chain_snoc a l s e : chain a l s → s ≤ e → chain a (l ++ [(s, e)]) e.
Proof.
  revert a. induction l as [| [s' e'] l IH]; intros a; cbn.
  - intros -> Hse. done.
  - intros (Hsa & Hse' & Hl) Hse. auto.
Qed.

Lemma chain_filter a l b sel :
  chain a l b →
  (a ≤ sel < b → ∃ s e, filter (λ se, se.1 ≤ sel < se.2) l = [(s, e)] ∧ s ≤ sel < e) ∧
  (¬ (a ≤ sel < b) → filter (λ se : Z * Z, se.1 ≤ sel < se.2) l = []).
Proof.
  revert a. induction l as [| [s e] l IH]; intros a; cbn [chain].
  - intros ->. split; [lia | done].
  - intros (Hsa & Hse & Hl). subst a. pose proof (chain_le _ _ _ Hl) as Heb.
    destruct (IH e Hl) as (IHin & IHout). split.
    + intros Hsel. destruct (decide (sel < e)) as [Hlt | Hge].
      * exists s, e. rewrite filter_cons_True by (cbn; lia).
        rewrite IHout by lia. split; [done | lia].
      * rewrite filter_cons_False by (cbn; lia). apply IHin. lia.
    + intros Hsel. rewrite filter_cons_False by (cbn; lia). apply IHout. lia.
Qed.

Lemma py_slice_drop_take {A} (l : list A) s e :
  0 ≤ s ≤ e → e ≤ len l →
  py_slice l s e = drop (Z.to_nat s) (take (Z.to_nat e) l).
Proof.
  intros Hse He. unfold py_slice, py_clip.
  destruct (Z.ltb_spec s 0); [lia |]. destruct (Z.ltb_spec e 0); [lia |].
  rewrite !Z.min_l by lia. rewrite take_drop_commute. do 2 f_equal. lia.
Qed.

Lemma paginate_loop m w opts k :
  (k ≤ length opts)%nat →
  ∃ slices start contents,
    foldl (Line._paginate_step m w) ([], 0, [])
      (imap (λ i o, (Z.of_nat i, o)) (take k opts)) = (slices, start, contents) ∧
    0 ≤ start ≤ Z.of_nat k ∧ (0 < Z.of_nat k → start < Z.of_nat k) ∧
    contents = drop (Z.to_nat start) (take k opts) ∧
    chain 0 slices start ∧
    (2 ≤ len contents → fits m w contents) ∧
    Forall (λ se, 0 ≤ se.1 ≤ se.2 ∧ se.2 < len opts ∧
                  (2 ≤ se.2 - se.1 → fits m w (py_slice opts se.1 se.2)) ∧
                  ¬ fits m w (py_slice opts se.1 (se.2 + 1))) slices.
Proof.
  induction k as [| k IH]; intros Hk.
  - exists [], 0, []. rewrite take_0. cbn. unfold len. cbn.
    repeat split; try lia; try done.
  - destruct IH as (slices & start & contents & Hfold & Hstart & Hpos & Hcont
                    & Hchain & Hfit & Hall); [lia |].
    destruct (lookup_lt_is_Some_2 opts k) as (o & Ho); [lia |].
    rewrite (take_S_r _ _ _ Ho), imap_app, foldl_app, Hfold.
    rewrite length_take, Nat.min_l by lia. cbn [imap foldl Line._paginate_step].
    rewrite Nat.add_0_r.
    assert (contents ++ [o] = drop (Z.to_nat start) (take k opts ++ [o])) as Hcont'.
    { rewrite drop_app_le by (rewrite length_take; lia). by rewrite Hcont. }
    assert (len contents = Z.of_nat k - start) as Hlen.
    { rewrite Hcont. unfold len. rewrite length_drop, length_take. lia. }
    destruct (Z.gtb_spec
      (slen (Line.title m) + slen (str_join (Line.separator m) (contents ++ [o]))
       + Line.MARGIN) w) as [Hover | Hok].
    + exists (slices ++ [(start, Z.of_nat k)]), (Z.of_nat k), [o].
      split; [done |]. split; [lia |]. split; [lia |]. split.
      { rewrite Nat2Z.id, drop_app_length'; [done | rewrite length_take; lia]. }
      split; [apply chain_snoc; [done | lia] |].
      split; [unfold len; cbn; lia |].
      apply Forall_app. split; [done |]. apply Forall_singleton. cbn [fst snd].
      split; [lia |]. split; [unfold len; lia |]. split.
      * intros Htwo. rewrite py_slice_drop_take by (unfold len; lia).
        rewrite Nat2Z.id, <- Hcont. apply Hfit. lia.
      * rewrite py_slice_drop_take by (unfold len; lia).
        replace (Z.to_nat (Z.of_nat k + 1)) with (S k) by lia.
        rewrite (take_S_r _ _ _ Ho), <- Hcont'. unfold fits. lia.
    + exists slices, start, (contents ++ [o]).
      split; [done |]. split; [lia |]. split; [lia |]. split; [done |].
      split; [done |]. split; [intros _; unfold fits; lia | done].
Qed.

Lemma paginate_spec m w opts :
  ∃ slices start,
    Line._paginate m opts w = slices ++ [(start, len opts)] ∧
    0 ≤ start ≤ len opts ∧
    chain 0 slices start ∧
    (2 ≤ len opts - start → fits m w (py_slice opts start (len opts))) ∧
    Forall (λ se, 0 ≤ se.1 ≤ se.2 ∧ se.2 < len opts ∧
                  (2 ≤ se.2 - se.1 → fits m w (py_slice opts se.1 se.2)) ∧
                  ¬ fits m w (py_slice opts se.1 (se.2 + 1))) slices.
Proof.
  destruct (paginate_loop m w opts (length opts)) as
    (slices & start & contents & Hfold & Hstart & _ & Hcont & Hchain & Hfit & Hall);
    [lia |].
  rewrite firstn_all in Hfold, Hcont.
  exists slices, start. unfold Line._paginate. rewrite Hfold.
  split; [done |]. split; [done |]. split; [done |]. split; [| done].
  intros Htwo. rewrite py_slice_drop_take by (unfold len in *; lia).
  unfold len. rewrite Nat2Z.id, firstn_all, <- Hcont. apply Hfit.
  rewrite Hcont. unfold len in *. rewrite length_drop. lia.
Qed.

(** X24. [_paginate] cuts the option list greedily into consecutive
    slices: the slices lead from index 0 to the length of the list, each
    starting where the one before it ends, so that every index of the list
    lies in exactly one of them (the unpacking of the single slice in
    [_print_menu] succeeds); a slice of two options or more fits the width
    of the terminal after the title and the margin; and no slice but the
    last could take the option that follows it. *)
Theorem paginate_is_greedy m opts maxWidth :
  chain 0 (Line._paginate m opts maxWidth) (len opts) ∧
  (∀ sel, 0 ≤ sel < len opts →
     ∃ s e, filter (λ se, se.1 ≤ sel < se.2) (Line._paginate m opts maxWidth)
            = [(s, e)] ∧ 0 ≤ s ≤ sel ∧ sel < e ≤ len opts) ∧
  (∀ s e, (s, e) ∈ Line._paginate m opts maxWidth →
     0 ≤ s ≤ e ∧ e ≤ len opts ∧
     (2 ≤ e - s → fits m maxWidth (py_slice opts s e)) ∧
     (e < len opts → ¬ fits m maxWidth (py_slice opts s (e + 1)))).
Proof.
  destruct (paginate_spec m maxWidth opts) as
    (slices & start & -> & Hstart & Hchain & Hfit & Hall).
  assert (chain 0 (slices ++ [(start, len opts)]) (len opts)) as Hwhole
    by (apply chain_snoc; [done | lia]).
  assert (∀ s e, (s, e) ∈ slices ++ [(start, len opts)] →
     0 ≤ s ≤ e ∧ e ≤ len opts ∧
     (2 ≤ e - s → fits m maxWidth (py_slice opts s e)) ∧
     (e < len opts → ¬ fits m maxWidth (py_slice opts s (e + 1)))) as Heach.
  { intros s e [Hin | Hlast%list_elem_of_singleton]%elem_of_app.
    - rewrite Forall_forall in Hall. destruct (Hall _ Hin) as (? & ? & ? & ?).
      cbn in *. repeat split; auto; lia.
    - injection Hlast as -> ->. repeat split; auto; lia. }
  split; [done |]. split; [| done].
  intros sel Hsel.
  destruct (proj1 (chain_filter 0 _ (len opts) sel Hwhole) Hsel) as (s & e & Hf & Hse).
  exists s, e. split; [done |].
  assert ((s, e) ∈ slices ++ [(start, len opts)]) as Hin.
  { apply (list_elem_of_filter (λ se : Z * Z, se.1 ≤ sel < se.2) _ (s, e)).
    rewrite Hf. apply list_elem_of_here. }
  destruct (Heach _ _ Hin) as (? & ? & _). lia.
Qed.

(** ** The loop of the one-line menu *)

Lemma paginate_chain m opts w : chain 0 (Line._paginate m opts w) (len opts).
Proof.
  destruct (paginate_spec m w opts) as (slices & start & -> & Hstart & Hchain & _).
  apply chain_snoc; [done | lia].
Qed.

Lemma py_setitem_total {A} (l : list A) i v :
  0 ≤ i < len l → py_setitem l i v = inr (<[Z.to_nat i := v]> l).
Proof.
  intros Hi. unfold py_setitem.
  destruct (Z.ltb_spec i 0); [lia |].
  destruct (Z.leb_spec 0 i); [| lia]. destruct (Z.ltb_spec i (len l)); [| lia].
  done.
Qed.

Lemma line_print_menu_total w m :
  0 ≤ Line.selected m < len (Line.options m) →
  ∃ out, Line._print_menu w m = inr out.
Proof.
  intros Hsel. unfold Line._print_menu, Line.slices.
  destruct (proj1 (chain_filter 0 _ _ (Line.selected m)
                     (paginate_chain m (Line.options m) w)) Hsel)
    as (s & e & -> & _).
  destruct (py_index_total (Line.options m) (Line.selected m) Hsel) as (o & -> & _).
  rewrite py_setitem_total by (unfold len in *; rewrite length_fmap; lia).
  eauto.
Qed.

Lemma line_keyboard_loop tty n m src :
  0 ≤ Line.selected m < len (Line.options m) →
  match ran_value (Line.keyboard_loop tty n m src) with
  | inr r => r = PyNone ∨ ∃ s, r = PyStr s ∧ s ∈ Line.options m
  | inl e => SourceFails e ∈ src
  end.
Proof.
  revert n m. induction src as [| [key | e] src IH]; intros n m Hsel.
  - cbn. auto.
  - assert (∀ m', 0 ≤ Line.selected m' < len (Line.options m') →
                  Line.options m' = Line.options m →
       match ran_value
               match Line._print_menu (tty n) m' with
               | inl e => Raised e m' []
               | inr out => ran_after out (Line.keyboard_loop tty (S n) m' src)
               end with
       | inr r => r = PyNone ∨ ∃ s, r = PyStr s ∧ s ∈ Line.options m
       | inl e => SourceFails e ∈ Key key :: src
       end) as Hredraw.
    { intros m' Hsel' Hopts.
      destruct (line_print_menu_total (tty n) m' Hsel') as (out & ->).
      specialize (IH (S n) m' Hsel'). rewrite Hopts in IH.
      destruct (Line.keyboard_loop tty (S n) m' src); cbn in *;
        [done | by apply list_elem_of_further]. }
    cbn [Line.keyboard_loop].
    destruct (String.eqb key "right").
    { apply Hredraw; [| by destruct (_ <? _)].
      destruct (Z.ltb_spec (Line.selected m) (len (Line.options m) - 1)); cbn; lia. }
    destruct (String.eqb key "left").
    { apply Hredraw; [| by destruct (_ >? _)].
      destruct (Z.gtb_spec (Line.selected m) 0); cbn; lia. }
    destruct (String.eqb key "enter").
    { destruct (py_index_total (Line.options m) (Line.selected m) Hsel)
        as (o & Ho & Hlook).
      rewrite Ho. cbn. right. exists o. split; [done |].
      by eapply list_elem_of_lookup_2. }
    destruct (String.eqb key "esc"); [cbn; auto |].
    by apply Hredraw.
  - cbn. apply list_elem_of_here.
Qed.

Lemma line_init title opts default c sep :
  match Line.Menu_init title opts default c sep with
  | inl e => e = ZeroDivisionError ∧ opts = []
  | inr m =>
    opts ≠ [] ∧ Line.options m = opts ∧
    Line.selected m = default_index opts default mod len opts ∧
    0 ≤ Line.selected m < len opts
  end.
Proof.
  unfold Line.Menu_init, py_mod.
  destruct (Z.eqb_spec (len opts) 0) as [Hzero | Hpos].
  - split; [done |]. destruct opts; [done | unfold len in Hzero; cbn in Hzero; lia].
  - assert (0 < len opts) as Hlen by (unfold len in *; lia).
    pose proof (Z.mod_pos_bound (default_index opts default) (len opts) Hlen).
    cbn. split; [by intros -> |]. split; [done |]. lia.
Qed.

(** X25. The one-line [show_menu] fails only on an empty option list, with
    the [ZeroDivisionError] of the constructor.  On any other list, whatever
    the width the terminal reports at each drawing and whatever the keys,
    it raises nothing of its own (only what the key source raises) and
    returns [None] or one of the options it was given. *)
Theorem line_show_menu_returns_an_option tty title opts default clearOnExit src :
  match Line.show_menu tty title opts default clearOnExit src with
  | inl e => e = ZeroDivisionError ∧ opts = []
  | inr o =>
    opts ≠ [] ∧
    match ran_value o with
    | inr r => r = PyNone ∨ ∃ s, r = PyStr s ∧ s ∈ opts
    | inl e => SourceFails e ∈ src
    end
  end.
Proof.
  unfold Line.show_menu.
  pose proof (line_init title opts default clearOnExit "  ") as Hinit.
  destruct (Line.Menu_init title opts default clearOnExit "  ") as [e | m]; [done |].
  destruct Hinit as (Hne & Hopts & _ & Hsel). split; [done |].
  rewrite <- Hopts in Hsel |- *.
  unfold Line.show.
  destruct (line_print_menu_total (tty 0%nat) m Hsel) as (out & ->).
  pose proof (line_keyboard_loop tty 1 m src Hsel) as Hloop.
  by destruct (Line.keyboard_loop tty 1 m src).
Qed.

(** * The vertical menu of [src/termenu/termenu.py] *)

(** ** The constructor *)

(** X26. [VerticalMenu.__init__] on an empty option list raises
    [ZeroDivisionError] (the [%] of the default, before the [max] of no
    label widths is reached).  On a non-empty list, a terminal of three rows
    or more and a height that is not negative, it builds a menu over the
    options as given, wide enough for every label, with the cursor at the
    default index modulo the length of the list, no option chosen, and a
    height of at least 1 that is the largest one allowed by the length of
    the list, the terminal rows less two and the height asked for (0 asks
    for nothing); the window starts at the multiple of the height that is
    the page of the cursor. *)
Theorem vertical_constructor ts title opts default c h multi :
  (opts = [] →
   Vertical.VerticalMenu_init ts title opts default c h multi
   = inl ZeroDivisionError) ∧
  (opts ≠ [] → 3 ≤ ts.2 → (∀ x, h = Some x → 0 ≤ x) →
   ∃ m, Vertical.VerticalMenu_init ts title opts default c h multi = inr m ∧
        Vertical.options m = opts ∧
        (∀ o, o ∈ opts → slen o ≤ Vertical.width m) ∧
        Vertical.selected m = default_index opts default mod len opts ∧
        Vertical.selectedItems m = ∅ ∧
        1 ≤ Vertical.height m ∧
        Vertical.height m ≤ len opts ∧ Vertical.height m ≤ ts.2 - 2 ∧
        (∀ x, h = Some x → 1 ≤ x → Vertical.height m ≤ x) ∧
        (Vertical.height m = len opts ∨ Vertical.height m = ts.2 - 2
         ∨ h = Some (Vertical.height m)) ∧
        Vertical.aligned m ∧
        Vertical.first m ≤ Vertical.selected m
          < Vertical.first m + Vertical.height m).
Proof.
  split; [by intros -> |].
  intros Hne Hrows Hh. unfold Vertical.VerticalMenu_init.
  assert (0 < len opts) as Hlen by (destruct opts; [done | unfold len; cbn; lia]).
  unfold py_mod at 1. destruct (Z.eqb_spec (len opts) 0); [lia |].
  pose proof (Z.mod_pos_bound (default_index opts default) (len opts) Hlen) as Hsel.
  rewrite Z.max_r by lia.
  pose proof (py_max_spec (slen <$> opts)) as Hmax.
  destruct (py_max (slen <$> opts)) as [e | w]; [by destruct Hmax as (?%fmap_nil_inv & _) |].
  destruct Hmax as (_ & _ & Hle). cbn zeta.
  set (sel := default_index opts default mod len opts) in *.
  set (wanted := match h with
                 | Some x => if (x =? 0) || (x >? ts.2 - 2) then ts.2 - 2 else x
                 | None => ts.2 - 2
                 end).
  assert (1 ≤ wanted ∧ wanted ≤ ts.2 - 2 ∧ (∀ x, h = Some x → 1 ≤ x → wanted ≤ x) ∧
          (wanted = ts.2 - 2 ∨ h = Some wanted)) as (Hw1 & Hw2 & Hw3 & Hw4).
  { subst wanted. destruct h as [x |]; [| repeat split; (lia || auto || done)].
    specialize (Hh x eq_refl).
    destruct (Z.eqb_spec x 0), (Z.gtb_spec x (ts.2 - 2)); cbn;
      repeat split; try lia; auto; intros ? [= <-]; lia. }
  clearbody wanted. unfold py_mod. destruct (Z.eqb_spec (Z.min (len opts) wanted) 0); [lia |].
  eexists. split; [reflexivity |]. cbn.
  assert (0 < Z.min (len opts) wanted) as Hpos by lia.
  pose proof (Z.mod_pos_bound sel _ Hpos) as Hr.
  assert (Z.min (len opts) wanted ≠ 0) as Hnz by lia.
  pose proof (Z.div_mod sel _ Hnz) as Hdiv.
  split; [done |]. split.
  { intros o Ho. apply Hle, list_elem_of_fmap. eauto. }
  split; [done |]. split; [done |]. split; [lia |]. split; [lia |]. split; [lia |].
  split; [intros x Hx Hx1; specialize (Hw3 x Hx Hx1); lia |].
  split.
  { destruct (Z.min_spec (len opts) wanted) as [(_ & Hmin) | (_ & Hmin)];
      rewrite Hmin; [by left |].
    destruct Hw4 as [Hw4 | Hw4]; [right; left; exact Hw4 | right; right; exact Hw4]. }
  split; [split; cbn; lia | lia].
Qed.

Lemma vertical_constructor_witness :
  ∃ m, Vertical.VerticalMenu_init (80, 24) "Fruit" ["apple"; "buzz"; "fizz"; "grape"]
         (Some (DefaultIndex 6)) true (Some 3) false = inr m ∧
       Vertical.selected m = 2 ∧ Vertical.height m ≤ 3.
Proof.
  destruct (proj2 (vertical_constructor (80, 24) "Fruit"
                     ["apple"; "buzz"; "fizz"; "grape"]
                     (Some (DefaultIndex 6)) true (Some 3) false))
    as (m & Hm & _ & _ & Hsel & _ & _ & _ & _ & Hh & _);
    [done | cbn; lia | intros x [= <-]; lia |].
  exists m. split; [exact Hm |]. split; [exact Hsel |]. apply (Hh 3); [done | lia].
Defined.

(** ** The loop of the vertical menu *)

Lemma page_of x h q : 0 < h → h * q ≤ x < h * q + h → h * (x / h) = h * q.
Proof.
  intros Hh Hx. f_equal. symmetry. apply (Z.div_unique x h q (x - h * q)); lia.
Qed.

Lemma vertical_clamp m :
  Vertical.options m ≠ [] →
  Vertical.clamp m
  = Vertical.set_selected
      (Z.max 0 (Z.min (Vertical.selected m) (len (Vertical.options m) - 1))) m.
Proof.
  intros Hne.
  assert (0 < len (Vertical.options m)) as Hlen
    by (destruct (Vertical.options m); [done | unfold len; cbn; lia]).
  unfold Vertical.clamp. destruct m as [t o s w c h f ms si]. cbn in *.
  destruct (Z.ltb_spec s 0); cbn;
    match goal with |- context [?a >? ?b] => destruct (Z.gtb_spec a b) end;
    cbn; unfold Vertical.set_selected; cbn; f_equal; lia.
Qed.

Lemma vertical_settle m :
  Vertical.height m ≠ 0 → Vertical.options m ≠ [] →
  let sel := Z.max 0 (Z.min (Vertical.selected m) (len (Vertical.options m) - 1)) in
  Vertical.settle m
  = inr (Vertical.set_first (Vertical.height m * (sel / Vertical.height m))
           (Vertical.set_selected sel m)).
Proof.
  intros Hh Hne sel. unfold Vertical.settle. cbn zeta.
  rewrite vertical_clamp by done. fold sel. cbn. unfold py_mod.
  destruct (Z.eqb_spec (Vertical.height m) 0); [done |].
  do 2 f_equal. pose proof (Z.div_mod sel (Vertical.height m) Hh). lia.
Qed.

Lemma vertical_settle_aligned m :
  Vertical.height m ≠ 0 → Vertical.options m ≠ [] →
  ∃ m', Vertical.settle m = inr m' ∧ Vertical.aligned m' ∧
        Vertical.options m' = Vertical.options m ∧
        Vertical.height m' = Vertical.height m ∧
        Vertical.multiSelect m' = Vertical.multiSelect m ∧
        Vertical.selectedItems m' = Vertical.selectedItems m ∧
        Vertical.selected m'
        = Z.max 0 (Z.min (Vertical.selected m) (len (Vertical.options m) - 1)).
Proof.
  intros Hh Hne. eexists. split; [by apply vertical_settle |].
  assert (0 < len (Vertical.options m)) as Hlen
    by (destruct (Vertical.options m); [done | unfold len; cbn; lia]).
  split; [split; cbn; [lia | done] | done].
Qed.

Lemma aligned_on_page m :
  1 ≤ Vertical.height m → Vertical.aligned m →
  Vertical.first m ≤ Vertical.selected m < Vertical.first m + Vertical.height m ∧
  Vertical.selected m mod Vertical.height m = Vertical.selected m - Vertical.first m.
Proof.
  intros Hh (Hsel & Hfirst).
  pose proof (Z.div_mod (Vertical.selected m) (Vertical.height m) ltac:(lia)).
  pose proof (Z.mod_pos_bound (Vertical.selected m) (Vertical.height m) ltac:(lia)).
  lia.
Qed.

Lemma on_key_continues key m :
  key ≠ "enter" → key ≠ "esc" → Vertical.height m ≠ 0 →
  ∃ m1, Vertical.on_key key m = Vertical.Continue m1 ∧
        Vertical.options m1 = Vertical.options m ∧
        Vertical.height m1 = Vertical.height m ∧
        Vertical.multiSelect m1 = Vertical.multiSelect m ∧
        ∀ i, i ∈ Vertical.selectedItems m1 →
             i ∈ Vertical.selectedItems m ∨ i = Vertical.selected m.
Proof.
  intros Henter Hesc Hh. unfold Vertical.on_key, py_mod.
  destruct (Z.eqb_spec (Vertical.height m) 0); [done |].
  repeat match goal with
         | |- context [String.eqb key ?n] =>
           destruct (String.eqb_spec key n); [try done |]
         end;
    repeat case_match; eexists; (split; [reflexivity |]); cbn; repeat split; auto;
    intros i; rewrite ?elem_of_difference, ?elem_of_union, ?elem_of_singleton; tauto.
Qed.

Lemma vertical_press_aligned keys m :
  1 ≤ Vertical.height m → Vertical.options m ≠ [] →
  Forall (λ key, key ≠ "enter" ∧ key ≠ "esc") keys →
  ∃ m', Vertical.press keys m = Some m' ∧
        Vertical.options m' = Vertical.options m ∧
        Vertical.height m' = Vertical.height m ∧
        (keys ≠ [] ∨ Vertical.aligned m → Vertical.aligned m').
Proof.
  intros Hh Hne Hkeys. revert m Hh Hne.
  induction Hkeys as [| key keys Hkey _ IH]; intros m Hh Hne.
  - exists m. cbn. split; [done |]. split; [done |]. split; [done |].
    by intros [? | ?].
  - cbn beta in Hkey. destruct Hkey as (Henter & Hesc).
    destruct (on_key_continues key m Henter Hesc ltac:(lia))
      as (m1 & Hkey & Ho1 & Hh1 & _).
    destruct (vertical_settle_aligned m1) as (m2 & Hsettle & Hal & Ho2 & Hh2 & _);
      [lia | congruence |].
    destruct (IH m2) as (m' & Hpress & Ho' & Hh' & Hal'); [lia | congruence |].
    exists m'. cbn. rewrite Hkey, Hsettle.
    split; [done |]. split; [congruence |]. split; [congruence | auto].
Qed.

(** X27. The window of the vertical menu is the page of the cursor.  On a
    non-empty list and a height of at least 1, no key but enter and esc ends
    the loop or raises, the list and the height stay as they are, and after
    every key the cursor is inside the list and the window starts at the
    multiple of the height just below or at the cursor, so that the
    highlighted option is on the page drawn. *)
Theorem vertical_window_is_page_of_cursor key keys m :
  1 ≤ Vertical.height m → Vertical.options m ≠ [] →
  Forall (λ key, key ≠ "enter" ∧ key ≠ "esc") (key :: keys) →
  ∃ m', Vertical.press (key :: keys) m = Some m' ∧
        Vertical.options m' = Vertical.options m ∧
        Vertical.height m' = Vertical.height m ∧
        0 ≤ Vertical.selected m' < len (Vertical.options m') ∧
        Vertical.first m' mod Vertical.height m' = 0 ∧
        Vertical.first m' ≤ Vertical.selected m'
          < Vertical.first m' + Vertical.height m'.
Proof.
  intros Hh Hne Hkeys.
  destruct (vertical_press_aligned (key :: keys) m Hh Hne Hkeys)
    as (m' & Hpress & Ho & Hh' & Hal).
  exists m'. split; [done |]. split; [done |]. split; [done |].
  assert (Vertical.aligned m') as Hal' by (apply Hal; by left).
  clear Hal. rename Hal' into Hal.
  destruct (aligned_on_page m' ltac:(lia) Hal) as (Hpage & _).
  destruct Hal as (Hsel & Hfirst).
  split; [done |]. split; [| done].
  rewrite Hfirst, Z.mul_comm. apply Z.mod_mul. lia.
Qed.

Lemma vertical_window_is_page_of_cursor_witness :
  ∃ m', Vertical.press ["down"; "pageDown"; " "; "down"]
          (Vertical.mkVerticalMenu "Fruit" ["apple"; "buzz"; "fizz"; "grape"; "kiwi"]
             0 5 true 2 0 true ∅) = Some m' ∧
        Vertical.first m' mod Vertical.height m' = 0.
Proof.
  destruct (vertical_window_is_page_of_cursor "down" ["pageDown"; " "; "down"]
              (Vertical.mkVerticalMenu "Fruit" ["apple"; "buzz"; "fizz"; "grape"; "kiwi"]
                 0 5 true 2 0 true ∅))
    as (m' & Hpress & _ & _ & _ & Hfirst & _);
    [cbn; lia | done | repeat constructor; done |].
  exists m'. split; [exact Hpress | exact Hfirst].
Defined.

(** ** What the vertical menu returns *)

Lemma sorted_without_repeats l :
  StronglySorted Z.le l → NoDup l → StronglySorted Z.lt l.
Proof.
  induction 1 as [| x l Hl IH Hx]; intros Hnodup; [constructor |].
  apply NoDup_cons in Hnodup as (Hnotin & Hnodup).
  constructor; [by apply IH |].
  rewrite Forall_forall in Hx |- *. intros y Hy.
  assert (x ≠ y) by (by intros ->). specialize (Hx y Hy). lia.
Qed.

Lemma sorted_ints_spec (S : gset Z) :
  StronglySorted Z.lt (sorted_ints S) ∧ ∀ x, x ∈ sorted_ints S ↔ x ∈ S.
Proof.
  unfold sorted_ints.
  pose proof (merge_sort_Permutation Z.le (elements S)) as Hperm.
  assert (NoDup (merge_sort Z.le (elements S))) as Hnodup
    by (rewrite Hperm; apply NoDup_elements).
  assert (StronglySorted Z.le (merge_sort Z.le (elements S))) as Hsorted
    by (apply StronglySorted_merge_sort; apply _).
  split; [by apply sorted_without_repeats |].
  intros x. by rewrite Hperm, elem_of_elements.
Qed.

Lemma py_indexes_sublist {A} (l : list A) indexes k :
  0 ≤ k → StronglySorted Z.lt indexes →
  (∀ i, i ∈ indexes → k ≤ i < len l) →
  ∃ xs, py_indexes l indexes = inr xs ∧ length xs = length indexes ∧
        xs `sublist_of` drop (Z.to_nat k) l.
Proof.
  intros Hk Hsorted. revert k Hk.
  induction Hsorted as [| i indexes _ IH Hi]; intros k Hk Hrange.
  - exists []. split; [done |]. split; [done | apply sublist_nil_l].
  - assert (k ≤ i < len l) as Hik by (apply Hrange, list_elem_of_here).
    destruct (py_index_total l i ltac:(lia)) as (x & Hx & Hlook).
    destruct (IH (i + 1) ltac:(lia)) as (xs & Hxs & Hlen & Hsub).
    { intros j Hj. rewrite Forall_forall in Hi. specialize (Hi j Hj).
      specialize (Hrange j (list_elem_of_further _ _ _ Hj)). lia. }
    exists (x :: xs). cbn. rewrite Hx, Hxs. split; [done |]. split; [cbn; lia |].
    replace (Z.to_nat k) with (Z.to_nat k + 0)%nat by lia.
    rewrite <- (take_drop (Z.to_nat (i - k)) (drop (Z.to_nat k + 0) l)).
    apply sublist_inserts_l. rewrite drop_drop.
    replace (Z.to_nat k + 0 + Z.to_nat (i - k))%nat with (Z.to_nat i) by lia.
    rewrite (drop_S _ _ _ Hlook). apply sublist_skip.
    by replace (S (Z.to_nat i)) with (Z.to_nat (i + 1)) by lia.
Qed.

(** What a finished [show] of the vertical menu may hand back. *)
Lemma vertical_on_key_enter m :
  Vertical.options m ≠ [] →
  0 ≤ Vertical.selected m < len (Vertical.options m) →
  Vertical.chosen_in_range m →
  ∃ r m', Vertical.on_key "enter" m = Vertical.Return r m' ∧
    if Vertical.multiSelect m
    then ∃ l, r = PyList l ∧ l ≠ [] ∧ l `sublist_of` Vertical.options m
    else ∃ s, r = PyStr s ∧ s ∈ Vertical.options m.
Proof.
  intros Hne Hsel Hrange.
  change (Vertical.on_key "enter" m) with
    (if Vertical.multiSelect m then
       let m :=
         if decide (Vertical.selectedItems m = ∅)
         then Vertical.set_selectedItems
                ({[Vertical.selected m]} ∪ Vertical.selectedItems m) m
         else m in
       match py_indexes (Vertical.options m)
               (sorted_ints (Vertical.selectedItems m)) with
       | inl e => Vertical.Throw e m
       | inr chosen => Vertical.Return (PyList chosen) m
       end
     else
       match py_index (Vertical.options m) (Vertical.selected m) with
       | inl e => Vertical.Throw e m
       | inr o => Vertical.Return (PyStr o) m
       end).
  destruct (Vertical.multiSelect m).
  - cbn zeta.
    set (m1 := if decide (Vertical.selectedItems m = ∅)
               then Vertical.set_selectedItems
                      ({[Vertical.selected m]} ∪ Vertical.selectedItems m) m
               else m).
    assert (Vertical.options m1 = Vertical.options m ∧
            Vertical.selectedItems m1 ≠ ∅ ∧
            ∀ i, i ∈ Vertical.selectedItems m1 → 0 ≤ i < len (Vertical.options m))
      as (Ho & Hchosen & Hin).
    { subst m1. destruct (decide (Vertical.selectedItems m = ∅)) as [Hempty | Hsome].
      - cbn. split; [done |]. split.
        { intros Hnone. apply (not_elem_of_empty (C := gset Z) (Vertical.selected m)).
          rewrite <- Hnone. apply elem_of_union_l, elem_of_singleton. done. }
        intros i. rewrite Hempty, elem_of_union, elem_of_singleton.
        intros [-> | []%not_elem_of_empty]. done.
      - split; [done |]. split; [done | exact Hrange]. }
    clearbody m1. rewrite Ho.
    destruct (sorted_ints_spec (Vertical.selectedItems m1)) as (Hsorted & Hmem).
    destruct (py_indexes_sublist (Vertical.options m)
                (sorted_ints (Vertical.selectedItems m1)) 0 ltac:(lia) Hsorted)
      as (xs & -> & Hlen & Hsub).
    { intros i Hi. apply Hin, Hmem, Hi. }
    eexists _, _. split; [reflexivity |]. exists xs. split; [done |].
    split; [| exact Hsub].
    intros ->. cbn in Hlen.
    destruct (sorted_ints (Vertical.selectedItems m1)) as [| i rest'] eqn:Hs; [| done].
    apply Hchosen, set_eq. intros i. rewrite <- Hmem.
    split; [intros []%elem_of_nil | intros []%not_elem_of_empty].
  - destruct (py_index_total _ _ Hsel) as (o & -> & Hlook).
    eexists _, _. split; [reflexivity |]. exists o. split; [done |].
    by eapply list_elem_of_lookup_2.
Qed.

Lemma vertical_keyboard_loop src m :
  Vertical.height m ≠ 0 → Vertical.options m ≠ [] →
  0 ≤ Vertical.selected m < len (Vertical.options m) →
  Vertical.chosen_in_range m →
  match ran_value (Vertical.keyboard_loop m src) with
  | inr r =>
    r = PyNone ∨
    if Vertical.multiSelect m
    then ∃ l, r = PyList l ∧ l ≠ [] ∧ l `sublist_of` Vertical.options m
    else ∃ s, r = PyStr s ∧ s ∈ Vertical.options m
  | inl e => SourceFails e ∈ src
  end.
Proof.
  revert m. induction src as [| [key | e] src IH]; intros m Hh Hne Hsel Hrange.
  - cbn. auto.
  - cbn [Vertical.keyboard_loop].
    destruct (decide (key = "enter")) as [-> | Henter].
    { destruct (vertical_on_key_enter m Hne Hsel Hrange) as (r & m' & -> & Hr).
      cbn. auto. }
    destruct (decide (key = "esc")) as [-> | Hesc]; [cbn; auto |].
    destruct (on_key_continues key m Henter Hesc Hh)
      as (m1 & -> & Ho1 & Hh1 & Hm1 & Hi1).
    destruct (vertical_settle_aligned m1)
      as (m2 & -> & (Hsel2 & _) & Ho2 & Hh2 & Hm2 & Hi2 & _); [congruence.. |].
    specialize (IH m2). rewrite Hm2, Hm1, Ho2, Ho1 in IH.
    destruct (Vertical.keyboard_loop m2 src); cbn in *.
    + apply IH; [congruence | congruence | by rewrite Ho2, Ho1 in Hsel2 |].
      intros i Hi. rewrite Ho2, Ho1. rewrite Hi2 in Hi.
      destruct (Hi1 i Hi) as [Hold | ->]; [by apply Hrange | done].
    + apply list_elem_of_further, IH;
        [congruence | congruence | by rewrite Ho2, Ho1 in Hsel2 |].
      intros i Hi. rewrite Ho2, Ho1. rewrite Hi2 in Hi.
      destruct (Hi1 i Hi) as [Hold | ->]; [by apply Hrange | done].
  - cbn. apply list_elem_of_here.
Qed.

(** X28. What [show_vertical_menu] gives, whatever the terminal, the
    arguments and the keys.  The constructor raises nothing but
    [ZeroDivisionError].  Once the menu is built, [show] raises only what
    the key source raises, and returns [None], or one of the options
    (single-select), or (multi-select) a non-empty list of options in the
    order of the option list, each position taken at most once: the chosen
    ones are returned in list order, not sorted as strings. *)
Theorem show_vertical_menu_returns_options ts title opts default c h multi src :
  match Vertical.show_vertical_menu ts title opts default c h multi src with
  | inl e => e = ZeroDivisionError
  | inr o =>
    match ran_value o with
    | inr r =>
      r = PyNone ∨
      if multi then ∃ l, r = PyList l ∧ l ≠ [] ∧ l `sublist_of` opts
      else ∃ s, r = PyStr s ∧ s ∈ opts
    | inl e => SourceFails e ∈ src
    end
  end.
Proof.
  unfold Vertical.show_vertical_menu, Vertical.VerticalMenu_init.
  unfold py_mod at 1. destruct (Z.eqb_spec (len opts) 0) as [| Hlen]; [done |].
  assert (0 < len opts) as Hpos by (unfold len in *; lia).
  assert (opts ≠ []) as Hne by (by intros ->).
  pose proof (Z.mod_pos_bound (default_index opts default) (len opts) Hpos) as Hsel.
  pose proof (py_max_spec (slen <$> opts)) as Hmax.
  destruct (py_max (slen <$> opts)) as [e | w];
    [by destruct Hmax as (?%fmap_nil_inv & _) |].
  cbn zeta. unfold py_mod.
  match goal with |- context [?x =? 0] => destruct (Z.eqb_spec x 0) as [| Hh] end;
    [done |].
  unfold Vertical.show.
  match goal with |- context [Vertical.keyboard_loop ?m src] =>
    pose proof (vertical_keyboard_loop src m) as Hloop;
    destruct (Vertical.keyboard_loop m src) as [r m' out | e m' out]
  end; cbn in *; apply Hloop; try done; try lia.
Qed.

(** ** Paging in the vertical menu *)

Lemma vertical_press_move key m target :
  1 ≤ Vertical.height m → Vertical.options m ≠ [] →
  Vertical.on_key key m = Vertical.Continue (Vertical.set_selected target m) →
  let sel := Z.max 0 (Z.min target (len (Vertical.options m) - 1)) in
  Vertical.press [key] m
  = Some (Vertical.set_first (Vertical.height m * (sel / Vertical.height m))
            (Vertical.set_selected sel m)).
Proof.
  intros Hh Hne Hkey sel. cbn [Vertical.press]. rewrite Hkey.
  rewrite vertical_settle by (cbn; (lia || done)). done.
Qed.

Lemma on_key_pageDown m :
  Vertical.on_key "pageDown" m
  = match py_mod (Vertical.selected m) (Vertical.height m) with
    | inl e => Vertical.Throw e m
    | inr r =>
      if r <? Vertical.height m - 1
      then Vertical.Continue
             (Vertical.set_selected (Vertical.selected m - r + Vertical.height m - 1) m)
      else Vertical.Continue
             (Vertical.set_selected (Vertical.selected m + Vertical.height m) m)
    end.
Proof. reflexivity. Qed.

Lemma on_key_pageUp m :
  Vertical.on_key "pageUp" m
  = match py_mod (Vertical.selected m) (Vertical.height m) with
    | inl e => Vertical.Throw e m
    | inr r =>
      if r >? 0
      then Vertical.Continue (Vertical.set_selected (Vertical.selected m - r) m)
      else Vertical.Continue
             (Vertical.set_selected (Vertical.selected m - Vertical.height m) m)
    end.
Proof. reflexivity. Qed.

(** X29. Paging in the vertical menu, with the window on the page of the
    cursor.  PageDown puts the cursor on the bottom row of the page and,
    from the bottom row, one page further down, but never past the last
    option; pageUp puts it on the top row of the page and, from the top row,
    one page further up, but never before the first option.  Either way
    the window stays where it is or moves by exactly one page. *)
Theorem vertical_page_keys m :
  1 ≤ Vertical.height m → Vertical.aligned m →
  (∃ m', Vertical.press ["pageDown"] m = Some m' ∧
     Vertical.selected m'
     = Z.min (len (Vertical.options m) - 1)
         (if Vertical.selected m <? Vertical.first m + Vertical.height m - 1
          then Vertical.first m + Vertical.height m - 1
          else Vertical.selected m + Vertical.height m) ∧
     (Vertical.first m' = Vertical.first m
      ∨ Vertical.first m' = Vertical.first m + Vertical.height m)) ∧
  (∃ m', Vertical.press ["pageUp"] m = Some m' ∧
     Vertical.selected m'
     = Z.max 0 (if Vertical.selected m >? Vertical.first m
                then Vertical.first m
                else Vertical.selected m - Vertical.height m) ∧
     (Vertical.first m' = Vertical.first m
      ∨ Vertical.first m' = Vertical.first m - Vertical.height m)).
Proof.
  intros Hh Hal. destruct (aligned_on_page m Hh Hal) as (Hpage & Hmod).
  destruct Hal as (Hsel & Hfirst).
  assert (Vertical.options m ≠ []) as Hne
    by (intros Hnil; rewrite Hnil in Hsel; unfold len in Hsel; cbn in Hsel; lia).
  set (h := Vertical.height m) in *. set (sel := Vertical.selected m) in *.
  set (N := len (Vertical.options m)) in *.
  set (q := sel / h) in *. set (f := Vertical.first m) in *.
  assert (py_mod sel h = inr (sel - f)) as Hpymod.
  { unfold py_mod. destruct (Z.eqb_spec h 0); [lia | by rewrite Hmod]. }
  split.
  - eexists. split.
    { apply vertical_press_move; [done | done |].
      rewrite on_key_pageDown. fold sel h. rewrite Hpymod.
      instantiate (1 := if sel <? f + h - 1 then f + h - 1 else sel + h).
      destruct (Z.ltb_spec (sel - f) (h - 1)), (Z.ltb_spec sel (f + h - 1));
        try lia; do 2 f_equal; lia. }
    cbn. fold h N.
    destruct (Z.ltb_spec sel (f + h - 1)).
    + split; [lia |]. left. rewrite Hfirst. apply page_of; lia.
    + split; [lia |].
      destruct (decide (N - 1 < f + h)).
      * left. rewrite Hfirst. apply page_of; lia.
      * right. replace (f + h) with (h * (q + 1)) by lia. apply page_of; lia.
  - eexists. split.
    { apply vertical_press_move; [done | done |].
      rewrite on_key_pageUp. fold sel h. rewrite Hpymod.
      instantiate (1 := if sel >? f then f else sel - h).
      destruct (Z.gtb_spec (sel - f) 0), (Z.gtb_spec sel f);
        try lia; do 2 f_equal; lia. }
    cbn. fold h N.
    assert (0 ≤ q) as Hq by (apply Z.div_pos; lia).
    destruct (Z.gtb_spec sel f).
    + split; [lia |]. left. rewrite Hfirst. apply page_of; lia.
    + split; [lia |].
      destruct (decide (q = 0)) as [Hzero | Hpos].
      * left. rewrite Hfirst, Hzero. apply page_of; lia.
      * right. assert (h * 1 ≤ h * q) by (apply Z.mul_le_mono_nonneg_l; lia).
        replace (f - h) with (h * (q - 1)) by lia. apply page_of; lia.
Qed.

Lemma vertical_page_keys_witness :
  ∃ m', Vertical.press ["pageDown"]
          (Vertical.mkVerticalMenu "Fruit" ["apple"; "buzz"; "fizz"; "grape"; "kiwi"]
             1 5 true 2 0 false ∅) = Some m' ∧
        Vertical.selected m' = 3 ∧ Vertical.first m' = 2.
Proof.
  destruct (proj1 (vertical_page_keys
              (Vertical.mkVerticalMenu "Fruit" ["apple"; "buzz"; "fizz"; "grape"; "kiwi"]
                 1 5 true 2 0 false ∅) ltac:(cbn; lia)
              ltac:(split; [unfold len; cbn; lia | reflexivity])))
    as (m' & Hpress & Hsel & Hfirst).
  exists m'. split; [exact Hpress |].
  injection Hpress as <-. split; reflexivity.
Defined.

(** ** The screen of the vertical menu *)

Lemma fills_nil : fills [] 0.
Proof. intros s. cbn. split; [lia | done]. Qed.

Lemma fills_app a b d1 d2 :
  0 ≤ d1 → 0 ≤ d2 → fills a d1 → fills b d2 → fills (a ++ b) (d1 + d2).
Proof.
  intros Hd1 Hd2 Ha Hb s. rewrite run_screen_app.
  destruct (Ha s) as (Hr & Hs & Hc & Hi).
  destruct (Hb (run_screen a s)) as (Hr' & Hs' & Hc' & Hi').
  split; [lia |]. split; [congruence |]. split; [congruence |].
  intros r Hout. rewrite Hi' by lia. apply Hi. lia.
Qed.

Lemma fills_line data :
  Forall (λ sp, sp ≠ Newline) data → fills [ansi.write (data ++ [Newline])] 1.
Proof.
  intros Hdata s. cbn. rewrite foldl_app. cbn.
  destruct (put_text data s Hdata) as (Hr & Hs & Hi).
  rewrite cursor_shown_put.
  split; [lia |]. split; [done |]. split; [done |].
  intros r Hout. apply Hi. lia.
Qed.

Lemma fills_imap {A} (f : nat → A → ansi.op) (l : list A) :
  (∀ i x, fills [f i x] 1) → fills (imap f l) (len l).
Proof.
  revert f. induction l as [| x l IH]; intros f Hf; [apply fills_nil |].
  replace (len (x :: l)) with (1 + len l) by (unfold len; cbn [length]; lia).
  change (imap f (x :: l)) with ([f 0%nat x] ++ imap (f ∘ S) l).
  apply fills_app; [lia | unfold len; lia | apply Hf |].
  apply IH. intros i y. apply Hf.
Qed.

Lemma len_py_slice {A} (l : list A) s e :
  s ≤ e → 0 ≤ len (py_slice l s e) ≤ e - s.
Proof.
  intros Hse. unfold py_slice, py_clip, len.
  rewrite length_take, length_drop.
  destruct (Z.ltb_spec s 0), (Z.ltb_spec e 0); lia.
Qed.

Lemma len_vertical_page m :
  0 ≤ Vertical.height m → len (Vertical.page m) = Vertical.height m.
Proof.
  intros Hh. unfold Vertical.page.
  pose proof (len_py_slice (Vertical.options m) (Vertical.first m)
                (Vertical.first m + Vertical.height m) ltac:(lia)) as Hslice.
  unfold len in *. rewrite length_app, length_replicate. lia.
Qed.

Lemma menu_line_fills m i option :
  fills [ansi.write (Vertical.menu_line m i option)] 1.
Proof.
  unfold Vertical.menu_line. cbn zeta. rewrite app_assoc.
  apply fills_line. rewrite !Forall_app. repeat split;
    repeat case_match; repeat constructor; done.
Qed.

Lemma fills_vertical_page m :
  0 ≤ Vertical.height m →
  fills (imap (λ i option, ansi.write (Vertical.menu_line m (Z.of_nat i) option))
           (Vertical.page m))
        (Vertical.height m).
Proof.
  intros Hh. rewrite <- (len_vertical_page m Hh).
  apply fills_imap. intros i x. apply menu_line_fills.
Qed.

Lemma vertical_prologue_drawn m s :
  0 ≤ Vertical.height m →
  drawn_on s (row s) (Vertical.menu_lines m)
    (run_screen (Vertical.show_prologue m) s) ∧
  cursor_shown (run_screen (Vertical.show_prologue m) s) = false.
Proof.
  intros Hh. unfold Vertical.show_prologue, Vertical._print_menu.
  rewrite app_nil_l, app_assoc, run_screen_app.
  assert (fills
    ((if truthy (PyStr (Vertical.title m))
      then [ansi.write (ansi.colorize (Vertical.title m) "white" None true ++ [Newline])]
      else [])
     ++ imap (λ i option, ansi.write (Vertical.menu_line m (Z.of_nat i) option))
          (Vertical.page m))
    (Vertical.menu_lines m)) as Hfills.
  { unfold Vertical.menu_lines. destruct (truthy _).
    - replace (Vertical.height m + 1) with (1 + Vertical.height m) by lia.
      apply fills_app; [lia | lia | | by apply fills_vertical_page].
      apply fills_line. repeat constructor. done.
    - by apply fills_vertical_page. }
  destruct (Hfills s) as (Hr & Hs & Hc & Hi).
  set (s1 := run_screen (_ ++ _) s) in *. clearbody s1.
  split; [| done]. split; [cbn; lia |]. split; [cbn; lia |].
  intros r Hout. cbn. by apply Hi.
Qed.

Lemma vertical_redraw_drawn s0 top lines m s :
  0 ≤ Vertical.height m ≤ lines →
  drawn_on s0 top lines s →
  drawn_on s0 top lines (run_screen (Vertical._print_menu true m) s).
Proof.
  intros Hh (Hr & Hs & Hi). unfold Vertical._print_menu.
  rewrite run_screen_app.
  set (s1 := run_screen [ansi.restore_position; ansi.up (Vertical.height m)] s).
  assert (row s1 = top + lines - Vertical.height m ∧ saved_row s1 = top + lines ∧
          inked s1 = inked s) as (Hr1 & Hs1 & Hi1).
  { subst s1. cbn. rewrite Hs. done. }
  destruct (fills_vertical_page m ltac:(lia) s1) as (Hr2 & Hs2 & _ & Hi2).
  split; [lia |]. split; [congruence |].
  intros r Hout. rewrite Hi2 by lia. rewrite Hi1. by apply Hi.
Qed.

Lemma vertical_on_key_frame key m :
  match Vertical.on_key key m with
  | Vertical.Continue m' | Vertical.Return _ m' | Vertical.Throw _ m' =>
    Vertical.height m' = Vertical.height m ∧
    Vertical.title m' = Vertical.title m ∧
    Vertical.clearOnExit m' = Vertical.clearOnExit m
  end.
Proof.
  unfold Vertical.on_key.
  repeat match goal with
         | |- context [String.eqb key ?n] => destruct (String.eqb key n)
         end;
    repeat case_match; simplify_eq; done.
Qed.

Lemma vertical_clamp_frame m :
  Vertical.height (Vertical.clamp m) = Vertical.height m ∧
  Vertical.title (Vertical.clamp m) = Vertical.title m ∧
  Vertical.clearOnExit (Vertical.clamp m) = Vertical.clearOnExit m.
Proof. unfold Vertical.clamp. by repeat case_match. Qed.

Lemma vertical_loop_drawn s0 top lines src m s :
  0 ≤ Vertical.height m ≤ lines →
  drawn_on s0 top lines s →
  let o := Vertical.keyboard_loop m src in
  drawn_on s0 top lines (run_screen (ran_output o) s) ∧
  cursor_shown (run_screen (ran_output o) s) = cursor_shown s ∧
  Vertical.height (ran_object o) = Vertical.height m ∧
  Vertical.title (ran_object o) = Vertical.title m ∧
  Vertical.clearOnExit (ran_object o) = Vertical.clearOnExit m.
Proof.
  revert m s. induction src as [| [key | e] src IH]; intros m s Hh Hdrawn; [done | | done].
  cbn [Vertical.keyboard_loop].
  pose proof (vertical_on_key_frame key m) as Hframe.
  destruct (Vertical.on_key key m) as [m1 | r m1 | e m1]; [| done | done].
  destruct Hframe as (Hh1 & Ht1 & Hc1).
  destruct (vertical_clamp_frame m1) as (Hh2 & Ht2 & Hc2).
  unfold Vertical.settle. cbn zeta.
  destruct (py_mod _ _) as [e | r].
  { cbn. split; [done |]. split; [done |]. split; [congruence | split; congruence]. }
  set (m2 := Vertical.set_first _ (Vertical.clamp m1)).
  assert (Vertical.height m2 = Vertical.height m ∧ Vertical.title m2 = Vertical.title m
          ∧ Vertical.clearOnExit m2 = Vertical.clearOnExit m) as (Hh3 & Ht3 & Hc3)
    by (subst m2; cbn; split; [| split]; congruence).
  clearbody m2.
  destruct (IH m2 (run_screen (Vertical._print_menu true m2) s))
    as (Hd & Hcur & Hh4 & Ht4 & Hc4);
    [lia | apply vertical_redraw_drawn; [lia | done] |].
  cbn zeta.
  assert (ran_output (ran_after (Vertical._print_menu true m2)
                        (Vertical.keyboard_loop m2 src))
          = Vertical._print_menu true m2 ++ ran_output (Vertical.keyboard_loop m2 src))
    as -> by (by destruct (Vertical.keyboard_loop m2 src)).
  assert (ran_object (ran_after (Vertical._print_menu true m2)
                        (Vertical.keyboard_loop m2 src))
          = ran_object (Vertical.keyboard_loop m2 src))
    as -> by (by destruct (Vertical.keyboard_loop m2 src)).
  rewrite run_screen_app.
  split; [done |]. split; [| split; [| split]; congruence].
  rewrite Hcur. unfold Vertical._print_menu. rewrite run_screen_app.
  destruct (fills_vertical_page m2 ltac:(lia)
              (run_screen [ansi.restore_position; ansi.up (Vertical.height m2)] s))
    as (_ & _ & -> & _).
  done.
Qed.

(** X30. However [show] of the vertical menu is left (enter, esc, the end
    of the key stream, an exception), on a menu of height 0 or more the
    cursor is shown again, and nothing outside the lines of the menu (the
    title line, if any, and [height] lines from the row where [show]
    started) has been touched.  With [clearOnExit] these lines hold no text
    any more and the cursor is back on the row where [show] started;
    without it the cursor is on the row under the menu. *)
Theorem vertical_show_cleans_up m src scr :
  0 ≤ Vertical.height m →
  let s := run_screen (ran_output (Vertical.show m src)) scr in
  cursor_shown s = true ∧
  (∀ r, ¬ (row scr ≤ r < row scr + Vertical.menu_lines m) →
        (r ∈ inked s ↔ r ∈ inked scr)) ∧
  (Vertical.clearOnExit m = true →
   row s = row scr ∧
   ∀ r, row scr ≤ r < row scr + Vertical.menu_lines m → r ∉ inked s) ∧
  (Vertical.clearOnExit m = false → row s = row scr + Vertical.menu_lines m).
Proof.
  intros Hh.
  assert (0 ≤ Vertical.menu_lines m ∧ Vertical.height m ≤ Vertical.menu_lines m)
    as (Hl & Hhl) by (unfold Vertical.menu_lines; destruct (truthy _); lia).
  destruct (vertical_prologue_drawn m scr Hh) as (Hdrawn & _).
  destruct (vertical_loop_drawn scr (row scr) (Vertical.menu_lines m) src m
              (run_screen (Vertical.show_prologue m) scr) ltac:(lia) Hdrawn)
    as ((Hr & Hs & Hi) & _ & Hh' & Ht' & Hc').
  assert (ran_output (Vertical.show m src)
          = Vertical.show_prologue m ++ ran_output (Vertical.keyboard_loop m src)
              ++ Vertical.cleanup (ran_object (Vertical.keyboard_loop m src)))
    as Hout by (unfold Vertical.show; by destruct (Vertical.keyboard_loop m src)).
  cbn zeta. rewrite Hout, !run_screen_app.
  set (s2 := run_screen (ran_output (Vertical.keyboard_loop m src))
               (run_screen (Vertical.show_prologue m) scr)) in *.
  clearbody s2.
  unfold Vertical.cleanup. rewrite Hc', Hh', Ht'. fold (Vertical.menu_lines m).
  destruct (Vertical.clearOnExit m).
  - rewrite !run_screen_app.
    set (s3 := run_screen [ansi.restore_position; ansi.up (Vertical.menu_lines m)] s2).
    assert (row s3 = row scr ∧ inked s3 = inked s2) as (Hr3 & Hi3)
      by (subst s3; cbn; split; [lia | done]).
    destruct (erase_lines (xrange (Vertical.menu_lines m)) s3) as (Hr4 & _ & Hi4).
    rewrite len_xrange in Hr4, Hi4 by done.
    set (s4 := run_screen (xrange (Vertical.menu_lines m) ≫= _) s3) in *.
    clearbody s4. cbn.
    split; [done |]. split.
    { intros r Hout'. rewrite Hi4, Hi3, Hr3. rewrite <- (Hi r Hout'). tauto. }
    split; [| done]. intros _. split; [lia |].
    intros r Hin. rewrite Hi4, Hr3. tauto.
  - cbn. split; [done |]. split; [exact Hi |]. split; [done |]. intros _. exact Hr.
Qed.

Lemma vertical_show_cleans_up_witness :
  cursor_shown (run_screen
    (ran_output (Vertical.show
       (Vertical.mkVerticalMenu "Fruit" ["apple"; "buzz"; "fizz"; "grape"; "kiwi"]
          0 5 true 2 0 true ∅)
       [Key "down"; Key " "; Key "pageDown"; Key "enter"]))
    (mkScreen 0 0 ∅ true)) = true ∧
  ∀ r, r ∉ inked (run_screen
         (ran_output (Vertical.show
            (Vertical.mkVerticalMenu "Fruit" ["apple"; "buzz"; "fizz"; "grape"; "kiwi"]
               0 5 true 2 0 true ∅)
            [Key "down"; Key " "; Key "pageDown"; Key "enter"]))
         (mkScreen 0 0 ∅ true)).
Proof.
  destruct (vertical_show_cleans_up
              (Vertical.mkVerticalMenu "Fruit" ["apple"; "buzz"; "fizz"; "grape"; "kiwi"]
                 0 5 true 2 0 true ∅)
              [Key "down"; Key " "; Key "pageDown"; Key "enter"]
              (mkScreen 0 0 ∅ true) ltac:(cbn; lia))
    as (Hshown & Hout & Hclear & _).
  split; [exact Hshown |].
  destruct (Hclear eq_refl) as (_ & Hin).
  intros r Hr. destruct (decide (0 ≤ r < 0 + 3)) as [Hrow | Hrow].
  - by apply (Hin r).
  - apply (Hout r Hrow) in Hr. by apply not_elem_of_empty in Hr.
Defined.
